(** * Dengue Guard AI frontend: risk scoring, caching and client fallbacks

    A shallow embedding of the client-side logic of the dashboard:

    - [assessDengueRisk] and [WeatherService.getWeatherStackData]
      (src/services/weatherService.ts);
    - [getSimulatedPrediction], [predictOutbreak], [submitReport] and
      [mapBackendCategoryToFrontend] of the live-weather client, and the
      second [predictOutbreak] kept in the same file
      (src/lib/advanced-dengue-ai-client.ts);
    - the rest of the weather service: [getMalaysiaWeatherForecast],
      [getDetailedRiskAnalysis], [getWeatherWithRisk] with its estimate
      [getFallbackWeatherData], and [getWeatherWarnings];
    - the rest of the live-weather client: [healthCheck], [analyzeImage],
      [mapCategoryToRiskLevel] and the five calls that fetch a document
      ([getDashboardData], [getHeatmapData], [getQuantumOptimization],
      [trainModel], [getGamificationStats]).

    JavaScript numbers are IEEE 754 binary64 values and are modelled by
    Rocq's primitive floats, so rounding is the one the browser performs.
    Values decoded from JSON are modelled by [JsVal]; network calls and the
    clock are effects of a small state-and-exception monad [M] whose
    environment holds the backend and the clock as oracles. *)

From Stdlib Require Import ZArith String Ascii List Floats Uint63 Lia.
From stdpp Require Import gmap strings pretty.

Set Warnings "-inexact-float,-register-all".
#[local] Open Scope Z_scope.

(* ===================================================================== *)
(** ** JavaScript values *)
(* ===================================================================== *)

(** A value as [response.json()] yields it, extended with [undefined], the
    result of reading a property that is not there. *)
Inductive JsVal : Type :=
  | JUndefined
  | JNull
  | JBool (b : bool)
  | JNum (x : float)
  | JStr (s : string)
  | JArr (items : list JsVal)
  | JObj (props : list (string * JsVal)).

(** What a [throw] carries: an [Error] instance with its message, or any
    other value (for which [error instanceof Error] is false). *)
Inductive Thrown : Type :=
  | ErrorObj (message : string)
  | NonError (v : JsVal).

(** The parts of the host that the source calls but does not define.  Every
    statement below holds for every such host. *)
Class Runtime : Type := {
  (** [Number.prototype.toString], also used by template literals. *)
  Number_toString : float -> string;
  (** [ToNumber] applied to a string. *)
  String_toNumber : string -> float;
  (** [new Date(ms).toISOString()]. *)
  Date_toISOString : Z -> string;
  (** Message of the [TypeError] raised when property [k] of [v]
      ([null] or [undefined]) is read. *)
  readPropertyMessage : JsVal -> string -> string;
  (** Message of the [TypeError] raised when a value has no callable
      method of the given name. *)
  notAFunctionMessage : string -> string;
  (** Message of the [TypeError] raised when an object has no primitive
      value. *)
  noPrimitiveMessage : string
}.

(** [ToBoolean]: the falsy values are [undefined], [null], [false], [+0],
    [-0], [NaN] and the empty string. *)
Definition truthy (v : JsVal) : bool :=
  match v with
  | JUndefined | JNull => false
  | JBool b => b
  | JNum x => negb (PrimFloat.is_nan x || PrimFloat.is_zero x)
  | JStr s => negb (String.eqb s "")
  | JArr _ | JObj _ => true
  end.

(** [a || b]. *)
Definition js_or (a b : JsVal) : JsVal := if truthy a then a else b.

(** Own property lookup of an object decoded from JSON; the list holds
    each property once. *)
Fixpoint own (k : string) (props : list (string * JsVal)) : option JsVal :=
  match props with
  | [] => None
  | (k', v) :: rest => if String.eqb k k' then Some v else own k rest
  end.

Definition nullish (v : JsVal) : bool :=
  match v with JUndefined | JNull => true | _ => false end.

Section JsOperations.
Context `{rt : Runtime}.

(** [v.k] for the property names the clients read.  None of them is a
    property of [Object.prototype], [Array.prototype] or of the wrappers
    of the primitive types, so only own properties of objects are found;
    reading from [null] or [undefined] throws. *)
Definition getProp (v : JsVal) (k : string) : Thrown + JsVal :=
  match v with
  | JUndefined | JNull => inl (ErrorObj (readPropertyMessage v k))
  | JObj props => inr (default JUndefined (own k props))
  | _ => inr JUndefined
  end.

(** [v?.k]. *)
Definition getPropOpt (v : JsVal) (k : string) : Thrown + JsVal :=
  if nullish v then inr JUndefined else getProp v k.

(** [ToString].  An array is joined with commas, [null] and [undefined]
    elements giving the empty string.  A decoded object inherits
    [Object.prototype.toString] unless it has an own property of that
    name, which JSON can only fill with a value that is not callable:
    then no method yields a primitive and a [TypeError] is thrown. *)
Fixpoint ToString (v : JsVal) : Thrown + string :=
  match v with
  | JUndefined => inr "undefined"%string
  | JNull => inr "null"%string
  | JBool b => inr (if b then "true" else "false")%string
  | JNum x => inr (Number_toString x)
  | JStr s => inr s
  | JArr items =>
      (fix join (l : list JsVal) : Thrown + string :=
         match l with
         | [] => inr ""%string
         | x :: rest =>
             let elt := if nullish x then inr ""%string else ToString x in
             match elt with
             | inl e => inl e
             | inr s =>
                 match rest with
                 | [] => inr s
                 | _ :: _ =>
                     match join rest with
                     | inl e => inl e
                     | inr r => inr (s +:+ "," +:+ r)
                     end
                 end
             end
         end) items
  | JObj props =>
      match own "toString" props with
      | Some _ => inl (ErrorObj noPrimitiveMessage)
      | None => inr "[object Object]"%string
      end
  end.

(** [ToNumber], as applied by [/] to its operands. *)
Definition ToNumber (v : JsVal) : Thrown + float :=
  match v with
  | JUndefined => inr PrimFloat.nan
  | JNull => inr 0%float
  | JBool b => inr (if b then 1 else 0)%float
  | JNum x => inr x
  | JStr s => inr (String_toNumber s)
  | JArr _ | JObj _ =>
      match ToString v with
      | inl e => inl e
      | inr s => inr (String_toNumber s)
      end
  end.
End JsOperations.

(** [Math.floor]: the largest integral value not above [x]; [NaN], the
    infinities and the zeros are returned unchanged. *)
Definition Math_floor (x : float) : float :=
  match Prim2SF x with
  | S754_finite s m e =>
      if 0 <=? e then x
      else
        let q := Z.shiftr (Z.pos m) (- e) in
        let exact := Z.shiftl q (- e) =? Z.pos m in
        if s then PrimFloat.opp (PrimFloat.of_uint63 (Uint63.of_Z (if exact then q else q + 1)))
        else PrimFloat.of_uint63 (Uint63.of_Z q)
  | _ => x
  end.

(** [Math.min] of two numbers: [NaN] if either is, and [-0] below [+0]. *)
Definition Math_min (a b : float) : float :=
  if PrimFloat.is_nan a || PrimFloat.is_nan b then PrimFloat.nan
  else if PrimFloat.ltb a b then a
  else if PrimFloat.ltb b a then b
  else if PrimFloat.get_sign a then a else b.

(** [String.prototype.toLowerCase].  Strings are sequences of bytes, and
    the letters A to Z are the ones mapped; the words the clients look for
    are ASCII. *)
Definition lower_ascii (c : ascii) : ascii :=
  let n := N_of_ascii c in
  if ((65 <=? n) && (n <=? 90))%N then ascii_of_N (n + 32) else c.

Fixpoint toLowerCase (s : string) : string :=
  match s with
  | EmptyString => EmptyString
  | String c rest => String (lower_ascii c) (toLowerCase rest)
  end.

(** [encodeURIComponent] on the UTF-8 bytes of a string: letters, digits
    and [- _ . ! ~ * ' ( )] are kept, every other byte becomes [%XX]. *)
Definition hex_digit (n : N) : ascii :=
  ascii_of_N (if (n <? 10)%N then 48 + n else 55 + n).

Definition unreserved (c : ascii) : bool :=
  let n := N_of_ascii c in
  ((65 <=? n) && (n <=? 90) || (97 <=? n) && (n <=? 122) || (48 <=? n) && (n <=? 57))%N
  || existsb (Ascii.eqb c) (list_ascii_of_string "-_.!~*'()").

Fixpoint encodeURIComponent (s : string) : string :=
  match s with
  | EmptyString => EmptyString
  | String c rest =>
      if unreserved c then String c (encodeURIComponent rest)
      else
        let n := N_of_ascii c in
        String "%" (String (hex_digit (n / 16)) (String (hex_digit (n mod 16))
          (encodeURIComponent rest)))
  end.

(** [s.includes(sub)]. *)
Fixpoint includes (s sub : string) : bool :=
  String.prefix sub s
  || match s with
     | EmptyString => false
     | String _ rest => includes rest sub
     end.

(* ===================================================================== *)
(** ** Network, clock and exceptions *)
(* ===================================================================== *)

(** A [File] handed to [FormData.append]; its content is not inspected. *)
Record File : Type := { file_name : string; file_size : N }.

Inductive FormValue : Type :=
  | FormText (s : string)
  | FormFile (f : File).

(** The [body] option of [fetch]: nothing, the value given to
    [JSON.stringify], or the entries of a [FormData]. *)
Inductive Body : Type :=
  | NoBody
  | JsonBody (v : JsVal)
  | FormBody (entries : list (string * FormValue)).

Record Request : Type := {
  req_url : string;
  req_method : string;
  req_headers : list (string * string);
  req_body : Body
}.

(** What the clients read of a [Response]: the status line and the outcome
    of [response.json()] (a rejection when the body is not JSON). *)
Record Response : Type := {
  resp_status : Z;
  resp_statusText : string;
  resp_json : Thrown + JsVal
}.

(** [response.ok]: the status is in the range 200-299. *)
Definition ok (r : Response) : bool :=
  (200 <=? resp_status r) && (resp_status r <=? 299).

(** An entry of [WeatherService.cache]. *)
Module CacheEntry.
Record t : Type := { data : JsVal; timestamp : Z }.
End CacheEntry.

(** The outside world: what the backend answers to a request, given the
    requests made before it (a rejection of [fetch], or a response), and
    what successive readings of the clock return, in milliseconds. *)
Record Env : Type := {
  backend : list Request -> Request -> Thrown + Response;
  clock : nat -> Z
}.

(** The state the clients act on: the cache of the weather service, the
    requests sent so far (oldest first) and the number of clock readings. *)
Record World : Type := {
  cache : gmap string CacheEntry.t;
  log : list Request;
  ticks : nat
}.

(** A computation either returns or throws, and leaves a new state. *)
Definition M (A : Type) : Type := Env -> World -> (Thrown + A) * World.

Definition ret {A} (a : A) : M A := fun _ w => (inr a, w).

Definition throw {A} (e : Thrown) : M A := fun _ w => (inl e, w).

Definition bind {A B} (m : M A) (k : A -> M B) : M B :=
  fun env w =>
    match m env w with
    | (inr a, w') => k a env w'
    | (inl e, w') => (inl e, w')
    end.

(** [try { m } catch (error) { h error }]. *)
Definition try_catch {A} (m : M A) (h : Thrown -> M A) : M A :=
  fun env w =>
    match m env w with
    | (inr a, w') => (inr a, w')
    | (inl e, w') => h e env w'
    end.

(** A pure step that may throw. *)
Definition lift {A} (r : Thrown + A) : M A := fun _ w => (r, w).

Declare Scope js_scope.
Delimit Scope js_scope with js.
Notation "x <- c1 ;; c2" := (bind c1 (fun x => c2))
  (at level 100, c1 at next level, right associativity) : js_scope.
Notation "c1 ;; c2" := (bind c1 (fun _ => c2))
  (at level 100, right associativity) : js_scope.
#[local] Open Scope js_scope.

(** [await fetch(...)]: the request is recorded and the backend answers. *)
Definition fetch (req : Request) : M Response :=
  fun env w =>
    (backend env (log w) req,
     {| cache := cache w; log := log w ++ [req]; ticks := ticks w |}).

(** [await response.json()]. *)
Definition response_json (r : Response) : M JsVal := lift (resp_json r).

(** [Date.now()], and the time held by [new Date()]. *)
Definition Date_now : M Z :=
  fun env w =>
    (inr (clock env (ticks w)),
     {| cache := cache w; log := log w; ticks := S (ticks w) |}).

Definition get_cache (k : string) : M (option CacheEntry.t) :=
  fun _ w => (inr (cache w !! k), w).

Definition set_cache (k : string) (e : CacheEntry.t) : M unit :=
  fun _ w =>
    (inr tt, {| cache := <[k := e]> (cache w); log := log w; ticks := ticks w |}).

(** [error instanceof Error ? error.message : fallback]. *)
Definition message_or (e : Thrown) (fallback : string) : string :=
  match e with
  | ErrorObj m => m
  | NonError _ => fallback
  end.

(** [new Error(v)]: the message is [ToString v], absent when [v] is
    [undefined] (then [message] is the empty string of the prototype). *)
Definition new_Error `{rt : Runtime} (v : JsVal) : Thrown + Thrown :=
  match v with
  | JUndefined => inr (ErrorObj "")
  | _ => match ToString v with
         | inl e => inl e
         | inr s => inr (ErrorObj s)
         end
  end.

(* ===================================================================== *)
(** ** Weather risk scorer (src/services/weatherService.ts) *)
(* ===================================================================== *)

Inductive RiskLevel : Type := Low | Medium | High | Critical.

Definition RiskLevel_toString (r : RiskLevel) : string :=
  match r with
  | Low => "Low" | Medium => "Medium" | High => "High" | Critical => "Critical"
  end.

(** The two locals of [assessDengueRisk] that the rules update. *)
Record Scoring : Type := { reasons : list string; riskScore : Z }.

(** [riskScore += points; reasons.push(reason)]. *)
Definition score (points : Z) (reason : string) (st : Scoring) : Scoring :=
  {| reasons := reasons st ++ [reason]; riskScore := riskScore st + points |}.

Record Assessment : Type := { risk : RiskLevel; reasoning : list string }.

Section Scorer.
Context `{rt : Runtime}.

(** The three rule blocks of [assessDengueRisk], in source order. *)
Definition assessDengueRisk_rules (temp humidity rainfall : float) : Scoring :=
  let st := {| reasons := []; riskScore := 0 |} in
  (* Temperature assessment *)
  let st :=
    if (25 <=? temp)%float && (temp <=? 30)%float then
      score 3 "Temperature in optimal Aedes breeding range (25-30°C)" st
    else if (30 <? temp)%float && (temp <=? 35)%float then
      score 2 "High temperature accelerates mosquito development" st
    else if (35 <? temp)%float then
      score 1 "Extreme heat may reduce mosquito activity" st
    else st in
  (* Humidity assessment *)
  let st :=
    if (70 <=? humidity)%float then
      score 3 ("High humidity (" +:+ Number_toString humidity
               +:+ "%) supports mosquito survival") st
    else if (60 <=? humidity)%float then
      score 2 "Moderate humidity suitable for mosquito breeding" st
    else if (humidity <? 50)%float then
      score (-1) "Low humidity inhibits mosquito survival" st
    else st in
  (* Rainfall assessment *)
  let st :=
    if (100 <? rainfall)%float then
      score 3 "Heavy rainfall creates multiple breeding sites" st
    else if (50 <? rainfall)%float then
      score 2 "Moderate rainfall provides water accumulation" st
    else st in
  st.

(** The level block: thresholds on the summed score, the two upper
    levels pushing one more reason. *)
Definition assessDengueRisk (temp humidity rainfall : float) : Assessment :=
  let st := assessDengueRisk_rules temp humidity rainfall in
  if 7 <=? riskScore st then
    {| risk := Critical;
       reasoning := reasons st ++
         ["Conditions match July 2025 heatwave/September flood patterns"%string] |}
  else if 5 <=? riskScore st then
    {| risk := High;
       reasoning := reasons st ++
         ["Similar to peak monsoon conditions in Selangor"%string] |}
  else if 3 <=? riskScore st then
    {| risk := Medium; reasoning := reasons st |}
  else
    {| risk := Low; reasoning := reasons st |}.

(** [WeatherService.calculateBreedingRisk]. *)
Definition calculateBreedingRisk (temperature humidity rainfall : float) : RiskLevel :=
  risk (assessDengueRisk temperature humidity rainfall).
End Scorer.


(* ===================================================================== *)
(** ** Weather gateway cache (src/services/weatherService.ts) *)
(* ===================================================================== *)

Definition WEATHERSTACK_API_KEY : string := "bc84b5b2cc1bd78082aa639929e9c533".
Definition WEATHERSTACK_BASE_URL : string := "http://api.weatherstack.com".

(** [cacheTimeout]: ten minutes, in milliseconds. *)
Definition cacheTimeout : Z := 10 * 60 * 1000.

(** [fetch(url)] with no options: a GET without a body. *)
Definition get_request (u : string) : Request :=
  {| req_url := u; req_method := "GET"; req_headers := []; req_body := NoBody |}.

Section WeatherService.

Definition weatherstack_key (location : string) : string :=
  "weatherstack_" +:+ location.

Definition weatherstack_request (location : string) : Request :=
  get_request (WEATHERSTACK_BASE_URL +:+ "/current?access_key="
               +:+ WEATHERSTACK_API_KEY +:+ "&query="
               +:+ encodeURIComponent location).

(** The cache test of [getWeatherStackData]: the clock is read only when
    the key has an entry ([&&] short-circuits). *)
Definition cached (cacheKey : string) : M (option JsVal) :=
  entry <- get_cache cacheKey ;;
  match entry with
  | Some e =>
      now <- Date_now ;;
      ret (if now - CacheEntry.timestamp e <? cacheTimeout
           then Some (CacheEntry.data e) else None)
  | None => ret None
  end.

(** [WeatherService.getWeatherStackData]; [null] is [JNull].  An omitted
    argument stands for ["Kuala Lumpur"]. *)
Definition getWeatherStackData (location : string) : M JsVal :=
  let cacheKey := weatherstack_key location in
  hit <- cached cacheKey ;;
  match hit with
  | Some d => ret d
  | None =>
      try_catch
        (response <- fetch (weatherstack_request location) ;;
         if negb (ok response) then
           throw (ErrorObj ("WeatherStack API error: "
                            +:+ pretty (resp_status response)))
         else
           d <- response_json response ;;
           now <- Date_now ;;
           set_cache cacheKey {| CacheEntry.data := d; CacheEntry.timestamp := now |} ;;
           ret d)
        (fun _ => ret JNull)
  end.
End WeatherService.

(* ===================================================================== *)
(** ** Prediction client (src/lib/advanced-dengue-ai-client.ts) *)
(* ===================================================================== *)

Definition API_BASE_URL : string := "http://localhost:8002".

Module OutbreakPredictionRequest.
Record t : Type := {
  location : string;
  state : string;
  temperature : option float;
  humidity : option float;
  rainfall : option float;
  wind_speed : option float;
  description : option string;
  date : option string
}.
End OutbreakPredictionRequest.

Module AdvancedOutbreakPrediction.
Record Prediction : Type := {
  outbreak_probability : float;
  risk_level : JsVal;
  predicted_cases : JsVal;
  confidence : JsVal
}.
Record EnvironmentalFactors : Type := {
  temperature_impact : float;
  humidity_impact : float;
  rainfall_impact : float;
  population_density_impact : float
}.
Record FeatureImportance : Type := {
  temperature : float;
  humidity : float;
  rainfall : float
}.
Record RealAiAnalysis : Type := {
  model_used : string;
  feature_importance : FeatureImportance;
  accuracy_score : float;
  data_source : string
}.
Record ResourceAllocation : Type := {
  prevention_priority : string;
  monitoring_intensity : string
}.
Record QuantumInsights : Type := {
  optimal_response_strategy : string;
  resource_allocation : ResourceAllocation
}.
Record t : Type := {
  status : string;
  prediction : Prediction;
  environmental_factors : EnvironmentalFactors;
  recommendations : JsVal;
  real_ai_analysis : RealAiAnalysis;
  quantum_insights : QuantumInsights;
  weather_data : JsVal;
  timestamp : string
}.
End AdvancedOutbreakPrediction.

(** An optional number as a property value: absent is [undefined]. *)
Definition opt_num (x : option float) : JsVal :=
  match x with Some v => JNum v | None => JUndefined end.

Definition opt_str (x : option string) : JsVal :=
  match x with Some v => JStr v | None => JUndefined end.

(** [x > c] for an optional number: [undefined > c] is false. *)
Definition opt_gt (x : option float) (c : float) : bool :=
  match x with Some v => (c <? v)%float | None => false end.

(** [x || d] on numbers. *)
Definition num_or (x d : float) : float :=
  if PrimFloat.is_nan x || PrimFloat.is_zero x then d else x.

(** [a || b] where [b] is evaluated only when [a] is falsy. *)
Definition or_else (ma mb : M JsVal) : M JsVal :=
  a <- ma ;; if truthy a then ret a else mb.

Infix "|||" := or_else (at level 50, left associativity) : js_scope.

Definition strings (l : list string) : JsVal := JArr (map JStr l).

Section PredictionClient.
Context `{rt : Runtime}.
(** [this.baseUrl]. *)
Variable baseUrl : string.

Import AdvancedOutbreakPrediction.

(** [this.getSimulatedPrediction(data)]. *)
Definition getSimulatedPrediction (data : OutbreakPredictionRequest.t)
  : M AdvancedOutbreakPrediction.t :=
  let tempRisk := if opt_gt (OutbreakPredictionRequest.temperature data) 28 then 0.8%float else 0.5%float in
  let humidityRisk := if opt_gt (OutbreakPredictionRequest.humidity data) 70 then 0.9%float else 0.6%float in
  let rainfallRisk := if opt_gt (OutbreakPredictionRequest.rainfall data) 5 then 0.7%float else 0.4%float in
  let avgRisk := ((tempRisk + humidityRisk + rainfallRisk) / 3)%float in
  let riskLevel :=
    if (0.8 <? avgRisk)%float then "Critical"%string
    else if (0.6 <? avgRisk)%float then "High"%string
    else if (0.4 <? avgRisk)%float then "Medium"%string
    else "Low"%string in
  now <- Date_now ;;
  ret {|
    status := "success (simulated)";
    prediction := {|
      outbreak_probability := avgRisk;
      risk_level := JStr riskLevel;
      predicted_cases := JNum (Math_floor (avgRisk * 150)%float);
      confidence := JNum 0.75 |};
    environmental_factors := {|
      temperature_impact := tempRisk;
      humidity_impact := humidityRisk;
      rainfall_impact := rainfallRisk;
      population_density_impact := 0.6 |};
    recommendations := strings [
      "Remove all sources of standing water";
      "Use mosquito repellent during peak hours";
      "Keep surroundings clean and dry";
      "Monitor for fever symptoms";
      "Contact local health authorities if symptoms appear" ]%string;
    real_ai_analysis := {|
      model_used := "RandomForest";
      feature_importance := {|
        temperature := tempRisk;
        humidity := humidityRisk;
        rainfall := rainfallRisk |};
      accuracy_score := 0.75;
      data_source := "Malaysian_Real_Data" |};
    quantum_insights := {|
      optimal_response_strategy := "Standard prevention with monitoring";
      resource_allocation := {|
        prevention_priority := riskLevel;
        monitoring_intensity := "Standard" |} |};
    weather_data := JObj [
      ("temperature", opt_num (OutbreakPredictionRequest.temperature data));
      ("humidity", opt_num (OutbreakPredictionRequest.humidity data));
      ("rainfall", opt_num (OutbreakPredictionRequest.rainfall data));
      ("simulated", JBool true) ]%string;
    timestamp := Date_toISOString now
  |}.

(** The connectivity probe of [predictOutbreak]. *)
Definition health_request : Request :=
  {| req_url := baseUrl +:+ "/health";
     req_method := "GET";
     req_headers := [("Content-Type", "application/json")]%string;
     req_body := NoBody |}.

(** The prediction call of [predictOutbreak]; the state is always
    ["Selangor"]. *)
Definition predict_request (data : OutbreakPredictionRequest.t) : Request :=
  {| req_url := baseUrl +:+ "/predict/live-weather";
     req_method := "POST";
     req_headers := [("Content-Type", "application/json");
                     ("Accept", "application/json")]%string;
     req_body := JsonBody (JObj [
       ("location", JStr (OutbreakPredictionRequest.location data));
       ("state", JStr "Selangor");
       ("temperature", opt_num (OutbreakPredictionRequest.temperature data));
       ("humidity", opt_num (OutbreakPredictionRequest.humidity data));
       ("rainfall", opt_num (OutbreakPredictionRequest.rainfall data)) ]%string) |}.

(** The object literal returned on a usable response (source lines
    299-341), its properties evaluated in source order. *)
Definition normalized_prediction (result : JsVal) : M AdvancedOutbreakPrediction.t :=
  prediction_ <- (lift (getProp result "ai_analysis")
                  ||| lift (getProp result "risk_assessment")
                  ||| lift (getProp result "basic_prediction")
                  ||| ret result) ;;
  weatherData <- (lift (getProp result "real_weather_data")
                  ||| lift (getProp result "weather_data")) ;;
  probability <- (lift (getProp prediction_ "risk_score")
                  ||| lift (getProp prediction_ "confidence")
                  ||| ret (JNum 0.7)) ;;
  probability <- lift (ToNumber probability) ;;
  risk_level_ <- (lift (getProp prediction_ "risk_level") ||| ret (JStr "Medium")) ;;
  predicted_cases_ <- (lift (getProp prediction_ "predicted_cases") ||| ret (JNum 85)) ;;
  confidence_ <- (lift (getProp prediction_ "confidence") ||| ret (JNum 0.85)) ;;
  temperature_impact_ <-
    (if truthy weatherData then
       t <- lift (getProp weatherData "temperature") ;;
       t <- lift (ToNumber t) ;; ret (t / 40)%float
     else ret 0.75%float) ;;
  humidity_impact_ <-
    (if truthy weatherData then
       h <- lift (getProp weatherData "humidity") ;;
       h <- lift (ToNumber h) ;; ret (h / 100)%float
     else ret 0.8%float) ;;
  rainfall_impact_ <-
    (if truthy weatherData then
       r <- lift (getProp weatherData "rainfall") ;;
       r <- lift (ToNumber r) ;; ret (Math_min (r / 50) 1)%float
     else ret 0.3%float) ;;
  recommendations_ <-
    (lift (getProp result "recommendations")
     ||| ret (strings [
           "Remove all sources of standing water";
           "Use mosquito repellent during peak hours";
           "Keep surroundings clean and dry";
           "Monitor for fever symptoms" ]%string)) ;;
  importance_temperature <-
    (t <- lift (getPropOpt weatherData "temperature") ;;
     t <- lift (ToNumber t) ;; ret (num_or (t / 40) 0.75)%float) ;;
  importance_humidity <-
    (h <- lift (getPropOpt weatherData "humidity") ;;
     h <- lift (ToNumber h) ;; ret (num_or (h / 100) 0.8)%float) ;;
  importance_rainfall <-
    (if truthy weatherData then
       r <- lift (getProp weatherData "rainfall") ;;
       r <- lift (ToNumber r) ;; ret (Math_min (r / 50) 1)%float
     else ret 0.3%float) ;;
  now <- Date_now ;;
  ret {|
    status := "success";
    prediction := {|
      outbreak_probability := (probability / 100)%float;
      risk_level := risk_level_;
      predicted_cases := predicted_cases_;
      confidence := confidence_ |};
    environmental_factors := {|
      temperature_impact := temperature_impact_;
      humidity_impact := humidity_impact_;
      rainfall_impact := rainfall_impact_;
      population_density_impact := 0.6 |};
    recommendations := recommendations_;
    real_ai_analysis := {|
      model_used := "RandomForest";
      feature_importance := {|
        temperature := importance_temperature;
        humidity := importance_humidity;
        rainfall := importance_rainfall |};
      accuracy_score := 0.89;
      data_source := "Malaysian_Real_Data" |};
    quantum_insights := {|
      optimal_response_strategy := "Enhanced monitoring with immediate prevention";
      resource_allocation := {|
        prevention_priority := "High";
        monitoring_intensity := "Enhanced" |} |};
    weather_data := weatherData;
    timestamp := Date_toISOString now
  |}.

(** [AdvancedDengueAIClient.predictOutbreak] (source lines 228-349).  The
    [console] calls have no effect on the result and are left out. *)
Definition predictOutbreak (data : OutbreakPredictionRequest.t)
  : M AdvancedOutbreakPrediction.t :=
  try_catch
    (healthResponse <- fetch health_request ;;
     if negb (ok healthResponse) then getSimulatedPrediction data
     else
       response <- fetch (predict_request data) ;;
       if negb (ok response) then
         try_catch (response_json response)
           (fun _ => ret (JObj [("error", JStr (resp_statusText response))]%string)) ;;
         getSimulatedPrediction data
       else
         result <- response_json response ;;
         error <- lift (getProp result "error") ;;
         if truthy error then getSimulatedPrediction data
         else normalized_prediction result)
    (fun _ => getSimulatedPrediction data).
End PredictionClient.

(* ===================================================================== *)
(** ** Report client (src/lib/advanced-dengue-ai-client.ts) *)
(* ===================================================================== *)

Inductive Category : Type := Hotspot | Potential | NotHotspot | Invalid.

Definition Category_toString (c : Category) : string :=
  match c with
  | Hotspot => "Hotspot" | Potential => "Potential"
  | NotHotspot => "Not Hotspot" | Invalid => "Invalid"
  end.

(** [this.mapBackendCategoryToFrontend(backendCategory)] on a string. *)
Definition mapBackendCategoryToFrontend (backendCategory : string) : Category :=
  let category := toLowerCase backendCategory in
  if includes category "breeding" || includes category "high_risk"
     || includes category "critical" || includes category "hotspot" then
    Hotspot
  else if includes category "medium_risk" || includes category "potential" then
    Potential
  else if includes category "low_risk" || includes category "not_breeding"
          || includes category "clean" || includes category "safe" then
    NotHotspot
  else
    Hotspot.

Module AdvancedAnalysisResult.
Record Classification : Type := {
  category : Category;
  confidence : JsVal;
  description : JsVal;
  risk_level : JsVal
}.
Record AiAnalysis : Type := {
  efficientnet_prediction : JsVal;
  confidence_score : JsVal;
  feature_analysis : JsVal;
  recommendations : JsVal
}.
Record Gamification : Type := {
  points_awarded : JsVal;
  xp_gained : JsVal;
  achievement_unlocked : JsVal;
  level_up : JsVal
}.
Record t : Type := {
  status : JsVal;
  classification : Classification;
  ai_analysis : AiAnalysis;
  gamification : Gamification;
  weather_data : JsVal;
  quantum_optimization : JsVal;
  timestamp : JsVal;
  image_id : JsVal
}.
End AdvancedAnalysisResult.

Section ReportClient.
Context `{rt : Runtime}.
(** [this.baseUrl]. *)
Variable baseUrl : string.

Import AdvancedAnalysisResult.

(** The call [this.mapBackendCategoryToFrontend(v)] on a decoded value:
    only a string has a [toLowerCase] method. *)
Definition mapBackendCategoryToFrontend_call (v : JsVal) : Thrown + Category :=
  match v with
  | JStr s => inr (mapBackendCategoryToFrontend s)
  | _ => inl (ErrorObj (notAFunctionMessage "toLowerCase"))
  end.

(** The entries appended to the [FormData] of a report. *)
Definition report_form (location description : string) (imageFile : option File)
    (latitude longitude : option float) (reporterContact : option string)
  : list (string * FormValue) :=
  [("location", FormText location); ("description", FormText description)]%string
  ++ match latitude with
     | Some x => [("latitude"%string, FormText (Number_toString x))]
     | None => []
     end
  ++ match longitude with
     | Some x => [("longitude"%string, FormText (Number_toString x))]
     | None => []
     end
  ++ match reporterContact with
     | Some c => if String.eqb c "" then [] else [("reporter_contact"%string, FormText c)]
     | None => []
     end
  ++ match imageFile with
     | Some f => [("image"%string, FormFile f)]
     | None => []
     end.

Definition report_request (form : list (string * FormValue)) : Request :=
  {| req_url := baseUrl +:+ "/api/v1/report";
     req_method := "POST";
     req_headers := [];
     req_body := FormBody form |}.

(** The object literal returned for an accepted report (source lines
    568-592), its properties evaluated in source order. *)
Definition normalized_report (result : JsVal) : M AdvancedAnalysisResult.t :=
  status_ <- (lift (getProp result "status") ||| ret (JStr "success")) ;;
  backendCategory <- (lift (getProp result "ai_classification")
                      ||| ret (JStr "breeding_site")) ;;
  category_ <- lift (mapBackendCategoryToFrontend_call backendCategory) ;;
  confidence_ <- (lift (getProp result "confidence") ||| ret (JNum 0)) ;;
  description_ <- (lift (getProp result "ai_classification")
                   ||| ret (JStr "Analysis completed")) ;;
  risk_level_ <- (lift (getProp result "risk_level") ||| ret (JStr "Medium")) ;;
  efficientnet_prediction_ <- (lift (getProp result "ai_classification")
                               ||| ret (JStr "Quantum-Enhanced CNN Analysis")) ;;
  confidence_score_ <- (lift (getProp result "confidence") ||| ret (JNum 0)) ;;
  feature_analysis_ <-
    ((detailed <- lift (getProp result "detailed_analysis") ;;
      lift (getPropOpt detailed "features"))
     ||| ret (JArr [])) ;;
  recommendations_ <- (lift (getProp result "recommendations") ||| ret (JArr [])) ;;
  points_awarded_ <- (lift (getProp result "points_earned")
                      ||| lift (getProp result "points_awarded")
                      ||| ret (JNum 50)) ;;
  xp_gained_ <- (lift (getProp result "xp_earned")
                 ||| lift (getProp result "xp_gained")
                 ||| ret (JNum 25)) ;;
  achievement_unlocked_ <- lift (getProp result "achievement_unlocked") ;;
  level_up_ <- (lift (getProp result "level_up") ||| ret (JBool false)) ;;
  weather_data_ <- lift (getProp result "weather_data") ;;
  quantum_optimization_ <- lift (getProp result "quantum_optimization") ;;
  timestamp_ <- (lift (getProp result "timestamp")
                 ||| (now <- Date_now ;; ret (JStr (Date_toISOString now)))) ;;
  image_id_ <- (lift (getProp result "report_id")
                ||| (now <- Date_now ;; ret (JStr ("report_" +:+ pretty now)))) ;;
  ret {|
    status := status_;
    classification := {|
      category := category_;
      confidence := confidence_;
      description := description_;
      risk_level := risk_level_ |};
    ai_analysis := {|
      efficientnet_prediction := efficientnet_prediction_;
      confidence_score := confidence_score_;
      feature_analysis := feature_analysis_;
      recommendations := recommendations_ |};
    gamification := {|
      points_awarded := points_awarded_;
      xp_gained := xp_gained_;
      achievement_unlocked := achievement_unlocked_;
      level_up := level_up_ |};
    weather_data := weather_data_;
    quantum_optimization := quantum_optimization_;
    timestamp := timestamp_;
    image_id := image_id_
  |}.

(** The [!response.ok] branch of [submitReport]: the detail of the JSON
    body, or the status text when the body is not JSON, becomes the message
    of the error thrown. *)
Definition report_failure (response : Response) : M AdvancedAnalysisResult.t :=
  errorData <- try_catch (response_json response)
                 (fun _ => ret (JObj [("detail", JStr (resp_statusText response))]%string)) ;;
  message <- (lift (getProp errorData "detail")
              ||| ret (JStr ("Report submission failed: "
                             +:+ resp_statusText response))) ;;
  error <- lift (new_Error message) ;;
  throw error.

(** [AdvancedDengueAIClient.submitReport] (source lines 537-600). *)
Definition submitReport (location description : string) (imageFile : option File)
    (latitude longitude : option float) (reporterContact : option string)
  : M AdvancedAnalysisResult.t :=
  try_catch
    (let formData :=
       report_form location description imageFile latitude longitude reporterContact in
     response <- fetch (report_request formData) ;;
     if negb (ok response) then report_failure response
     else
       result <- response_json response ;;
       normalized_report result)
    (fun error =>
       throw (ErrorObj ("Report submission failed: "
                        +:+ message_or error "Unknown error"))).
End ReportClient.

(* ===================================================================== *)
(** ** The second client kept in advanced-dengue-ai-client.ts *)
(* ===================================================================== *)

(** The class of the same name after the separator in the source file
    (lines 700-761): its [predictOutbreak] posts to [/predict] and returns
    the decoded body as it is. *)
Module Legacy.
Section Client.
Context `{rt : Runtime}.
Variable baseUrl : string.

(** [JSON.stringify(data)]: properties that are [undefined] are left out. *)
Definition request_json (data : OutbreakPredictionRequest.t) : JsVal :=
  JObj (List.filter (fun p => negb (nullish (snd p))) [
    ("location", JStr (OutbreakPredictionRequest.location data));
    ("state", JStr (OutbreakPredictionRequest.state data));
    ("temperature", opt_num (OutbreakPredictionRequest.temperature data));
    ("humidity", opt_num (OutbreakPredictionRequest.humidity data));
    ("rainfall", opt_num (OutbreakPredictionRequest.rainfall data));
    ("wind_speed", opt_num (OutbreakPredictionRequest.wind_speed data));
    ("description", opt_str (OutbreakPredictionRequest.description data));
    ("date", opt_str (OutbreakPredictionRequest.date data)) ]%string).

Definition predict_request (data : OutbreakPredictionRequest.t) : Request :=
  {| req_url := baseUrl +:+ "/predict";
     req_method := "POST";
     req_headers := [("Content-Type", "application/json")]%string;
     req_body := JsonBody (request_json data) |}.

(** [healthCheck()]: whether [GET /health] answered with an OK status. *)
Definition healthCheck : M bool :=
  try_catch
    (response <- fetch (get_request (baseUrl +:+ "/health")) ;;
     ret (ok response))
    (fun _ => ret false).

(** [predictOutbreak(data)] (source lines 722-760). *)
Definition predictOutbreak (data : OutbreakPredictionRequest.t) : M JsVal :=
  try_catch
    (isHealthy <- healthCheck ;;
     if negb isHealthy then
       throw (ErrorObj "AI service is currently unavailable. Please try again later.")
     else
       response <- fetch (predict_request data) ;;
       if negb (ok response) then
         errorData <-
           try_catch (response_json response)
             (fun _ => ret (JObj [("detail",
                 JStr (if String.eqb (resp_statusText response) ""
                       then "Unknown error occurred"
                       else resp_statusText response))]%string)) ;;
         message <- (lift (getProp errorData "detail")
                     ||| ret (JStr "Failed to get prediction from AI model")) ;;
         error <- lift (new_Error message) ;;
         throw error
       else
         result <- response_json response ;;
         ret result)
    (fun error =>
       throw (ErrorObj (message_or error
         "An unexpected error occurred while making the prediction"))).
End Client.
End Legacy.

(* ===================================================================== *)
(** ** A concrete host, for evaluating the model on examples *)
(* ===================================================================== *)

Module Host.

(** The digits of [n] padded with zeros on the left to [width]. *)
Definition padded (width : nat) (n : Z) : string :=
  let s := pretty n in
  String.concat "" (repeat "0"%string (width - String.length s)) +:+ s.

Fixpoint drop_zeros (l : list ascii) : list ascii :=
  match l with
  | c :: rest => if Ascii.eqb c "0" then drop_zeros rest else l
  | [] => []
  end.

(** Drops the zeros at the end of a string of digits. *)
Definition strip_zeros (s : string) : string :=
  string_of_list_ascii (rev (drop_zeros (rev (list_ascii_of_string s)))).

(** The exact decimal value of a number.  It is the text ECMAScript prints
    for [NaN], the infinities and the integral values below [1e21]; for
    other values ECMAScript stops at the shortest decimal that reads back
    as the same number. *)
Definition number_text (x : float) : string :=
  match Prim2SF x with
  | S754_nan => "NaN"
  | S754_zero _ => "0"
  | S754_infinity s => if s then "-Infinity" else "Infinity"
  | S754_finite s m e =>
      (if s then "-" else "") +:+
      (if 0 <=? e then pretty (Z.shiftl (Z.pos m) e)
       else
         let whole := Z.shiftr (Z.pos m) (- e) in
         let part := Z.pos m - Z.shiftl whole (- e) in
         if part =? 0 then pretty whole
         else
           pretty whole +:+ "." +:+
           strip_zeros (padded (Z.to_nat (- e)) (Z.shiftr (part * 10 ^ (- e)) (- e))))
  end.

Definition digit_value (c : ascii) : option Z :=
  let n := Z.of_N (N_of_ascii c) in
  if (48 <=? n) && (n <=? 57) then Some (n - 48) else None.

Fixpoint digits_value (acc : Z) (s : string) : option Z :=
  match s with
  | EmptyString => Some acc
  | String c rest =>
      match digit_value c with
      | Some d => digits_value (10 * acc + d) rest
      | None => None
      end
  end.

(** [ToNumber] on the empty string and on plain decimal integers below
    [2^53]; every other string is read as [NaN] here, where ECMAScript also
    accepts blanks, signs, fractions, exponents and radix prefixes. *)
Definition string_number (s : string) : float :=
  match digits_value 0 s with
  | Some n => if n <? 2 ^ 53 then PrimFloat.of_uint63 (Uint63.of_Z n) else PrimFloat.nan
  | None => PrimFloat.nan
  end.

(** The civil date of a count of days since 1970-01-01. *)
Definition civil_from_days (days : Z) : Z * Z * Z :=
  let z := days + 719468 in
  let era := z / 146097 in
  let doe := z - era * 146097 in
  let yoe := (doe - doe / 1460 + doe / 36524 - doe / 146096) / 365 in
  let doy := doe - (365 * yoe + yoe / 4 - yoe / 100) in
  let mp := (5 * doy + 2) / 153 in
  let d := doy - (153 * mp + 2) / 5 + 1 in
  let m := if mp <? 10 then mp + 3 else mp - 9 in
  let y := yoe + era * 400 + (if m <=? 2 then 1 else 0) in
  (y, m, d).

(** [new Date(ms).toISOString()] for the years 0 to 9999. *)
Definition iso_text (ms : Z) : string :=
  let '(y, m, d) := civil_from_days (ms / 86400000) in
  let t := ms mod 86400000 in
  (padded 4 y +:+ "-" +:+ padded 2 m +:+ "-" +:+ padded 2 d +:+ "T"
   +:+ padded 2 (t / 3600000) +:+ ":" +:+ padded 2 (t / 60000 mod 60) +:+ ":"
   +:+ padded 2 (t / 1000 mod 60) +:+ "." +:+ padded 3 (t mod 1000) +:+ "Z").

(** The messages are those of V8. *)
#[export] Instance v8 : Runtime := {|
  Number_toString := number_text;
  String_toNumber := string_number;
  Date_toISOString := iso_text;
  readPropertyMessage v k :=
    ("Cannot read properties of "
     +:+ (match v with JNull => "null" | _ => "undefined" end)
     +:+ " (reading '" +:+ k +:+ "')")%string;
  notAFunctionMessage name := ("backendCategory." +:+ name +:+ " is not a function")%string;
  noPrimitiveMessage := "Cannot convert object to primitive value"
|}.

(** A backend that is down: every [fetch] rejects. *)
Definition offline : Env :=
  {| backend := fun _ _ => inl (ErrorObj "Failed to fetch");
     clock := fun n => 1735689600000 + 1000 * Z.of_nat n |}.

(** A backend that answers every request with the same response, the
    clock advancing by [step] milliseconds between two readings. *)
Definition answering (r : Response) (step : Z) : Env :=
  {| backend := fun _ _ => inr r;
     clock := fun n => 1735689600000 + step * Z.of_nat n |}.

Definition start : World := {| cache := ∅; log := []; ticks := 0 |}.

Definition json_response (code : Z) (text : string) (v : JsVal) : Response :=
  {| resp_status := code; resp_statusText := text; resp_json := inr v |}.

End Host.

(* ===================================================================== *)
(** ** Vocabulary of the statements *)
(* ===================================================================== *)

(** The value of [v.k] when reading it does not throw. *)
Definition field (v : JsVal) (k : string) : JsVal :=
  match v with
  | JObj props => default JUndefined (own k props)
  | _ => JUndefined
  end.

(** No object inside [v] has a property named [toString]: then [ToString]
    and [ToNumber] do not throw on [v] or on any value inside it. *)
Fixpoint plain (v : JsVal) : bool :=
  match v with
  | JArr items => forallb plain items
  | JObj props =>
      match own "toString" props with Some _ => false | None => true end
      && forallb (fun p => plain (snd p)) props
  | _ => true
  end.

(** [ToNumber v] when it does not throw. *)
Definition number_of `{rt : Runtime} (v : JsVal) : float :=
  match ToNumber v with inr x => x | inl _ => PrimFloat.nan end.

(** Induction on values, with the hypothesis for every element of an array
    and every property value of an object. *)
Section JsVal_nested_ind.
Variable P : JsVal -> Prop.
Hypothesis P_undefined : P JUndefined.
Hypothesis P_null : P JNull.
Hypothesis P_bool : forall b, P (JBool b).
Hypothesis P_num : forall x, P (JNum x).
Hypothesis P_str : forall s, P (JStr s).
Hypothesis P_arr : forall items, Forall P items -> P (JArr items).
Hypothesis P_obj : forall props, Forall (fun p => P (snd p)) props -> P (JObj props).

Fixpoint JsVal_nested_ind (v : JsVal) : P v :=
  match v with
  | JUndefined => P_undefined
  | JNull => P_null
  | JBool b => P_bool b
  | JNum x => P_num x
  | JStr s => P_str s
  | JArr items =>
      P_arr items
        ((fix all (l : list JsVal) : Forall P l :=
            match l with
            | [] => @List.Forall_nil _ P
            | x :: rest => @List.Forall_cons _ P x rest (JsVal_nested_ind x) (all rest)
            end) items)
  | JObj props =>
      P_obj props
        ((fix all (l : list (string * JsVal)) : Forall (fun p => P (snd p)) l :=
            match l with
            | [] => @List.Forall_nil _ _
            | (k, x) :: rest =>
                @List.Forall_cons _ (fun p => P (snd p)) (k, x) rest
                  (JsVal_nested_ind x) (all rest)
            end) props)
  end.
End JsVal_nested_ind.

(** The state after one more reading of the clock. *)
Definition tick (w : World) : World :=
  {| cache := cache w; log := log w; ticks := S (ticks w) |}.

(** The state after one more request. *)
Definition sent (req : Request) (w : World) : World :=
  {| cache := cache w; log := log w ++ [req]; ticks := ticks w |}.

(** A computation that returns [a] and leaves the state as it is. *)
Definition evaluates {A} (m : M A) (a : A) : Prop :=
  forall env w, m env w = (inr a, w).

(** Whatever a computation returns satisfies [Q]. *)
Definition returns {A} (m : M A) (Q : A -> Prop) : Prop :=
  forall env w a w', m env w = (inr a, w') -> Q a.

(** A computation that never throws. *)
Definition resolves {A} (m : M A) : Prop :=
  forall env w, exists a w', m env w = (inr a, w').

(** *** Scorer: the rules of the specification, one per variable *)

(** Each rule yields the points it adds and the reason it appends, or
    nothing when it does not contribute. *)
Definition temperature_rule (temp : float) : option (Z * string) :=
  if (25 <=? temp)%float && (temp <=? 30)%float then
    Some (3, "Temperature in optimal Aedes breeding range (25-30°C)"%string)
  else if (30 <? temp)%float && (temp <=? 35)%float then
    Some (2, "High temperature accelerates mosquito development"%string)
  else if (35 <? temp)%float then
    Some (1, "Extreme heat may reduce mosquito activity"%string)
  else None.

Definition humidity_rule `{rt : Runtime} (humidity : float) : option (Z * string) :=
  if (70 <=? humidity)%float then
    Some (3, "High humidity (" +:+ Number_toString humidity
             +:+ "%) supports mosquito survival")
  else if (60 <=? humidity)%float then
    Some (2, "Moderate humidity suitable for mosquito breeding"%string)
  else if (humidity <? 50)%float then
    Some (-1, "Low humidity inhibits mosquito survival"%string)
  else None.

Definition rainfall_rule (rainfall : float) : option (Z * string) :=
  if (100 <? rainfall)%float then
    Some (3, "Heavy rainfall creates multiple breeding sites"%string)
  else if (50 <? rainfall)%float then
    Some (2, "Moderate rainfall provides water accumulation"%string)
  else None.

Definition points_of (r : option (Z * string)) : Z :=
  match r with Some (p, _) => p | None => 0 end.

Definition reason_of (r : option (Z * string)) : list string :=
  match r with Some (_, s) => [s] | None => [] end.

(** The level for a summed score: at least 7 Critical, at least 5 High, at
    least 3 Medium, else Low. *)
Definition level_of (total : Z) : RiskLevel :=
  if 7 <=? total then Critical
  else if 5 <=? total then High
  else if 3 <=? total then Medium
  else Low.

(** The reason the level block appends. *)
Definition level_reason (l : RiskLevel) : list string :=
  match l with
  | Critical => ["Conditions match July 2025 heatwave/September flood patterns"%string]
  | High => ["Similar to peak monsoon conditions in Selangor"%string]
  | Medium | Low => []
  end.

(** *** Weather gateway *)

(** The cache of [w] cannot answer for [key] now: there is no entry, or the
    entry is ten minutes old or older at the next reading of the clock. *)
Definition stale (key : string) (env : Env) (w : World) : bool :=
  match cache w !! key with
  | Some e => negb (clock env (ticks w) - CacheEntry.timestamp e <? cacheTimeout)
  | None => true
  end.

(** The index of the clock reading whose time stamps the entry that a call
    starting in state [w] stores when it has to fetch: the reading made
    right after the response.  The cache test before it reads the clock
    once when the key has an entry (an expired one), and not at all
    otherwise. *)
Definition stamp_index (key : string) (w : World) : nat :=
  match cache w !! key with
  | Some _ => S (ticks w)
  | None => ticks w
  end.

(** A WeatherStack payload, for the examples. *)
Definition example_weather : JsVal :=
  JObj [ ("current", JObj [ ("temperature", JNum 31); ("humidity", JNum 78);
                            ("precip", JNum 2) ]);
         ("location", JObj [ ("name", JStr "Shah Alam");
                             ("region", JStr "Selangor") ]) ]%string.

(** A state whose entry for Shah Alam was stored ten minutes before the
    first reading of the clock of the examples. *)
Definition expired_world : World :=
  {| cache := {[ "weatherstack_Shah Alam"%string :=
                   {| CacheEntry.data := JNull; CacheEntry.timestamp := 1735689000000 |} ]};
     log := [];
     ticks := 0 |}.

(** *** Prediction client *)

(** The request of the specification's example; the other properties do
    not enter the simulation. *)
Definition example_request (location state : string) : OutbreakPredictionRequest.t :=
  {| OutbreakPredictionRequest.location := location;
     OutbreakPredictionRequest.state := state;
     OutbreakPredictionRequest.temperature := Some 32%float;
     OutbreakPredictionRequest.humidity := Some 80%float;
     OutbreakPredictionRequest.rainfall := Some 10%float;
     OutbreakPredictionRequest.wind_speed := None;
     OutbreakPredictionRequest.description := None;
     OutbreakPredictionRequest.date := None |}.

(** Every property that the interface requires holds a value. *)
Definition populated (r : AdvancedOutbreakPrediction.t) : Prop :=
  AdvancedOutbreakPrediction.risk_level (AdvancedOutbreakPrediction.prediction r) <> JUndefined
  /\ AdvancedOutbreakPrediction.predicted_cases (AdvancedOutbreakPrediction.prediction r) <> JUndefined
  /\ AdvancedOutbreakPrediction.confidence (AdvancedOutbreakPrediction.prediction r) <> JUndefined
  /\ AdvancedOutbreakPrediction.recommendations r <> JUndefined.

(** Whether [GET /health] answers with an OK status in state [w]. *)
Definition probe_ok (baseUrl : string) (env : Env) (w : World) : bool :=
  match backend env (log w) (health_request baseUrl) with
  | inr r => ok r
  | inl _ => false
  end.

(** [result.ai_analysis || result.risk_assessment || result.basic_prediction
    || result]. *)
Definition chosen_prediction (result : JsVal) : JsVal :=
  js_or (js_or (js_or (field result "ai_analysis") (field result "risk_assessment"))
               (field result "basic_prediction"))
        result.

(** [result.real_weather_data || result.weather_data]. *)
Definition chosen_weather (result : JsVal) : JsVal :=
  js_or (field result "real_weather_data") (field result "weather_data").

(** The failures after which [predictOutbreak] falls back: [fetch] rejects
    (transport error), the probe or the prediction response is not OK, the
    body is not JSON or is [null], or the payload has a truthy [error]. *)
Definition backend_fails (baseUrl : string) (data : OutbreakPredictionRequest.t)
    (env : Env) (w : World) : bool :=
  match backend env (log w) (health_request baseUrl) with
  | inl _ => true
  | inr health =>
      negb (ok health)
      || match backend env (log w ++ [health_request baseUrl])
                 (predict_request baseUrl data) with
         | inl _ => true
         | inr response =>
             negb (ok response)
             || match resp_json response with
                | inl _ => true
                | inr result => nullish result || truthy (field result "error")
                end
         end
  end.

(** *** Report client *)

(** What the [!response.ok] branch of [submitReport] throws. *)
Definition failure_thrown `{rt : Runtime} (response : Response) : Thrown :=
  let errorData :=
    match resp_json response with
    | inr v => v
    | inl _ => JObj [("detail", JStr (resp_statusText response))]%string
    end in
  match getProp errorData "detail" with
  | inl e => e
  | inr detail =>
      match new_Error (js_or detail
              (JStr ("Report submission failed: " +:+ resp_statusText response))) with
      | inl e => e
      | inr error => error
      end
  end.

(** The body FastAPI sends with status 422 when a form field is missing:
    [detail] is a list of objects. *)
Definition validation_error_body : JsVal :=
  JObj [ ("detail", JArr [ JObj [ ("loc", JArr [JStr "body"; JStr "location"]);
                                  ("msg", JStr "field required");
                                  ("type", JStr "value_error.missing") ] ]) ]%string.

(** Responses with zero-valued fields, for the examples. *)
Definition zero_prediction_body : JsVal :=
  JObj [ ("risk_level", JStr "Low"); ("confidence", JNum 0);
         ("predicted_cases", JNum 0) ]%string.

Definition zero_rewards_body : JsVal :=
  JObj [ ("ai_classification", JStr "clean"); ("points_earned", JNum 0);
         ("xp_earned", JNum 0) ]%string.

(** A response that gives the rewards under both names, the first ones
    zero, and a confidence of zero. *)
Definition legacy_rewards_body : JsVal :=
  JObj [ ("ai_classification", JStr "clean"); ("confidence", JNum 0);
         ("points_earned", JNum 0); ("points_awarded", JNum 10);
         ("xp_earned", JNum 0); ("xp_gained", JNum 5) ]%string.

(** A usable response whose weather data lacks the temperature. *)
Definition partial_weather_body : JsVal :=
  JObj [ ("risk_level", JStr "High");
         ("weather_data", JObj [ ("humidity", JNum 80); ("rainfall", JNum 10) ]) ]%string.

Definition default_recommendations : JsVal :=
  strings [ "Remove all sources of standing water";
            "Use mosquito repellent during peak hours";
            "Keep surroundings clean and dry";
            "Monitor for fever symptoms" ]%string.

(* ===================================================================== *)
(** ** Weather service: forecast, analysis and the chain of providers
       (src/services/weatherService.ts) *)
(* ===================================================================== *)

Definition MALAYSIA_API_BASE_URL : string := "https://api.data.gov.my".

(** [Math.round]: the nearest integral value, a tie going towards
    [+Infinity]; [NaN], the infinities and the zeros are returned
    unchanged, and a negative value that rounds to zero gives [-0]. *)
Definition Math_round (x : float) : float :=
  match Prim2SF x with
  | S754_finite s m e =>
      if 0 <=? e then x
      else
        let q := Z.shiftr (Z.pos m) (- e) in
        let part := Z.pos m - Z.shiftl q (- e) in
        let half := Z.shiftl 1 (- e - 1) in
        if s then
          PrimFloat.opp
            (PrimFloat.of_uint63 (Uint63.of_Z (if half <? part then q + 1 else q)))
        else
          PrimFloat.of_uint63 (Uint63.of_Z (if half <=? part then q + 1 else q))
  | _ => x
  end.

(** The part of the host that prints the time of day. *)
Class Locale : Type := {
  (** [new Date(ms).toLocaleTimeString()]. *)
  Date_toLocaleTimeString : Z -> string
}.

(** The key and the request of [getMalaysiaWeatherForecast]. *)
Definition malaysia_key : string := "malaysia_forecast".

Definition malaysia_request : Request :=
  get_request (MALAYSIA_API_BASE_URL +:+ "/weather/forecast").

(** [WeatherService.getMalaysiaWeatherForecast]; [null] is [JNull]. *)
Definition getMalaysiaWeatherForecast : M JsVal :=
  let cacheKey := malaysia_key in
  hit <- cached cacheKey ;;
  match hit with
  | Some d => ret d
  | None =>
      try_catch
        (response <- fetch malaysia_request ;;
         if negb (ok response) then
           throw (ErrorObj ("Malaysia API error: " +:+ pretty (resp_status response)))
         else
           d <- response_json response ;;
           now <- Date_now ;;
           set_cache cacheKey {| CacheEntry.data := d; CacheEntry.timestamp := now |} ;;
           ret d)
        (fun _ => ret JNull)
  end.

(** [WeatherService.getWeatherWarnings]: the decoded body of an OK
    response, and [null] after any failure. *)
Definition warning_request : Request :=
  get_request (MALAYSIA_API_BASE_URL +:+ "/weather/warning").

Definition getWeatherWarnings : M JsVal :=
  returned <-
    try_catch
      (response <- fetch warning_request ;;
       if ok response then
         v <- response_json response ;; ret (Some v)
       else ret None)
      (fun _ => ret None) ;;
  match returned with
  | Some v => ret v
  | None => ret JNull
  end.

Module DetailedRiskAnalysis.
Record t : Type := {
  risk : RiskLevel;
  reasoning : list string;
  historicalContext : string
}.
End DetailedRiskAnalysis.

Module WeatherData.
Record t : Type := {
  temperature : string;
  humidity : string;
  rainfall : string;
  riskFactor : RiskLevel;
  location : JsVal;
  lastUpdated : string
}.
End WeatherData.

Section WeatherProviders.
Context `{rt : Runtime} `{lc : Locale}.

(** [WeatherService.getDetailedRiskAnalysis]. *)
Definition getDetailedRiskAnalysis (temperature humidity rainfall : float)
  : DetailedRiskAnalysis.t :=
  let assessment := assessDengueRisk temperature humidity rainfall in
  let historicalContext :=
    "Based on Selangor weather patterns (June-September 2025): "%string in
  let historicalContext :=
    match risk assessment with
    | Critical =>
        historicalContext +:+
        "Similar to July 2025 heatwave (36°C, 94% humidity) and September flash floods that caused 12 fatalities."
    | High =>
        historicalContext +:+
        "Comparable to August 2025 conditions with 19 rainy days and consistent warm temperatures."
    | Medium =>
        historicalContext +:+
        "Moderate conditions, monitor for increases in temperature/humidity combination."
    | Low =>
        historicalContext +:+
        "Low risk conditions, continue standard prevention measures."
    end in
  {| DetailedRiskAnalysis.risk := risk assessment;
     DetailedRiskAnalysis.reasoning := reasoning assessment;
     DetailedRiskAnalysis.historicalContext := historicalContext |}.

(** [assessDengueRisk] as a call with values decoded from JSON runs it:
    every comparison with a number applies [ToNumber] to the value, and the
    template literal of the humidity reason applies [ToString] to it. *)
Definition assessDengueRisk_any (temp humidity rainfall : JsVal) : M Assessment :=
  let st := {| reasons := []; riskScore := 0 |} in
  (* Temperature assessment *)
  t <- lift (ToNumber temp) ;;
  let st :=
    if (25 <=? t)%float && (t <=? 30)%float then
      score 3 "Temperature in optimal Aedes breeding range (25-30°C)" st
    else if (30 <? t)%float && (t <=? 35)%float then
      score 2 "High temperature accelerates mosquito development" st
    else if (35 <? t)%float then
      score 1 "Extreme heat may reduce mosquito activity" st
    else st in
  (* Humidity assessment *)
  h <- lift (ToNumber humidity) ;;
  st <-
    (if (70 <=? h)%float then
       text <- lift (ToString humidity) ;;
       ret (score 3 ("High humidity (" +:+ text
                     +:+ "%) supports mosquito survival") st)
     else if (60 <=? h)%float then
       ret (score 2 "Moderate humidity suitable for mosquito breeding" st)
     else if (h <? 50)%float then
       ret (score (-1) "Low humidity inhibits mosquito survival" st)
     else ret st) ;;
  (* Rainfall assessment *)
  r <- lift (ToNumber rainfall) ;;
  let st :=
    if (100 <? r)%float then
      score 3 "Heavy rainfall creates multiple breeding sites" st
    else if (50 <? r)%float then
      score 2 "Moderate rainfall provides water accumulation" st
    else st in
  (* Determine risk level *)
  ret (if 7 <=? riskScore st then
         {| risk := Critical;
            reasoning := reasons st ++
              ["Conditions match July 2025 heatwave/September flood patterns"%string] |}
       else if 5 <=? riskScore st then
         {| risk := High;
            reasoning := reasons st ++
              ["Similar to peak monsoon conditions in Selangor"%string] |}
       else if 3 <=? riskScore st then
         {| risk := Medium; reasoning := reasons st |}
       else
         {| risk := Low; reasoning := reasons st |}).

(** [this.calculateBreedingRisk(...)] on such values. *)
Definition calculateBreedingRisk_any (temperature humidity rainfall : JsVal)
  : M RiskLevel :=
  assessment <- assessDengueRisk_any temperature humidity rainfall ;;
  ret (risk assessment).

(** [ToPrimitive]: an array or an object decoded from JSON becomes its
    string. *)
Definition ToPrimitive (v : JsVal) : Thrown + JsVal :=
  match v with
  | JArr _ | JObj _ =>
      match ToString v with
      | inl e => inl e
      | inr s => inr (JStr s)
      end
  | _ => inr v
  end.

(** [a + b]: concatenation as soon as one primitive is a string, and the
    sum of the numbers otherwise. *)
Definition js_add (a b : JsVal) : Thrown + JsVal :=
  match ToPrimitive a with
  | inl e => inl e
  | inr pa =>
      match ToPrimitive b with
      | inl e => inl e
      | inr pb =>
          match pa, pb with
          | JStr _, _ | _, JStr _ =>
              match ToString pa with
              | inl e => inl e
              | inr sa =>
                  match ToString pb with
                  | inl e => inl e
                  | inr sb => inr (JStr (sa +:+ sb))
                  end
              end
          | _, _ =>
              match ToNumber pa with
              | inl e => inl e
              | inr x =>
                  match ToNumber pb with
                  | inl e => inl e
                  | inr y => inr (JNum (x + y)%float)
                  end
              end
          end
      end
  end.

(** [v.length > 0]: an array or a string that is not empty; an object with
    a property [length] whose number is positive; reading [length] of
    [null] or [undefined] throws. *)
Definition has_items (v : JsVal) : Thrown + bool :=
  match v with
  | JUndefined | JNull => inl (ErrorObj (readPropertyMessage v "length"))
  | JArr items => inr (match items with [] => false | _ :: _ => true end)
  | JStr s => inr (negb (String.eqb s ""))
  | JObj props =>
      match ToNumber (default JUndefined (own "length" props)) with
      | inl e => inl e
      | inr n => inr (0 <? n)%float
      end
  | JBool _ | JNum _ => inr false
  end.

(** [v[0]] of a value other than [null] and [undefined]: the first element
    of an array, the property ["0"] of an object, the first character of a
    string (of which the code reads only properties that no string has). *)
Definition first_item (v : JsVal) : JsVal :=
  match v with
  | JArr (x :: _) => x
  | JObj props => default JUndefined (own "0" props)
  | JStr (String c _) => JStr (String c EmptyString)
  | _ => JUndefined
  end.

(** [WeatherService.getFallbackWeatherData]; [random n] is the value of the
    call of [Math.random()] number [n] of the three the function makes. *)
Definition getFallbackWeatherData (random : nat -> float) : M WeatherData.t :=
  let temperature := (28 + random 0%nat * 6)%float in
  let humidity := (65 + random 1%nat * 20)%float in
  let rainfall := (random 2%nat * 20)%float in
  let riskFactor := calculateBreedingRisk temperature humidity rainfall in
  now <- Date_now ;;
  ret {| WeatherData.temperature := Number_toString (Math_round temperature) +:+ "°C";
         WeatherData.humidity := Number_toString (Math_round humidity) +:+ "%";
         WeatherData.rainfall := Number_toString (Math_round rainfall) +:+ "mm";
         WeatherData.riskFactor := riskFactor;
         WeatherData.location := JStr "Malaysia";
         WeatherData.lastUpdated := Date_toLocaleTimeString now +:+ " (Estimated)" |}.

(** The branch of [getWeatherWithRisk] for a truthy WeatherStack payload
    (source lines 292-309). *)
Definition weatherstack_reading (weatherStackData : JsVal) : M WeatherData.t :=
  current <- lift (getProp weatherStackData "current") ;;
  temperature <- lift (getProp current "temperature") ;;
  current <- lift (getProp weatherStackData "current") ;;
  humidity <- lift (getProp current "humidity") ;;
  rainfall <- ((current <- lift (getProp weatherStackData "current") ;;
                lift (getProp current "precip"))
               ||| ret (JNum 0)) ;;
  riskFactor <- calculateBreedingRisk_any temperature humidity rainfall ;;
  temperature_ <- lift (ToString temperature) ;;
  humidity_ <- lift (ToString humidity) ;;
  rainfall_ <- lift (ToString rainfall) ;;
  place <- lift (getProp weatherStackData "location") ;;
  name <- lift (getProp place "name") ;;
  name <- lift (ToString name) ;;
  place <- lift (getProp weatherStackData "location") ;;
  region <- lift (getProp place "region") ;;
  region <- lift (ToString region) ;;
  now <- Date_now ;;
  ret {| WeatherData.temperature := temperature_ +:+ "°C";
         WeatherData.humidity := humidity_ +:+ "%";
         WeatherData.rainfall := rainfall_ +:+ "mm";
         WeatherData.riskFactor := riskFactor;
         WeatherData.location := JStr (name +:+ ", " +:+ region);
         WeatherData.lastUpdated := Date_toLocaleTimeString now |}.

(** The branch for the first entry of the forecast (source lines
    315-334). *)
Definition forecast_reading (latestData : JsVal) : M WeatherData.t :=
  temperature_max <- lift (getProp latestData "temperature_max") ;;
  temperature_min <- lift (getProp latestData "temperature_min") ;;
  total <- lift (js_add temperature_max temperature_min) ;;
  total <- lift (ToNumber total) ;;
  let avgTemp := (total / 2)%float in
  humidity <- lift (getProp latestData "humidity") ;;
  rainfall <- lift (getProp latestData "rainfall") ;;
  riskFactor <- calculateBreedingRisk_any (JNum avgTemp) humidity rainfall ;;
  humidity_ <- lift (ToString humidity) ;;
  rainfall_ <- lift (ToString rainfall) ;;
  place <- lift (getProp latestData "location") ;;
  now <- Date_now ;;
  ret {| WeatherData.temperature := Number_toString (Math_round avgTemp) +:+ "°C";
         WeatherData.humidity := humidity_ +:+ "%";
         WeatherData.rainfall := rainfall_ +:+ "mm";
         WeatherData.riskFactor := riskFactor;
         WeatherData.location := place;
         WeatherData.lastUpdated := Date_toLocaleTimeString now |}.

(** [WeatherService.getWeatherWithRisk]; an omitted argument stands for
    ["Kuala Lumpur"]. *)
Definition getWeatherWithRisk (random : nat -> float) (location : string)
  : M WeatherData.t :=
  try_catch
    (weatherStackData <- getWeatherStackData location ;;
     if truthy weatherStackData then weatherstack_reading weatherStackData
     else
       malaysiaData <- getMalaysiaWeatherForecast ;;
       usable <-
         (if truthy malaysiaData then
            data <- lift (getProp malaysiaData "data") ;;
            lift (has_items data)
          else ret false) ;;
       if usable then
         data <- lift (getProp malaysiaData "data") ;;
         forecast_reading (first_item data)
       else getFallbackWeatherData random)
    (fun _ => getFallbackWeatherData random).
End WeatherProviders.

(* ===================================================================== *)
(** ** Further operations of the live-weather client
       (src/lib/advanced-dengue-ai-client.ts) *)
(* ===================================================================== *)

(** [this.mapCategoryToRiskLevel(category)]: a [switch] on the lower-case
    category. *)
Definition mapCategoryToRiskLevel (category : string) : RiskLevel :=
  let c := toLowerCase category in
  if String.eqb c "hotspot" then Critical
  else if String.eqb c "potential" then High
  else if String.eqb c "not_hotspot" then Low
  else High.

Section ClientEndpoints.
Context `{rt : Runtime}.
(** [this.baseUrl]. *)
Variable baseUrl : string.

(** [AdvancedDengueAIClient.healthCheck] (source lines 141-165): the
    decoded body of an OK response, and a fallback status after any
    failure. *)
Definition healthCheck : M JsVal :=
  try_catch
    (response <- fetch (get_request (baseUrl +:+ "/health")) ;;
     if negb (ok response) then
       throw (ErrorObj ("Health check failed: " +:+ resp_statusText response))
     else
       result <- response_json response ;;
       ret result)
    (fun _ =>
       ret (JObj [ ("status", JStr "Backend connection failed");
                   ("service", JStr "Fallback mode - Using simulated data") ]%string)).

(** [AdvancedDengueAIClient.analyzeImage]: [location || "Unknown Location"]
    replaces a missing and an empty location. *)
Definition analyzeImage (imageFile : File) (location : option string)
  : M AdvancedAnalysisResult.t :=
  try_catch
    (submitReport baseUrl
       (match location with
        | Some l => if String.eqb l "" then "Unknown Location"%string else l
        | None => "Unknown Location"%string
        end)
       "Image analysis request" (Some imageFile) None None None)
    (fun error =>
       throw (ErrorObj ("Image analysis failed: "
                        +:+ message_or error "Unknown error"))).

Definition dashboard_request : Request :=
  get_request (baseUrl +:+ "/api/v1/dashboard").

(** [AdvancedDengueAIClient.getDashboardData]. *)
Definition getDashboardData : M JsVal :=
  try_catch
    (response <- fetch dashboard_request ;;
     if negb (ok response) then
       throw (ErrorObj ("Dashboard request failed: " +:+ resp_statusText response))
     else response_json response)
    (fun error =>
       throw (ErrorObj ("Failed to get dashboard data: "
                        +:+ message_or error "Unknown error"))).

Definition heatmap_request : Request :=
  get_request (baseUrl +:+ "/api/v1/heatmap").

(** [AdvancedDengueAIClient.getHeatmapData]. *)
Definition getHeatmapData : M JsVal :=
  try_catch
    (response <- fetch heatmap_request ;;
     if negb (ok response) then
       throw (ErrorObj ("Heatmap request failed: " +:+ resp_statusText response))
     else response_json response)
    (fun error =>
       throw (ErrorObj ("Failed to get heatmap data: "
                        +:+ message_or error "Unknown error"))).

Definition quantum_request (problemType : string) : Request :=
  {| req_url := baseUrl +:+ "/api/advanced/quantum-optimize";
     req_method := "POST";
     req_headers := [("Content-Type", "application/json")]%string;
     req_body := JsonBody (JObj [ ("problem_type", JStr problemType);
                                  ("constraints", JObj []) ]%string) |}.

(** [AdvancedDengueAIClient.getQuantumOptimization]; an omitted argument
    stands for ["resource_allocation"]. *)
Definition getQuantumOptimization (problemType : string) : M JsVal :=
  try_catch
    (response <- fetch (quantum_request problemType) ;;
     if negb (ok response) then
       throw (ErrorObj ("Quantum optimization failed: " +:+ resp_statusText response))
     else response_json response)
    (fun error =>
       throw (ErrorObj ("Quantum optimization failed: "
                        +:+ message_or error "Unknown error"))).

Definition training_request : Request :=
  {| req_url := baseUrl +:+ "/api/advanced/train-model";
     req_method := "POST";
     req_headers := [("Content-Type", "application/json")]%string;
     req_body := NoBody |}.

(** [AdvancedDengueAIClient.trainModel]. *)
Definition trainModel : M JsVal :=
  try_catch
    (response <- fetch training_request ;;
     if negb (ok response) then
       throw (ErrorObj ("Model training failed: " +:+ resp_statusText response))
     else response_json response)
    (fun error =>
       throw (ErrorObj ("Model training failed: "
                        +:+ message_or error "Unknown error"))).

Definition gamification_request : Request :=
  get_request (baseUrl +:+ "/api/gamification/stats").

(** [AdvancedDengueAIClient.getGamificationStats]. *)
Definition getGamificationStats : M JsVal :=
  try_catch
    (response <- fetch gamification_request ;;
     if negb (ok response) then
       throw (ErrorObj ("Gamification request failed: " +:+ resp_statusText response))
     else response_json response)
    (fun error =>
       throw (ErrorObj ("Failed to get gamification stats: "
                        +:+ message_or error "Unknown error"))).
End ClientEndpoints.

(** *** Vocabulary for the further operations *)

(** [ToString v] when it does not throw. *)
Definition text_of `{rt : Runtime} (v : JsVal) : string :=
  match ToString v with inr s => s | inl _ => ""%string end.

(** A computation that sends no request and leaves the cache alone,
    whether it returns or throws. *)
Definition quiet {A} (m : M A) : Prop :=
  forall env w, log (snd (m env w)) = log w /\ cache (snd (m env w)) = cache w.

(** What a call answers once the request [req] has been sent in state [w]:
    the decoded body of an OK response, when there is one. *)
Definition answer (env : Env) (w : World) (req : Request) : option JsVal :=
  match backend env (log w) req with
  | inr response =>
      if ok response then
        match resp_json response with
        | inr v => Some v
        | inl _ => None
        end
      else None
  | inl _ => None
  end.

(** What a call that finds no fresh entry for [key] does in state [w]: the
    request is sent; the decoded body of an OK response is stored with the
    time read next and returned; any failure yields [null] and stores
    nothing. *)
Definition refetched (key : string) (req : Request) (env : Env) (w : World)
  : JsVal * World :=
  match answer env w req with
  | Some d =>
      (d, {| cache := <[key := {| CacheEntry.data := d;
                                  CacheEntry.timestamp := clock env (ticks w) |}]>
                        (cache w);
             log := log w ++ [req];
             ticks := S (ticks w) |})
  | None => (JNull, sent req w)
  end.

(** What a call for [key] does in state [w]: an entry younger than ten
    minutes answers it, otherwise the request is sent. *)
Definition served (key : string) (req : Request) (env : Env) (w : World)
  : JsVal * World :=
  match cache w !! key with
  | Some e =>
      if clock env (ticks w) - CacheEntry.timestamp e <? cacheTimeout
      then (CacheEntry.data e, tick w)
      else refetched key req env (tick w)
  | None => refetched key req env w
  end.

(** Whether [getWeatherWithRisk] reads the forecast [md]: it is truthy and
    its [data] has a positive length. *)
Definition usable_forecast `{rt : Runtime} (md : JsVal) : bool :=
  truthy md
  && match has_items (field md "data") with
     | inr b => b
     | inl _ => false
     end.

(** The status that [healthCheck] returns after a failure. *)
Definition fallback_status : JsVal :=
  JObj [ ("status", JStr "Backend connection failed");
         ("service", JStr "Fallback mode - Using simulated data") ]%string.

(** The contract of the calls that fetch a JSON document or throw: one
    request is sent whatever happens; the call resolves exactly with the
    decoded body of an OK response; whatever it throws is an [Error] whose
    message starts with [outer]; and after a response that is not OK the
    message is [outer], [inner] and the status text. *)
Definition endpoint_contract (call : M JsVal) (req : Request) (outer inner : string)
  : Prop :=
  forall env w,
    snd (call env w) = sent req w
    /\ (forall v, fst (call env w) = inr v <-> answer env w req = Some v)
    /\ (forall e, fst (call env w) = inl e -> exists m, e = ErrorObj (outer +:+ m))
    /\ (forall response,
          backend env (log w) req = inr response -> ok response = false ->
          fst (call env w)
          = inl (ErrorObj (outer +:+ inner +:+ resp_statusText response))).

(** What the branch for a response that is not OK throws in the second
    client: an [Error] made from the [detail] of the body, from the status
    text when the body is not JSON, or from a fixed text. *)
Definition legacy_thrown `{rt : Runtime} (response : Response) : Thrown :=
  let errorData :=
    match resp_json response with
    | inr v => v
    | inl _ =>
        JObj [("detail",
               JStr (if String.eqb (resp_statusText response) ""
                     then "Unknown error occurred"
                     else resp_statusText response))]%string
    end in
  match getProp errorData "detail" with
  | inl e => e
  | inr detail =>
      match new_Error (js_or detail (JStr "Failed to get prediction from AI model")) with
      | inl e => e
      | inr error => error
      end
  end.

(** A 24-hour clock face in UTC, for the examples. *)
Module Clockface.
#[export] Instance utc : Locale := {|
  Date_toLocaleTimeString ms :=
    let t := ms mod 86400000 in
    Host.padded 2 (t / 3600000) +:+ ":" +:+ Host.padded 2 (t / 60000 mod 60)
    +:+ ":" +:+ Host.padded 2 (t / 1000 mod 60)
|}.
End Clockface.

(** The draws of the examples: always one half. *)
Definition even_draws (n : nat) : float := 0.5%float.

(** A forecast with one entry, for the examples. *)
Definition example_entry : JsVal :=
  JObj [ ("date", JStr "2025-09-14");
         ("location", JStr "Petaling Jaya");
         ("temperature_max", JNum 34);
         ("temperature_min", JNum 25);
         ("humidity", JNum 82);
         ("rainfall", JNum 60) ]%string.

Definition example_forecast : JsVal :=
  JObj [ ("data", JArr [example_entry]) ]%string.

(** A world in which WeatherStack is unreachable and the forecast of the
    government is served. *)
Definition forecast_only : Env :=
  {| backend := fun _ req =>
       if String.eqb (req_url req) (req_url malaysia_request)
       then inr (Host.json_response 200 "OK" example_forecast)
       else inl (ErrorObj "Failed to fetch");
     clock := fun n => 1735689600000 + 1000 * Z.of_nat n |}.

(** A backend whose probe is healthy and which refuses every other request
    with a validation error. *)
Definition refusing_predictions : Env :=
  {| backend := fun _ req =>
       if String.eqb (req_method req) "GET"
       then inr (Host.json_response 200 "OK" (JObj [("status", JStr "healthy")]%string))
       else inr (Host.json_response 422 "Unprocessable Entity"
                   (JObj [("detail", JStr "Invalid temperature")]%string));
     clock := fun n => 1735689600000 + 1000 * Z.of_nat n |}.

(** An accepted report whose classification is a number. *)
Definition numeric_classification_body : JsVal :=
  JObj [ ("status", JStr "success"); ("ai_classification", JNum 1) ]%string.

(** An OK payload without the member [current], as WeatherStack sends it
    with an error report. *)
Definition error_payload : JsVal :=
  JObj [ ("success", JBool false);
         ("error", JObj [ ("code", JNum 615);
                          ("type", JStr "request_failed") ]) ]%string.

(* ===================================================================== *)
(** ** The weather risk scorer *)
(* ===================================================================== *)

Section ScorerFacts.
Context `{rt : Runtime}.

(** The three rule blocks act independently: the state they leave is the
    concatenation of the reasons and the sum of the points of the rules. *)
Lemma assessDengueRisk_rules_split temp humidity rainfall :
  assessDengueRisk_rules temp humidity rainfall =
  {| reasons := reason_of (temperature_rule temp)
                ++ reason_of (humidity_rule humidity)
                ++ reason_of (rainfall_rule rainfall);
     riskScore := points_of (temperature_rule temp)
                  + points_of (humidity_rule humidity)
                  + points_of (rainfall_rule rainfall) |}.
Proof.
  unfold assessDengueRisk_rules, temperature_rule, humidity_rule, rainfall_rule.
  destruct ((25 <=? temp)%float && (temp <=? 30)%float);
    [| destruct ((30 <? temp)%float && (temp <=? 35)%float);
       [| destruct (35 <? temp)%float ] ];
  (destruct (70 <=? humidity)%float;
    [| destruct (60 <=? humidity)%float; [| destruct (humidity <? 50)%float ] ]);
  (destruct (100 <? rainfall)%float; [| destruct (50 <? rainfall)%float ]);
  reflexivity.
Qed.

(** The level is the one the thresholds give for the summed score. *)
Lemma assessDengueRisk_level temp humidity rainfall :
  risk (assessDengueRisk temp humidity rainfall) =
  level_of (riskScore (assessDengueRisk_rules temp humidity rainfall)).
Proof.
  unfold assessDengueRisk, level_of.
  destruct (7 <=? _); [reflexivity|].
  destruct (5 <=? _); [reflexivity|].
  destruct (3 <=? _); reflexivity.
Qed.

(** The reasons returned are those of the rules followed by the one of the
    level. *)
Lemma assessDengueRisk_reasoning temp humidity rainfall :
  reasoning (assessDengueRisk temp humidity rainfall) =
  reasons (assessDengueRisk_rules temp humidity rainfall)
  ++ level_reason (risk (assessDengueRisk temp humidity rainfall)).
Proof.
  unfold assessDengueRisk.
  destruct (7 <=? _); [reflexivity|].
  destruct (5 <=? _); [reflexivity|].
  destruct (3 <=? _); cbn; now rewrite app_nil_r.
Qed.

(** C4.  For every temperature in [25,30], every humidity of at least 70 and
    every rainfall above 100, the scorer returns the level Critical, and the
    summed score is at least 7 (it is 9: three points from each rule). *)
Theorem optimal_conditions_are_critical temp humidity rainfall :
  (25 <=? temp)%float = true ->
  (temp <=? 30)%float = true ->
  (70 <=? humidity)%float = true ->
  (100 <? rainfall)%float = true ->
  risk (assessDengueRisk temp humidity rainfall) = Critical
  /\ 7 <= riskScore (assessDengueRisk_rules temp humidity rainfall)
  /\ riskScore (assessDengueRisk_rules temp humidity rainfall) = 9.
Proof.
  intros Ht1 Ht2 Hh Hr.
  assert (Hs : riskScore (assessDengueRisk_rules temp humidity rainfall) = 9).
  { rewrite assessDengueRisk_rules_split.
    unfold temperature_rule, humidity_rule, rainfall_rule.
    rewrite Ht1, Ht2, Hh, Hr. reflexivity. }
  rewrite assessDengueRisk_level, Hs.
  split; [reflexivity | split; [lia | reflexivity]].
Qed.

(** C9, as amended.  The reasons are the strings appended by the
    contributing rules in evaluation order: the reason of the temperature
    rule, then that of the humidity rule, then that of the rainfall rule
    (each present exactly when its rule contributes to the score); they are
    followed, when the level is Critical or High, by the one reason that
    the level block appends; and the sequence is a function of the three
    inputs, so equal inputs reproduce it exactly. *)
Theorem reasons_follow_evaluation_order temp humidity rainfall :
  reasoning (assessDengueRisk temp humidity rainfall) =
    reason_of (temperature_rule temp)
    ++ reason_of (humidity_rule humidity)
    ++ reason_of (rainfall_rule rainfall)
    ++ level_reason (risk (assessDengueRisk temp humidity rainfall))
  /\ riskScore (assessDengueRisk_rules temp humidity rainfall) =
       points_of (temperature_rule temp)
       + points_of (humidity_rule humidity)
       + points_of (rainfall_rule rainfall)
  /\ risk (assessDengueRisk temp humidity rainfall) =
       level_of (riskScore (assessDengueRisk_rules temp humidity rainfall))
  /\ (forall temp' humidity' rainfall',
        temp' = temp -> humidity' = humidity -> rainfall' = rainfall ->
        reasoning (assessDengueRisk temp' humidity' rainfall') =
        reasoning (assessDengueRisk temp humidity rainfall)).
Proof.
  split; [| split; [| split]].
  - rewrite assessDengueRisk_reasoning, assessDengueRisk_rules_split. cbn [reasons].
    now rewrite <- !app_assoc.
  - now rewrite assessDengueRisk_rules_split.
  - apply assessDengueRisk_level.
  - intros ? ? ? -> -> ->. reflexivity.
Qed.



(** X4.  Whenever the summed score is positive, some rule has contributed
    and the reasons are not empty. *)
Theorem positive_score_has_reasons temp humidity rainfall :
  0 < riskScore (assessDengueRisk_rules temp humidity rainfall) ->
  reasoning (assessDengueRisk temp humidity rainfall) <> [].
Proof.
  rewrite assessDengueRisk_reasoning, assessDengueRisk_rules_split. cbn [riskScore reasons].
  destruct (temperature_rule temp) as [[? ?] |];
    destruct (humidity_rule humidity) as [[? ?] |];
    destruct (rainfall_rule rainfall) as [[? ?] |];
    cbn [points_of reason_of]; intros H; (discriminate || lia).
Qed.

End ScorerFacts.

(** C4 at 28 degrees, 80 % humidity and 120 mm of rain. *)
Lemma optimal_conditions_example :
  ((25 <=? 28)%float = true /\ (28 <=? 30)%float = true
   /\ (70 <=? 80)%float = true /\ (100 <? 120)%float = true)
  /\ risk (assessDengueRisk (rt := Host.v8) 28 80 120) = Critical
  /\ 7 <= riskScore (assessDengueRisk_rules (rt := Host.v8) 28 80 120)
  /\ riskScore (assessDengueRisk_rules (rt := Host.v8) 28 80 120) = 9.
Proof.
  split.
  - repeat split; reflexivity.
  - apply (optimal_conditions_are_critical (rt := Host.v8) 28 80 120); reflexivity.
Defined.

(** At 28 degrees, 80 % humidity and 120 mm of rain, the three reasons of
    the rules are followed by a fourth one, which no rule on temperature,
    humidity or rainfall appends: the reason of the level block. *)
Lemma level_reason_is_appended :
  reasoning (assessDengueRisk (rt := Host.v8) 28 80 120) =
    [ "Temperature in optimal Aedes breeding range (25-30°C)";
      "High humidity (80%) supports mosquito survival";
      "Heavy rainfall creates multiple breeding sites";
      "Conditions match July 2025 heatwave/September flood patterns" ]%string
  /\ reason_of (temperature_rule 28) ++ reason_of (humidity_rule (rt := Host.v8) 80)
     ++ reason_of (rainfall_rule 120) =
    [ "Temperature in optimal Aedes breeding range (25-30°C)";
      "High humidity (80%) supports mosquito survival";
      "Heavy rainfall creates multiple breeding sites" ]%string.
Proof. split; reflexivity. Qed.

(** X4 at 36 degrees, 45 % humidity and 60 mm of rain. *)
Lemma positive_score_example :
  0 < riskScore (assessDengueRisk_rules (rt := Host.v8) 36 45 60)
  /\ reasoning (assessDengueRisk (rt := Host.v8) 36 45 60) <> [].
Proof.
  split; [reflexivity |].
  apply (positive_score_has_reasons (rt := Host.v8) 36 45 60). reflexivity.
Defined.

(* ===================================================================== *)
(** ** The category normalizer *)
(* ===================================================================== *)

(** C5.  The branch for ["not_breeding"] is never taken: the string
    contains ["breeding"], which the first test already maps to Hotspot. *)
Theorem not_breeding_maps_to_hotspot :
  mapBackendCategoryToFrontend "not_breeding" = Hotspot.
Proof. reflexivity. Qed.

(** The other words of the vocabulary map as the specification lists them,
    and an unknown word maps to Hotspot. *)
Lemma vocabulary_examples :
  map mapBackendCategoryToFrontend
    [ "breeding"; "high_risk"; "critical"; "hotspot"; "medium_risk";
      "potential"; "low_risk"; "clean"; "safe"; "unknown_xyz"; "HOTSPOT";
      "Clean_Area" ]%string
  = [ Hotspot; Hotspot; Hotspot; Hotspot; Potential; Potential;
      NotHotspot; NotHotspot; NotHotspot; Hotspot; Hotspot; NotHotspot ].
Proof. reflexivity. Qed.

(* ===================================================================== *)
(** ** Running computations *)
(* ===================================================================== *)

Section MonadFacts.
Context {A B : Type}.

Lemma bind_inr (m : M A) (k : A -> M B) env w a w' :
  m env w = (inr a, w') -> bind m k env w = k a env w'.
Proof. unfold bind. now intros ->. Qed.

Lemma bind_inl (m : M A) (k : A -> M B) env w e w' :
  m env w = (inl e, w') -> bind m k env w = (inl e, w').
Proof. unfold bind. now intros ->. Qed.

Lemma try_catch_inr (m : M A) h env w a w' :
  m env w = (inr a, w') -> try_catch m h env w = (inr a, w').
Proof. unfold try_catch. now intros ->. Qed.

Lemma try_catch_inl (m : M A) h env w e w' :
  m env w = (inl e, w') -> try_catch m h env w = h e env w'.
Proof. unfold try_catch. now intros ->. Qed.

Lemma returns_ret (a : A) (Q : A -> Prop) : Q a -> returns (ret a) Q.
Proof. intros H env w a' w' [= <- _]. exact H. Qed.

Lemma returns_any (m : M A) : returns m (fun _ => True).
Proof. now intros env w a w' _. Qed.

Lemma returns_bind (m : M A) (k : A -> M B) (P : A -> Prop) (Q : B -> Prop) :
  returns m P -> (forall a, P a -> returns (k a) Q) -> returns (bind m k) Q.
Proof.
  intros Hm Hk env w b w' H. unfold bind in H.
  destruct (m env w) as [[e | a] w1] eqn:E; [discriminate |].
  eapply Hk; [eapply Hm; exact E | exact H].
Qed.

Lemma returns_try_catch (m : M A) h (Q : A -> Prop) :
  returns m Q -> (forall e, returns (h e) Q) -> returns (try_catch m h) Q.
Proof.
  intros Hm Hh env w a w' H. unfold try_catch in H.
  destruct (m env w) as [[e | a'] w1] eqn:E.
  - eapply Hh; exact H.
  - injection H as <- _. eapply Hm; exact E.
Qed.

Lemma returns_if (c : bool) (m1 m2 : M A) (Q : A -> Prop) :
  returns m1 Q -> returns m2 Q -> returns (if c then m1 else m2) Q.
Proof. now destruct c. Qed.

(** A handler that never throws makes the whole [try] never throw. *)
Lemma try_catch_resolves (m : M A) h :
  (forall e, resolves (h e)) -> resolves (try_catch m h).
Proof.
  intros Hh env w. unfold try_catch.
  destruct (m env w) as [[e | a] w1]; [apply Hh | eauto].
Qed.

End MonadFacts.

(** [a || b] yields a truthy value as soon as [b] does. *)
Lemma returns_or_else (ma mb : M JsVal) :
  returns mb (fun v => truthy v = true) ->
  returns (ma ||| mb) (fun v => truthy v = true).
Proof.
  intros Hb env w v w' H. unfold or_else, bind in H.
  destruct (ma env w) as [[e | a] w1]; [discriminate |].
  destruct (truthy a) eqn:Ha.
  - injection H as <- _. exact Ha.
  - eapply Hb; exact H.
Qed.

Lemma truthy_defined v : truthy v = true -> v <> JUndefined.
Proof. now intros H ->. Qed.

Lemma truthy_not_nullish v : truthy v = true -> nullish v = false.
Proof. now destruct v. Qed.

(* ===================================================================== *)
(** ** The prediction client: fallback to the simulation *)
(* ===================================================================== *)

Section PredictionFacts.
Context `{rt : Runtime}.
Variable baseUrl : string.

Import AdvancedOutbreakPrediction.

(** The simulation reads the clock once and always returns a populated
    result marked as simulated. *)
Lemma getSimulatedPrediction_run data env w :
  exists r,
    getSimulatedPrediction data env w = (inr r, tick w)
    /\ status r = "success (simulated)"%string
    /\ populated r.
Proof.
  eexists. split; [reflexivity |].
  split; [reflexivity |].
  repeat split; discriminate.
Qed.

Lemma getSimulatedPrediction_resolves data : resolves (getSimulatedPrediction data).
Proof.
  intros env w. destruct (getSimulatedPrediction_run data env w) as (r & H & _).
  eauto.
Qed.

Lemma getSimulatedPrediction_populated data :
  returns (getSimulatedPrediction data) populated.
Proof.
  intros env w r w' H.
  destruct (getSimulatedPrediction_run data env w) as (r' & H' & _ & Hp).
  congruence.
Qed.

(** The object built from a usable response has every required property:
    each is either a truthy value of the backend or the default. *)
Lemma normalized_prediction_populated result :
  returns (normalized_prediction result) populated.
Proof.
  unfold normalized_prediction.
  do 4 (eapply returns_bind; [apply returns_any | intros ? _]).
  do 3 (eapply returns_bind;
        [apply returns_or_else, returns_ret; reflexivity | intros ? ?]).
  do 3 (eapply returns_bind; [apply returns_any | intros ? _]).
  eapply returns_bind;
    [apply returns_or_else, returns_ret; reflexivity | intros ? ?].
  do 4 (eapply returns_bind; [apply returns_any | intros ? _]).
  apply returns_ret.
  repeat split; cbn; now apply truthy_defined.
Qed.

(** The body of the [try] of [predictOutbreak] returns populated results. *)
Lemma predictOutbreak_populated data :
  returns (predictOutbreak baseUrl data) populated.
Proof.
  unfold predictOutbreak.
  apply returns_try_catch; [| intros _; apply getSimulatedPrediction_populated].
  eapply returns_bind; [apply returns_any | intros health _].
  apply returns_if; [apply getSimulatedPrediction_populated |].
  eapply returns_bind; [apply returns_any | intros response _].
  apply returns_if.
  - eapply returns_bind; [apply returns_any | intros ? _].
    apply getSimulatedPrediction_populated.
  - eapply returns_bind; [apply returns_any | intros result _].
    eapply returns_bind; [apply returns_any | intros error _].
    apply returns_if;
      [apply getSimulatedPrediction_populated | apply normalized_prediction_populated].
Qed.

(** C1, as amended.  For every request, every backend and every state,
    [predictOutbreak] of the live-weather client resolves: it never rejects,
    and the result it resolves with holds every required property. *)
Theorem predictOutbreak_always_resolves data env w :
  exists r w',
    predictOutbreak baseUrl data env w = (inr r, w') /\ populated r.
Proof.
  assert (H : resolves (predictOutbreak baseUrl data)).
  { apply try_catch_resolves. intros _. apply getSimulatedPrediction_resolves. }
  destruct (H env w) as (r & w' & Hr).
  exists r, w'. split; [exact Hr |].
  eapply predictOutbreak_populated; exact Hr.
Qed.

(** After any of the failures of [backend_fails], the result is the
    simulation, computed after one or two requests. *)
Lemma failure_simulates data env w :
  backend_fails baseUrl data env w = true ->
  exists w1,
    predictOutbreak baseUrl data env w = getSimulatedPrediction data env w1
    /\ ticks w1 = ticks w.
Proof.
  unfold backend_fails, predictOutbreak, try_catch, bind, fetch.
  destruct (backend env (log w) (health_request baseUrl)) as [e | health];
    [intros _; eexists; split; reflexivity |].
  destruct (ok health); cbn [negb orb];
    [| intros _; eexists; split; reflexivity].
  destruct (backend env _ (predict_request baseUrl data)) as [e | response];
    [intros _; eexists; split; reflexivity |].
  destruct (ok response); cbn [negb orb].
  - unfold response_json, lift.
    destruct (resp_json response) as [e | result];
      [intros _; eexists; split; reflexivity |].
    destruct result as [ | | b | x | s | items | props];
      cbn [getProp nullish field truthy orb];
      try (intros _; eexists; split; reflexivity);
      try discriminate.
    destruct (truthy (default JUndefined (own "error" props)));
      [intros _; eexists; split; reflexivity | discriminate].
  - intros _. unfold response_json, lift.
    destruct (resp_json response); eexists; split; reflexivity.
Qed.

(** C2.  Whenever [GET /health] does not respond OK (the call rejects, or
    the status is not in 200-299), [predictOutbreak] returns the simulated
    prediction, and the probe is the only request it has sent: the
    prediction call [POST /predict/live-weather] is not issued. *)
Theorem failed_probe_simulates data env w :
  probe_ok baseUrl env w = false ->
  predictOutbreak baseUrl data env w =
    getSimulatedPrediction data env (sent (health_request baseUrl) w)
  /\ exists r w',
       predictOutbreak baseUrl data env w = (inr r, w')
       /\ status r = "success (simulated)"%string
       /\ log w' = log w ++ [health_request baseUrl].
Proof.
  intros Hp.
  assert (E : predictOutbreak baseUrl data env w =
              getSimulatedPrediction data env (sent (health_request baseUrl) w)).
  { unfold probe_ok in Hp. unfold predictOutbreak, try_catch, bind, fetch.
    destruct (backend env (log w) (health_request baseUrl)) as [e | health];
      [reflexivity |].
    rewrite Hp. reflexivity. }
  split; [exact E |].
  destruct (getSimulatedPrediction_run data env (sent (health_request baseUrl) w))
    as (r & Hr & Hs & _).
  exists r, (tick (sent (health_request baseUrl) w)).
  rewrite E. repeat split; assumption.
Qed.

(** C3, as amended.  For the request with temperature 32, humidity 80 and
    rainfall 10 and a failing backend, the simulated prediction has the
    impacts 0.8, 0.9 and 0.7; its outbreak probability is their average as
    binary64 arithmetic computes it, [(0.8 + 0.9 + 0.7) / 3 =
    0.8000000000000002], which is above 0.8, so that the level is
    ["Critical"]; and the predicted cases are
    [floor (0.8000000000000002 * 150) = 120]. *)
Theorem simulated_example location state env w :
  backend_fails baseUrl (example_request location state) env w = true ->
  exists r w',
    predictOutbreak baseUrl (example_request location state) env w = (inr r, w')
    /\ status r = "success (simulated)"%string
    /\ temperature_impact (environmental_factors r) = 0.8%float
    /\ humidity_impact (environmental_factors r) = 0.9%float
    /\ rainfall_impact (environmental_factors r) = 0.7%float
    /\ outbreak_probability (prediction r) = ((0.8 + 0.9 + 0.7) / 3)%float
    /\ outbreak_probability (prediction r) = 0.8000000000000002%float
    /\ (0.8 <? outbreak_probability (prediction r))%float = true
    /\ risk_level (prediction r) = JStr "Critical"
    /\ predicted_cases (prediction r) = JNum 120.
Proof.
  intros Hf.
  destruct (failure_simulates _ env w Hf) as (w1 & E & _).
  rewrite E. do 2 eexists. split; [reflexivity |].
  repeat split; vm_compute; reflexivity.
Qed.

End PredictionFacts.

(** C2 with the backend down. *)
Lemma failed_probe_example :
  probe_ok API_BASE_URL Host.offline Host.start = false
  /\ (predictOutbreak (rt := Host.v8) API_BASE_URL
        (example_request "Kuala Lumpur" "Selangor") Host.offline Host.start =
      getSimulatedPrediction (rt := Host.v8)
        (example_request "Kuala Lumpur" "Selangor") Host.offline
        (sent (health_request API_BASE_URL) Host.start)
      /\ exists r w',
           predictOutbreak (rt := Host.v8) API_BASE_URL
             (example_request "Kuala Lumpur" "Selangor") Host.offline Host.start
           = (inr r, w')
           /\ AdvancedOutbreakPrediction.status r = "success (simulated)"%string
           /\ log w' = log Host.start ++ [health_request API_BASE_URL]).
Proof.
  split; [reflexivity |].
  apply (failed_probe_simulates (rt := Host.v8) API_BASE_URL
           (example_request "Kuala Lumpur" "Selangor") Host.offline Host.start).
  reflexivity.
Defined.

(** C3 with the backend down. *)
Lemma simulated_example_offline :
  backend_fails API_BASE_URL (example_request "Kuala Lumpur" "Selangor")
    Host.offline Host.start = true
  /\ exists r w',
       predictOutbreak (rt := Host.v8) API_BASE_URL
         (example_request "Kuala Lumpur" "Selangor") Host.offline Host.start
       = (inr r, w')
       /\ AdvancedOutbreakPrediction.status r = "success (simulated)"%string
       /\ AdvancedOutbreakPrediction.temperature_impact
            (AdvancedOutbreakPrediction.environmental_factors r) = 0.8%float
       /\ AdvancedOutbreakPrediction.humidity_impact
            (AdvancedOutbreakPrediction.environmental_factors r) = 0.9%float
       /\ AdvancedOutbreakPrediction.rainfall_impact
            (AdvancedOutbreakPrediction.environmental_factors r) = 0.7%float
       /\ AdvancedOutbreakPrediction.outbreak_probability
            (AdvancedOutbreakPrediction.prediction r) = ((0.8 + 0.9 + 0.7) / 3)%float
       /\ AdvancedOutbreakPrediction.outbreak_probability
            (AdvancedOutbreakPrediction.prediction r) = 0.8000000000000002%float
       /\ (0.8 <? AdvancedOutbreakPrediction.outbreak_probability
                    (AdvancedOutbreakPrediction.prediction r))%float = true
       /\ AdvancedOutbreakPrediction.risk_level
            (AdvancedOutbreakPrediction.prediction r) = JStr "Critical"
       /\ AdvancedOutbreakPrediction.predicted_cases
            (AdvancedOutbreakPrediction.prediction r) = JNum 120.
Proof.
  split; [reflexivity |].
  apply (simulated_example (rt := Host.v8) API_BASE_URL
           "Kuala Lumpur" "Selangor" Host.offline Host.start).
  reflexivity.
Defined.

(** The probability of the simulated example is not the number 0.8: the
    three roundings of [(0.8 + 0.9 + 0.7) / 3] leave it one unit in the
    last place above.  With the probability at exactly 0.8 the test
    [avgRisk > 0.8] would fail and the level would be ["High"]. *)
Lemma simulated_probability_is_not_0_8 :
  match fst (predictOutbreak (rt := Host.v8) API_BASE_URL
               (example_request "Kuala Lumpur" "Selangor") Host.offline Host.start) with
  | inr r =>
      PrimFloat.eqb
        (AdvancedOutbreakPrediction.outbreak_probability
           (AdvancedOutbreakPrediction.prediction r)) 0.8
  | inl _ => true
  end = false
  /\ (0.8 <? 0.8)%float = false.
Proof. split; reflexivity. Qed.

(* ===================================================================== *)
(** ** The second client rejects *)
(* ===================================================================== *)

Section LegacyFacts.
Context `{rt : Runtime}.
Variable baseUrl : string.

(** X5.  When the probe fails, the second [predictOutbreak] throws to its
    caller instead of simulating, and sends nothing but the probe. *)
Theorem legacy_failed_probe_rejects data env w :
  match backend env (log w) (get_request (baseUrl +:+ "/health")) with
  | inr r => ok r
  | inl _ => false
  end = false ->
  Legacy.predictOutbreak baseUrl data env w =
  (inl (ErrorObj "AI service is currently unavailable. Please try again later."),
   sent (get_request (baseUrl +:+ "/health")) w).
Proof.
  intros H.
  unfold Legacy.predictOutbreak, Legacy.healthCheck, try_catch, bind, fetch.
  destruct (backend env (log w) _) as [e | r]; [reflexivity |].
  cbn [ret]. rewrite H. reflexivity.
Qed.

End LegacyFacts.

(** X5 with a probe answered by [503 Service Unavailable]. *)
Lemma legacy_failed_probe_example :
  match backend (Host.answering (Host.json_response 503 "Service Unavailable" JNull) 1000)
          (log Host.start) (get_request (API_BASE_URL +:+ "/health")) with
  | inr r => ok r
  | inl _ => false
  end = false
  /\ Legacy.predictOutbreak (rt := Host.v8) API_BASE_URL
       (example_request "Kuala Lumpur" "Selangor")
       (Host.answering (Host.json_response 503 "Service Unavailable" JNull) 1000)
       Host.start
     = (inl (ErrorObj "AI service is currently unavailable. Please try again later."),
        sent (get_request (API_BASE_URL +:+ "/health")) Host.start).
Proof.
  split; [reflexivity |].
  apply (legacy_failed_probe_rejects (rt := Host.v8) API_BASE_URL). reflexivity.
Defined.

(** With the backend down, the second [predictOutbreak] rejects. *)
Lemma legacy_predictOutbreak_rejects :
  fst (Legacy.predictOutbreak (rt := Host.v8) API_BASE_URL
         (example_request "Kuala Lumpur" "Selangor") Host.offline Host.start)
  = inl (ErrorObj "AI service is currently unavailable. Please try again later.").
Proof. reflexivity. Qed.

(* ===================================================================== *)
(** ** The weather gateway cache *)
(* ===================================================================== *)

Section WeatherFacts.

(** A fresh entry answers the call: the clock is read once, the data of
    the entry is returned, and nothing is sent or stored. *)
Lemma getWeatherStackData_hit location env w e :
  cache w !! weatherstack_key location = Some e ->
  clock env (ticks w) - CacheEntry.timestamp e < cacheTimeout ->
  getWeatherStackData location env w = (inr (CacheEntry.data e), tick w).
Proof.
  intros He Ht.
  unfold getWeatherStackData, cached, bind, get_cache, Date_now.
  rewrite He.
  destruct (Z.ltb_spec (clock env (ticks w) - CacheEntry.timestamp e) cacheTimeout);
    [reflexivity | lia].
Qed.

(** Without a fresh entry, a successful fetch returns the decoded body and
    stores it under the key of the location, stamped with the time read
    right after the response. *)
Lemma getWeatherStackData_store location env w response d :
  stale (weatherstack_key location) env w = true ->
  backend env (log w) (weatherstack_request location) = inr response ->
  ok response = true ->
  resp_json response = inr d ->
  getWeatherStackData location env w =
  (inr d,
   {| cache := <[weatherstack_key location :=
                   {| CacheEntry.data := d;
                      CacheEntry.timestamp :=
                        clock env (stamp_index (weatherstack_key location) w) |}]>
                 (cache w);
      log := log w ++ [weatherstack_request location];
      ticks := S (stamp_index (weatherstack_key location) w) |}).
Proof.
  intros Hs Hb Hok Hj. unfold stale in Hs. unfold stamp_index.
  unfold getWeatherStackData, cached, bind, get_cache, Date_now, try_catch,
    fetch, response_json, lift, set_cache.
  destruct (cache w !! weatherstack_key location) as [e |] eqn:He.
  - apply negb_true_iff in Hs. rewrite Hs.
    cbn [cache log ticks ret]. rewrite Hb, Hok, Hj. reflexivity.
  - cbn [cache log ticks ret]. rewrite Hb, Hok, Hj. reflexivity.
Qed.

(** C6.  For every location: when a call finds no fresh entry and its fetch
    succeeds, it returns the decoded body [d] and stores it with the time
    [t1] that it reads from the clock right after the response (the reading
    number [stamp_index]).  A second call for the same location made in
    the state that the first one left, whose reading of the clock (the
    next one) is less than ten minutes after [t1], returns the identical
    [d] and leaves the log of requests and the cache unchanged, whatever
    the backend would answer; and so does any later call that still finds
    this entry and reads a time less than ten minutes after [t1]. *)
Theorem second_call_within_ttl_is_cached location env w response d :
  stale (weatherstack_key location) env w = true ->
  backend env (log w) (weatherstack_request location) = inr response ->
  ok response = true ->
  resp_json response = inr d ->
  exists w1 t1,
    getWeatherStackData location env w = (inr d, w1)
    /\ log w1 = log w ++ [weatherstack_request location]
    /\ cache w1 !! weatherstack_key location
       = Some {| CacheEntry.data := d; CacheEntry.timestamp := t1 |}
    /\ t1 = clock env (stamp_index (weatherstack_key location) w)
    /\ ticks w1 = S (stamp_index (weatherstack_key location) w)
    /\ (forall env',
          clock env' (ticks w1) - t1 < cacheTimeout ->
          exists w2,
            getWeatherStackData location env' w1 = (inr d, w2)
            /\ log w2 = log w1
            /\ cache w2 = cache w1)
    /\ forall env' w',
         cache w' !! weatherstack_key location
         = Some {| CacheEntry.data := d; CacheEntry.timestamp := t1 |} ->
         clock env' (ticks w') - t1 < cacheTimeout ->
         exists w2,
           getWeatherStackData location env' w' = (inr d, w2)
           /\ log w2 = log w'
           /\ cache w2 = cache w'.
Proof.
  intros Hs Hb Hok Hj.
  assert (Hnext : forall t1 env' w',
            cache w' !! weatherstack_key location
            = Some {| CacheEntry.data := d; CacheEntry.timestamp := t1 |} ->
            clock env' (ticks w') - t1 < cacheTimeout ->
            exists w2,
              getWeatherStackData location env' w' = (inr d, w2)
              /\ log w2 = log w'
              /\ cache w2 = cache w').
  { intros t1 env' w' Hc' Ht.
    exists (tick w'). split; [| split; reflexivity].
    apply (getWeatherStackData_hit location env' w' _ Hc' Ht). }
  pose proof (getWeatherStackData_store location env w response d Hs Hb Hok Hj) as H1.
  match type of H1 with _ = (_, ?x) => set (w1 := x) in * end.
  assert (Hc : cache w1 !! weatherstack_key location
               = Some {| CacheEntry.data := d;
                         CacheEntry.timestamp :=
                           clock env (stamp_index (weatherstack_key location) w) |})
    by apply lookup_insert_eq.
  exists w1, (clock env (stamp_index (weatherstack_key location) w)).
  split; [exact H1 |].
  split; [reflexivity |].
  split; [exact Hc |].
  split; [reflexivity |].
  split; [reflexivity |].
  split; [| apply Hnext].
  intros env' Ht. exact (Hnext _ env' w1 Hc Ht).
Qed.

End WeatherFacts.

(** C6 for Shah Alam: the first call fetches and stamps the entry with
    the time of its one reading of the clock; the second one, a second
    later and with the backend down, is answered from the cache. *)
Lemma second_call_example :
  (stale (weatherstack_key "Shah Alam")
     (Host.answering (Host.json_response 200 "OK" example_weather) 1000) Host.start = true
   /\ ok (Host.json_response 200 "OK" example_weather) = true)
  /\ exists w1 w2,
       getWeatherStackData "Shah Alam"
         (Host.answering (Host.json_response 200 "OK" example_weather) 1000) Host.start
       = (inr example_weather, w1)
       /\ log w1 = [weatherstack_request "Shah Alam"]
       /\ cache w1 !! weatherstack_key "Shah Alam"
          = Some {| CacheEntry.data := example_weather;
                    CacheEntry.timestamp := 1735689600000 |}
       /\ clock Host.offline (ticks w1) = 1735689601000
       /\ getWeatherStackData "Shah Alam" Host.offline w1
          = (inr example_weather, w2)
       /\ log w2 = log w1.
Proof.
  split; [split; reflexivity |].
  destruct (second_call_within_ttl_is_cached "Shah Alam"
              (Host.answering (Host.json_response 200 "OK" example_weather) 1000)
              Host.start (Host.json_response 200 "OK" example_weather) example_weather
              eq_refl eq_refl eq_refl eq_refl)
    as (w1 & t1 & H1 & Hl & Hc & Ht1 & Hticks & Hsecond & _).
  assert (Et : t1 = 1735689600000) by (rewrite Ht1; reflexivity).
  assert (Ec : clock Host.offline (ticks w1) = 1735689601000)
    by (rewrite Hticks; reflexivity).
  destruct (Hsecond Host.offline ltac:(rewrite Ec, Et; reflexivity))
    as (w2 & H2 & Hl2 & _).
  exists w1, w2.
  split; [exact H1 |]. split; [exact Hl |].
  split; [rewrite <- Et; exact Hc |].
  split; [exact Ec |]. split; [exact H2 | exact Hl2].
Defined.

(* ===================================================================== *)
(** ** The report client: failures are propagated *)
(* ===================================================================== *)

Lemma prefix_self s : String.prefix s s = true.
Proof.
  induction s as [| c s IH]; [reflexivity |].
  cbn. destruct (ascii_dec c c); [exact IH | congruence].
Qed.

Lemma includes_self s : includes s s = true.
Proof. destruct s; cbn [includes]; now rewrite prefix_self. Qed.

(** A string includes each of its suffixes. *)
Lemma includes_suffix a b : includes (a +:+ b) b = true.
Proof.
  induction a as [| c a IH]; [apply includes_self |].
  change (includes (String c (a +:+ b)) b = true).
  cbn [includes]. rewrite IH. apply orb_true_r.
Qed.

Lemma includes_empty s : includes s "" = true.
Proof. destruct s; reflexivity. Qed.

Section ReportFacts.
Context `{rt : Runtime}.
Variable baseUrl : string.

(** The failure branch always throws, and what it throws is
    [failure_thrown]. *)
Lemma report_failure_run response env w :
  report_failure response env w = (inl (failure_thrown response), w).
Proof.
  unfold report_failure, failure_thrown, bind, try_catch, response_json, lift,
    or_else, js_or, throw.
  destruct (resp_json response) as [e | body]; cbn [ret bind].
  - cbn [getProp own default]. cbn [String.eqb Ascii.eqb Bool.eqb].
    destruct (truthy _); cbn [ret]; destruct (new_Error _); reflexivity.
  - destruct (getProp body "detail") as [e | detail]; [reflexivity |].
    destruct (truthy detail); cbn [ret]; destruct (new_Error _); reflexivity.
Qed.

(** A response that is not OK makes [submitReport] reject with an [Error]
    whose message is that of [failure_thrown] after the prefix. *)
Lemma submitReport_not_ok location description imageFile latitude longitude
    reporterContact env w response :
  backend env (log w)
    (report_request baseUrl
       (report_form location description imageFile latitude longitude reporterContact))
  = inr response ->
  ok response = false ->
  submitReport baseUrl location description imageFile latitude longitude
    reporterContact env w
  = (inl (ErrorObj ("Report submission failed: "
                    +:+ message_or (failure_thrown response) "Unknown error")),
     sent (report_request baseUrl
             (report_form location description imageFile latitude longitude
                reporterContact)) w).
Proof.
  intros Hb Hok.
  unfold submitReport, try_catch, bind, fetch.
  rewrite Hb, Hok. cbn [negb]. rewrite report_failure_run. reflexivity.
Qed.

(** C7, as amended.  For every response to [submitReport] that is not OK,
    the call rejects with an [Error].  Its message contains the HTTP status
    text when the body is not JSON, and when the body is a JSON value other
    than [null] whose [detail] is absent or falsy; it contains the [detail]
    of the body when that is a string, and is ["Report submission failed: "]
    followed by it when it is not empty. *)
Theorem submitReport_rejects_with_detail location description imageFile latitude
    longitude reporterContact env w response :
  backend env (log w)
    (report_request baseUrl
       (report_form location description imageFile latitude longitude reporterContact))
  = inr response ->
  ok response = false ->
  exists message w',
    submitReport baseUrl location description imageFile latitude longitude
      reporterContact env w = (inl (ErrorObj message), w')
    /\ (forall e, resp_json response = inl e ->
          includes message (resp_statusText response) = true)
    /\ (forall body, resp_json response = inr body -> nullish body = false ->
          (truthy (field body "detail") = false ->
             message = "Report submission failed: Report submission failed: "
                       +:+ resp_statusText response
             /\ includes message (resp_statusText response) = true)
          /\ (forall detail, field body "detail" = JStr detail ->
                includes message detail = true
                /\ (detail <> ""%string ->
                    message = "Report submission failed: " +:+ detail))).
Proof.
  intros Hb Hok.
  do 2 eexists. split; [apply submitReport_not_ok; eassumption |].
  unfold failure_thrown. split.
  - intros e ->. cbn. unfold js_or. cbn.
    destruct (String.eqb (resp_statusText response) "") eqn:E; cbn.
    + apply String.eqb_eq in E. rewrite E. apply includes_empty.
    + apply (includes_suffix "Report submission failed: ").
  - intros body -> Hn.
    assert (Hg : getProp body "detail" = inr (field body "detail"))
      by (destruct body; try reflexivity; discriminate).
    rewrite Hg. unfold js_or. split.
    + intros ->. cbn.
      split; [reflexivity |].
      apply (includes_suffix "Report submission failed: Report submission failed: ").
    + intros detail ->. cbn.
      destruct (String.eqb detail "") eqn:E; cbn.
      * apply String.eqb_eq in E. subst detail.
        split; [apply includes_empty | congruence].
      * split; [apply (includes_suffix "Report submission failed: ") | reflexivity].
Qed.

End ReportFacts.

(** C7 for a response [400 Bad Request] with a string [detail]. *)
Lemma submitReport_rejects_example :
  (ok (Host.json_response 400 "Bad Request"
         (JObj [("detail", JStr "Image too large")]%string)) = false)
  /\ exists w',
       submitReport (rt := Host.v8) API_BASE_URL "Shah Alam" "Stagnant water"
         None (Some 3.07%float) (Some 101.52%float) None
         (Host.answering
            (Host.json_response 400 "Bad Request"
               (JObj [("detail", JStr "Image too large")]%string)) 1000)
         Host.start
       = (inl (ErrorObj "Report submission failed: Image too large"), w').
Proof.
  split; [reflexivity |].
  destruct (submitReport_rejects_with_detail (rt := Host.v8) API_BASE_URL
              "Shah Alam" "Stagnant water" None (Some 3.07%float) (Some 101.52%float)
              None
              (Host.answering
                 (Host.json_response 400 "Bad Request"
                    (JObj [("detail", JStr "Image too large")]%string)) 1000)
              Host.start
              (Host.json_response 400 "Bad Request"
                 (JObj [("detail", JStr "Image too large")]%string))
              eq_refl eq_refl)
    as (message & w' & Hrun & _ & Hbody).
  destruct (Hbody _ eq_refl eq_refl) as (_ & Hdetail).
  destruct (Hdetail "Image too large"%string eq_refl) as (_ & Hmessage).
  exists w'. rewrite Hrun, Hmessage; [reflexivity | discriminate].
Defined.

(** A validation error of the backend (status 422, [detail] a list of
    objects) is rejected with a message that holds neither the text of the
    detail nor the status text; and so is a failure whose body is the JSON
    value [null], where reading [detail] throws. *)
Lemma submitReport_detail_is_lost :
  fst (submitReport (rt := Host.v8) API_BASE_URL "Shah Alam" "Stagnant water"
         None None None None
         (Host.answering
            (Host.json_response 422 "Unprocessable Entity" validation_error_body) 1000)
         Host.start)
  = inl (ErrorObj "Report submission failed: [object Object]")
  /\ includes "Report submission failed: [object Object]" "field required" = false
  /\ includes "Report submission failed: [object Object]" "Unprocessable Entity" = false
  /\ fst (submitReport (rt := Host.v8) API_BASE_URL "Shah Alam" "Stagnant water"
            None None None None
            (Host.answering (Host.json_response 500 "Internal Server Error" JNull) 1000)
            Host.start)
     = inl (ErrorObj
         "Report submission failed: Cannot read properties of null (reading 'detail')")
  /\ includes
       "Report submission failed: Cannot read properties of null (reading 'detail')"
       "Internal Server Error" = false.
Proof. repeat split; reflexivity. Qed.

(* ===================================================================== *)
(** ** Conversions and property reads that do not throw *)
(* ===================================================================== *)

Section ConversionFacts.
Context `{rt : Runtime}.

Lemma ToString_cons x rest :
  ToString (JArr (x :: rest)) =
  match (if nullish x then inr ""%string else ToString x) with
  | inl e => inl e
  | inr s =>
      match rest with
      | [] => inr s
      | _ :: _ =>
          match ToString (JArr rest) with
          | inl e => inl e
          | inr r => inr (s +:+ "," +:+ r)
          end
      end
  end.
Proof. reflexivity. Qed.

(** [ToString] does not throw on a plain value. *)
Lemma ToString_plain v : plain v = true -> exists s, ToString v = inr s.
Proof.
  induction v as [ | | b | x | s | items IH | props IH] using JsVal_nested_ind;
    intros Hp; try (eexists; reflexivity).
  - cbn [plain] in Hp.
    induction IH as [| x rest Hx _ IHrest]; [eexists; reflexivity |].
    cbn [forallb] in Hp. apply andb_true_iff in Hp as [Hpx Hprest].
    rewrite ToString_cons.
    destruct (IHrest Hprest) as [r ->].
    assert (Helt : exists s, (if nullish x then inr ""%string else ToString x) = inr s)
      by (destruct (nullish x); [eexists; reflexivity | apply Hx, Hpx]).
    destruct Helt as [s ->].
    destruct rest; eexists; reflexivity.
  - cbn [plain] in Hp. apply andb_true_iff in Hp as [Hown _].
    cbn [ToString]. destruct (own "toString" props); [discriminate |].
    eexists; reflexivity.
Qed.

(** [ToNumber] does not throw on a plain value. *)
Lemma ToNumber_plain v : plain v = true -> ToNumber v = inr (number_of v).
Proof.
  intros Hp. unfold number_of.
  destruct v; try reflexivity;
    unfold ToNumber; destruct (ToString_plain _ Hp) as [s ->]; reflexivity.
Qed.

Lemma getProp_field v k : nullish v = false -> getProp v k = inr (field v k).
Proof. destruct v; try reflexivity; discriminate. Qed.

Lemma getPropOpt_field v k : getPropOpt v k = inr (field v k).
Proof. destruct v; reflexivity. Qed.

End ConversionFacts.

Lemma plain_own k props x :
  forallb (fun p => plain (snd p)) props = true ->
  own k props = Some x -> plain x = true.
Proof.
  induction props as [| [k' x'] props IH]; [discriminate |].
  cbn [forallb own snd]. intros [Hx Hrest]%andb_true_iff.
  destruct (String.eqb k k'); [now intros [= <-] | now apply IH].
Qed.

(** The values inside a plain value are plain. *)
Lemma plain_field v k : plain v = true -> plain (field v k) = true.
Proof.
  destruct v as [ | | b | x | s | items | props]; try reflexivity.
  cbn [plain field]. intros [_ Hp]%andb_true_iff.
  destruct (own k props) as [x |] eqn:E; [| reflexivity].
  exact (plain_own k props x Hp E).
Qed.

Lemma plain_js_or a b : plain a = true -> plain b = true -> plain (js_or a b) = true.
Proof. unfold js_or. now destruct (truthy a). Qed.

Lemma nullish_js_or a b : nullish b = false -> nullish (js_or a b) = false.
Proof.
  unfold js_or. destruct (truthy a) eqn:E; [intros _; now apply truthy_not_nullish | auto].
Qed.

Lemma truthy_js_or a b : truthy b = true -> truthy (js_or a b) = true.
Proof. unfold js_or. now destruct (truthy a) eqn:E. Qed.

Lemma js_or_falsy a b : truthy a = false -> js_or a b = b.
Proof. unfold js_or. now intros ->. Qed.

(** *** Steps that return a value and leave the state alone *)

Section EvaluatesFacts.
Context `{rt : Runtime}.

Lemma evaluates_ret {A} (a : A) : evaluates (ret a) a.
Proof. now intros env w. Qed.

Lemma evaluates_bind {A B} (m : M A) (k : A -> M B) a b :
  evaluates m a -> evaluates (k a) b -> evaluates (bind m k) b.
Proof. intros Hm Hk env w. unfold bind. rewrite Hm. apply Hk. Qed.

Lemma evaluates_or_else ma mb a b :
  evaluates ma a -> evaluates mb b -> evaluates (ma ||| mb) (js_or a b).
Proof.
  intros Ha Hb env w. unfold or_else, bind, js_or. rewrite Ha.
  destruct (truthy a); [reflexivity | apply Hb].
Qed.

Lemma evaluates_getProp v k :
  nullish v = false -> evaluates (lift (getProp v k)) (field v k).
Proof. intros Hn env w. unfold lift. now rewrite getProp_field. Qed.

Lemma evaluates_getPropOpt v k : evaluates (lift (getPropOpt v k)) (field v k).
Proof. intros env w. unfold lift. now rewrite getPropOpt_field. Qed.

Lemma evaluates_ToNumber v :
  plain v = true -> evaluates (lift (ToNumber v)) (number_of v).
Proof. intros Hp env w. unfold lift. now rewrite ToNumber_plain. Qed.

Lemma evaluates_if {A} (c : bool) (m1 m2 : M A) a1 a2 :
  (c = true -> evaluates m1 a1) -> (c = false -> evaluates m2 a2) ->
  evaluates (if c then m1 else m2) (if c then a1 else a2).
Proof. destruct c; auto. Qed.

(** Running past a step that evaluates. *)
Lemma bind_evaluates {A B} (m : M A) (k : A -> M B) a env w :
  evaluates m a -> bind m k env w = k a env w.
Proof. intros Hm. unfold bind. now rewrite Hm. Qed.

End EvaluatesFacts.

Create HintDb js discriminated.
#[export] Hint Resolve plain_field plain_js_or nullish_js_or truthy_not_nullish
  truthy_js_or : js.

(** Runs the steps of a computation that return without throwing. *)
Ltac evaluate :=
  repeat first
    [ apply evaluates_ret
    | apply evaluates_or_else
    | apply evaluates_getPropOpt
    | apply evaluates_getProp; solve [auto with js]
    | apply evaluates_ToNumber; solve [auto 6 with js]
    | eapply evaluates_bind
    | apply evaluates_if; intros ].

Ltac run_step := erewrite bind_evaluates by evaluate; cbv beta.

(* ===================================================================== *)
(** ** The prediction client: a usable response *)
(* ===================================================================== *)

Section NormalizationFacts.
Context `{rt : Runtime}.
Variable baseUrl : string.

Import AdvancedOutbreakPrediction.

(** On a value other than [null] with no property named [toString] inside,
    the object literal is built without throwing, after one reading of the
    clock, and each property is the first truthy value of its chain. *)
Lemma normalized_prediction_run result env w :
  nullish result = false ->
  plain result = true ->
  exists r,
    normalized_prediction result env w = (inr r, tick w)
    /\ status r = "success"%string
    /\ outbreak_probability (prediction r) =
         (number_of (js_or (js_or (field (chosen_prediction result) "risk_score")
                                  (field (chosen_prediction result) "confidence"))
                           (JNum 0.7)) / 100)%float
    /\ risk_level (prediction r) =
         js_or (field (chosen_prediction result) "risk_level") (JStr "Medium")
    /\ predicted_cases (prediction r) =
         js_or (field (chosen_prediction result) "predicted_cases") (JNum 85)
    /\ confidence (prediction r) =
         js_or (field (chosen_prediction result) "confidence") (JNum 0.85)
    /\ recommendations r =
         js_or (field result "recommendations") default_recommendations
    /\ temperature_impact (environmental_factors r) =
         (if truthy (chosen_weather result)
          then (number_of (field (chosen_weather result) "temperature") / 40)%float
          else 0.75%float)
    /\ humidity_impact (environmental_factors r) =
         (if truthy (chosen_weather result)
          then (number_of (field (chosen_weather result) "humidity") / 100)%float
          else 0.8%float)
    /\ rainfall_impact (environmental_factors r) =
         (if truthy (chosen_weather result)
          then Math_min (number_of (field (chosen_weather result) "rainfall") / 50) 1
          else 0.3%float)
    /\ weather_data r = chosen_weather result.
Proof.
  intros Hn Hp.
  assert (Hnp : nullish (chosen_prediction result) = false)
    by (unfold chosen_prediction; auto with js).
  assert (Hpp : plain (chosen_prediction result) = true)
    by (unfold chosen_prediction; auto 6 with js).
  assert (Hpw : plain (chosen_weather result) = true)
    by (unfold chosen_weather; auto with js).
  unfold normalized_prediction.
  run_step. fold (chosen_prediction result).
  run_step. fold (chosen_weather result).
  do 12 run_step.
  eexists. split; [reflexivity |].
  repeat split.
Qed.

(** With a healthy probe and an OK response whose body is usable,
    [predictOutbreak] returns the object built from the body. *)
Lemma predictOutbreak_usable data env w health response result :
  backend env (log w) (health_request baseUrl) = inr health ->
  ok health = true ->
  backend env (log w ++ [health_request baseUrl]) (predict_request baseUrl data)
  = inr response ->
  ok response = true ->
  resp_json response = inr result ->
  nullish result = false ->
  truthy (field result "error") = false ->
  predictOutbreak baseUrl data env w =
  try_catch (normalized_prediction result) (fun _ => getSimulatedPrediction data) env
    (sent (predict_request baseUrl data) (sent (health_request baseUrl) w)).
Proof.
  intros Hh Hhok Hr Hrok Hj Hn He.
  unfold predictOutbreak, try_catch, bind, fetch, response_json, lift.
  rewrite Hh, Hhok. cbn [negb sent log cache ticks].
  rewrite Hr, Hrok. cbn [negb]. rewrite Hj.
  rewrite (getProp_field _ _ Hn), He. reflexivity.
Qed.

(** The same, with what the object holds. *)
Lemma predictOutbreak_normalizes data env w health response result :
  backend env (log w) (health_request baseUrl) = inr health ->
  ok health = true ->
  backend env (log w ++ [health_request baseUrl]) (predict_request baseUrl data)
  = inr response ->
  ok response = true ->
  resp_json response = inr result ->
  nullish result = false ->
  truthy (field result "error") = false ->
  plain result = true ->
  exists r w',
    predictOutbreak baseUrl data env w = (inr r, w')
    /\ normalized_prediction result env
         (sent (predict_request baseUrl data) (sent (health_request baseUrl) w))
       = (inr r, w').
Proof.
  intros Hh Hhok Hr Hrok Hj Hn He Hp.
  destruct (normalized_prediction_run result env
              (sent (predict_request baseUrl data) (sent (health_request baseUrl) w))
              Hn Hp) as (r & Hrun & _).
  exists r, (tick (sent (predict_request baseUrl data) (sent (health_request baseUrl) w))).
  split; [| exact Hrun].
  rewrite (predictOutbreak_usable data env w health response result) by assumption.
  apply try_catch_inr, Hrun.
Qed.


End NormalizationFacts.


(* ===================================================================== *)
(** ** The report client: an accepted report *)
(* ===================================================================== *)

Section ReportNormalizationFacts.
Context `{rt : Runtime}.
Variable baseUrl : string.

Import AdvancedAnalysisResult.

Lemma evaluates_lift {A} (r : Thrown + A) a : r = inr a -> evaluates (lift r) a.
Proof. now intros -> env w. Qed.

(** [v.k || <a value made from the clock>]: the clock is read only when
    the property is falsy. *)
Lemma or_else_clock v k (f : Z -> JsVal) env w :
  nullish v = false ->
  (lift (getProp v k) ||| (now <- Date_now ;; ret (f now))) env w =
  if truthy (field v k) then (inr (field v k), w)
  else (inr (f (clock env (ticks w))), tick w).
Proof.
  intros Hn. unfold or_else, bind, lift. rewrite (getProp_field _ _ Hn).
  now destruct (truthy (field v k)).
Qed.

(** On a value other than [null] whose classification is a string or
    falsy, the object literal of an accepted report is built without
    throwing and without any request. *)
Lemma normalized_report_run result env w c :
  nullish result = false ->
  mapBackendCategoryToFrontend_call
    (js_or (field result "ai_classification") (JStr "breeding_site")) = inr c ->
  exists r w',
    normalized_report result env w = (inr r, w')
    /\ log w' = log w
    /\ category (classification r) = c
    /\ confidence (classification r) = js_or (field result "confidence") (JNum 0)
    /\ points_awarded (gamification r) =
         js_or (js_or (field result "points_earned") (field result "points_awarded"))
               (JNum 50)
    /\ xp_gained (gamification r) =
         js_or (js_or (field result "xp_earned") (field result "xp_gained")) (JNum 25).
Proof.
  intros Hn Hc. unfold normalized_report.
  do 2 run_step.
  erewrite bind_evaluates by (apply evaluates_lift; exact Hc). cbv beta.
  do 13 run_step.
  unfold bind at 1. rewrite (or_else_clock _ _ _ _ _ Hn).
  destruct (truthy (field result "timestamp"));
    (unfold bind at 1; rewrite (or_else_clock _ _ (fun now => JStr ("report_" +:+ pretty now)) _ _ Hn);
     destruct (truthy (field result "report_id"));
     do 2 eexists; (split; [reflexivity |]); repeat split).
Qed.

(** With an OK response whose body is usable, [submitReport] resolves with
    the object built from the body. *)
Lemma submitReport_accepted location description imageFile latitude longitude
    reporterContact env w response result c :
  backend env (log w)
    (report_request baseUrl
       (report_form location description imageFile latitude longitude reporterContact))
  = inr response ->
  ok response = true ->
  resp_json response = inr result ->
  nullish result = false ->
  mapBackendCategoryToFrontend_call
    (js_or (field result "ai_classification") (JStr "breeding_site")) = inr c ->
  exists r w',
    submitReport baseUrl location description imageFile latitude longitude
      reporterContact env w = (inr r, w')
    /\ category (classification r) = c
    /\ confidence (classification r) = js_or (field result "confidence") (JNum 0)
    /\ points_awarded (gamification r) =
         js_or (js_or (field result "points_earned") (field result "points_awarded"))
               (JNum 50)
    /\ xp_gained (gamification r) =
         js_or (js_or (field result "xp_earned") (field result "xp_gained")) (JNum 25).
Proof.
  intros Hb Hok Hj Hn Hc.
  destruct (normalized_report_run result env
              (sent (report_request baseUrl
                       (report_form location description imageFile latitude longitude
                          reporterContact)) w) c Hn Hc)
    as (r & w' & Hrun & _ & Hfacts).
  exists r, w'. split; [| exact Hfacts].
  unfold submitReport, try_catch, bind, fetch, response_json, lift.
  rewrite Hb, Hok, Hj. cbn [negb].
  unfold sent in Hrun. rewrite Hrun. reflexivity.
Qed.

End ReportNormalizationFacts.

(* ===================================================================== *)
(** ** Zero-valued fields *)
(* ===================================================================== *)

Section ZeroFacts.
Context `{rt : Runtime}.
Variable baseUrl : string.

(** The confidence and the predicted cases of the simulation are never
    zero. *)
Lemma getSimulatedPrediction_nonzero data :
  returns (getSimulatedPrediction data)
    (fun r =>
       truthy (AdvancedOutbreakPrediction.confidence
                 (AdvancedOutbreakPrediction.prediction r)) = true
       /\ truthy (AdvancedOutbreakPrediction.predicted_cases
                    (AdvancedOutbreakPrediction.prediction r)) = true).
Proof.
  intros env w r w' H. unfold getSimulatedPrediction, bind, Date_now, ret in H.
  injection H as <- _.
  cbn [AdvancedOutbreakPrediction.confidence AdvancedOutbreakPrediction.predicted_cases
       AdvancedOutbreakPrediction.prediction].
  destruct (opt_gt (OutbreakPredictionRequest.temperature data) 28),
    (opt_gt (OutbreakPredictionRequest.humidity data) 70),
    (opt_gt (OutbreakPredictionRequest.rainfall data) 5);
    split; vm_compute; reflexivity.
Qed.

(** Nor are those of the object built from a response: each is a truthy
    value of the backend or the default. *)
Lemma normalized_prediction_nonzero result :
  returns (normalized_prediction result)
    (fun r =>
       truthy (AdvancedOutbreakPrediction.confidence
                 (AdvancedOutbreakPrediction.prediction r)) = true
       /\ truthy (AdvancedOutbreakPrediction.predicted_cases
                    (AdvancedOutbreakPrediction.prediction r)) = true).
Proof.
  unfold normalized_prediction.
  do 4 (eapply returns_bind; [apply returns_any | intros ? _]).
  do 3 (eapply returns_bind;
        [apply returns_or_else, returns_ret; reflexivity | intros ? ?]).
  do 8 (eapply returns_bind; [apply returns_any | intros ? _]).
  apply returns_ret. split; assumption.
Qed.

Lemma predictOutbreak_nonzero data :
  returns (predictOutbreak baseUrl data)
    (fun r =>
       truthy (AdvancedOutbreakPrediction.confidence
                 (AdvancedOutbreakPrediction.prediction r)) = true
       /\ truthy (AdvancedOutbreakPrediction.predicted_cases
                    (AdvancedOutbreakPrediction.prediction r)) = true).
Proof.
  unfold predictOutbreak.
  apply returns_try_catch; [| intros _; apply getSimulatedPrediction_nonzero].
  eapply returns_bind; [apply returns_any | intros health _].
  apply returns_if; [apply getSimulatedPrediction_nonzero |].
  eapply returns_bind; [apply returns_any | intros response _].
  apply returns_if.
  - eapply returns_bind; [apply returns_any | intros ? _].
    apply getSimulatedPrediction_nonzero.
  - eapply returns_bind; [apply returns_any | intros result _].
    eapply returns_bind; [apply returns_any | intros error _].
    apply returns_if;
      [apply getSimulatedPrediction_nonzero | apply normalized_prediction_nonzero].
Qed.

(** C10, as amended.  The chains of [||] never surface a zero for the four
    fields.

    In [predictOutbreak], for a usable response (healthy probe, OK status,
    a JSON body other than [null] with no truthy [error] and no member
    named [toString]), the confidence and the predicted cases of the
    result are truthy; with [P] the object that the normalizer reads the
    prediction from (the first truthy one of the body's [ai_analysis],
    [risk_assessment] and [basic_prediction], and else the body itself), a
    [confidence] of 0 in [P] is replaced by 0.85 and a [predicted_cases]
    of 0 in [P] by 85.

    In [submitReport], for an OK response whose JSON body is not [null]
    and whose [ai_classification] is a string or falsy, the points and the
    experience of the result are truthy; a [points_earned] of 0 is
    replaced by [points_awarded] of the response when that is truthy and
    by 50 otherwise, and an [xp_earned] of 0 by [xp_gained] when that is
    truthy and by 25 otherwise.

    And for every request, backend and state whatsoever, simulation
    included, the confidence and the predicted cases that [predictOutbreak]
    resolves with are truthy: never 0. *)
Theorem zero_is_never_surfaced :
  (forall data env w health response result,
     backend env (log w) (health_request baseUrl) = inr health ->
     ok health = true ->
     backend env (log w ++ [health_request baseUrl]) (predict_request baseUrl data)
     = inr response ->
     ok response = true ->
     resp_json response = inr result ->
     nullish result = false ->
     truthy (field result "error") = false ->
     plain result = true ->
     exists r w',
       predictOutbreak baseUrl data env w = (inr r, w')
       /\ truthy (AdvancedOutbreakPrediction.confidence
                    (AdvancedOutbreakPrediction.prediction r)) = true
       /\ truthy (AdvancedOutbreakPrediction.predicted_cases
                    (AdvancedOutbreakPrediction.prediction r)) = true
       /\ (field (chosen_prediction result) "confidence" = JNum 0 ->
           AdvancedOutbreakPrediction.confidence
             (AdvancedOutbreakPrediction.prediction r) = JNum 0.85)
       /\ (field (chosen_prediction result) "predicted_cases" = JNum 0 ->
           AdvancedOutbreakPrediction.predicted_cases
             (AdvancedOutbreakPrediction.prediction r) = JNum 85))
  /\ (forall location description imageFile latitude longitude reporterContact
        env w response result c,
        backend env (log w)
          (report_request baseUrl
             (report_form location description imageFile latitude longitude
                reporterContact))
        = inr response ->
        ok response = true ->
        resp_json response = inr result ->
        nullish result = false ->
        mapBackendCategoryToFrontend_call
          (js_or (field result "ai_classification") (JStr "breeding_site")) = inr c ->
        exists r w',
          submitReport baseUrl location description imageFile latitude longitude
            reporterContact env w = (inr r, w')
          /\ truthy (AdvancedAnalysisResult.points_awarded
                       (AdvancedAnalysisResult.gamification r)) = true
          /\ truthy (AdvancedAnalysisResult.xp_gained
                       (AdvancedAnalysisResult.gamification r)) = true
          /\ (field result "points_earned" = JNum 0 ->
              AdvancedAnalysisResult.points_awarded
                (AdvancedAnalysisResult.gamification r)
              = js_or (field result "points_awarded") (JNum 50))
          /\ (field result "xp_earned" = JNum 0 ->
              AdvancedAnalysisResult.xp_gained
                (AdvancedAnalysisResult.gamification r)
              = js_or (field result "xp_gained") (JNum 25)))
  /\ (forall data env w,
        exists r w',
          predictOutbreak baseUrl data env w = (inr r, w')
          /\ truthy (AdvancedOutbreakPrediction.confidence
                       (AdvancedOutbreakPrediction.prediction r)) = true
          /\ truthy (AdvancedOutbreakPrediction.predicted_cases
                       (AdvancedOutbreakPrediction.prediction r)) = true).
Proof.
  split; [| split].
  - intros data env w health response result Hh Hhok Hr Hrok Hj Hn He Hp.
    destruct (predictOutbreak_normalizes baseUrl data env w health response result
                Hh Hhok Hr Hrok Hj Hn He Hp) as (r & w' & Hrun & Hnorm).
    destruct (normalized_prediction_run result env
                (sent (predict_request baseUrl data) (sent (health_request baseUrl) w))
                Hn Hp)
      as (r' & Hrun' & _ & _ & _ & Hcases & Hconf & _).
    assert (r' = r) as -> by congruence.
    exists r, w'. split; [exact Hrun |].
    rewrite Hconf, Hcases.
    split; [now apply truthy_js_or |].
    split; [now apply truthy_js_or |].
    split; intros ->; reflexivity.
  - intros location description imageFile latitude longitude reporterContact
      env w response result c Hb Hok Hj Hn Hc.
    destruct (submitReport_accepted baseUrl location description imageFile latitude
                longitude reporterContact env w response result c Hb Hok Hj Hn Hc)
      as (r & w' & Hrun & _ & _ & Hpoints & Hxp).
    exists r, w'. split; [exact Hrun |].
    rewrite Hpoints, Hxp.
    split; [now apply truthy_js_or |].
    split; [now apply truthy_js_or |].
    split; intros ->; reflexivity.
  - intros data env w.
    assert (H : resolves (predictOutbreak baseUrl data)).
    { apply try_catch_resolves. intros _. apply getSimulatedPrediction_resolves. }
    destruct (H env w) as (r & w' & Hr).
    exists r, w'. split; [exact Hr |].
    exact (predictOutbreak_nonzero data env w r w' Hr).
Qed.

End ZeroFacts.

(** C10 on two responses: a prediction with a confidence and a number of
    cases of zero, and a report with points and experience of zero. *)
Lemma zero_is_replaced_example :
  (exists r w',
     predictOutbreak (rt := Host.v8) API_BASE_URL
       (example_request "Kuala Lumpur" "Selangor")
       (Host.answering (Host.json_response 200 "OK" zero_prediction_body) 1000)
       Host.start = (inr r, w')
     /\ AdvancedOutbreakPrediction.confidence
          (AdvancedOutbreakPrediction.prediction r) = JNum 0.85
     /\ AdvancedOutbreakPrediction.predicted_cases
          (AdvancedOutbreakPrediction.prediction r) = JNum 85)
  /\ (exists r w',
        submitReport (rt := Host.v8) API_BASE_URL "Shah Alam" "Stagnant water"
          None None None None
          (Host.answering (Host.json_response 200 "OK" zero_rewards_body) 1000)
          Host.start = (inr r, w')
        /\ AdvancedAnalysisResult.points_awarded
             (AdvancedAnalysisResult.gamification r) = JNum 50
        /\ AdvancedAnalysisResult.xp_gained
             (AdvancedAnalysisResult.gamification r) = JNum 25).
Proof.
  destruct (zero_is_never_surfaced (rt := Host.v8) API_BASE_URL)
    as (Hpredict & Hreport & _).
  split.
  - destruct (Hpredict (example_request "Kuala Lumpur" "Selangor")
                (Host.answering (Host.json_response 200 "OK" zero_prediction_body) 1000)
                Host.start
                (Host.json_response 200 "OK" zero_prediction_body)
                (Host.json_response 200 "OK" zero_prediction_body)
                zero_prediction_body
                eq_refl eq_refl eq_refl eq_refl eq_refl eq_refl eq_refl eq_refl)
      as (r & w' & Hrun & _ & _ & Hconf & Hcases).
    exists r, w'. split; [exact Hrun |].
    split; [apply Hconf | apply Hcases]; reflexivity.
  - destruct (Hreport "Shah Alam"%string "Stagnant water"%string None None None None
                (Host.answering (Host.json_response 200 "OK" zero_rewards_body) 1000)
                Host.start
                (Host.json_response 200 "OK" zero_rewards_body)
                zero_rewards_body NotHotspot
                eq_refl eq_refl eq_refl eq_refl eq_refl)
      as (r & w' & Hrun & _ & _ & Hpoints & Hxp).
    exists r, w'. split; [exact Hrun |].
    split; [rewrite Hpoints | rewrite Hxp]; reflexivity.
Defined.

(** A [points_earned] of zero next to a [points_awarded] of 10 yields 10,
    not the default 50 (and likewise 5, not 25, for the experience); and a
    [confidence] of zero in a report is passed on as zero. *)
Lemma zero_points_yield_legacy_points :
  match fst (submitReport (rt := Host.v8) API_BASE_URL "Shah Alam" "Stagnant water"
               None None None None
               (Host.answering (Host.json_response 200 "OK" legacy_rewards_body) 1000)
               Host.start) with
  | inr r =>
      [ AdvancedAnalysisResult.points_awarded (AdvancedAnalysisResult.gamification r);
        AdvancedAnalysisResult.xp_gained (AdvancedAnalysisResult.gamification r);
        AdvancedAnalysisResult.confidence (AdvancedAnalysisResult.classification r) ]
  | inl _ => []
  end = [JNum 10; JNum 5; JNum 0].
Proof. reflexivity. Qed.

(* ===================================================================== *)
(** ** Members of the weather data are not defaulted *)
(* ===================================================================== *)

(** C8.  When the weather data of a usable response lacks the temperature,
    [temperature_impact] is [undefined / 40], that is [NaN], and not a
    default, while [feature_importance.temperature] of the same object is
    defaulted to 0.75 by its [|| 0.75]. *)
Theorem partial_weather_yields_nan :
  match fst (predictOutbreak (rt := Host.v8) API_BASE_URL
               (example_request "Kuala Lumpur" "Selangor")
               (Host.answering (Host.json_response 200 "OK" partial_weather_body) 1000)
               Host.start) with
  | inr r =>
      (AdvancedOutbreakPrediction.status r,
       PrimFloat.is_nan
         (AdvancedOutbreakPrediction.temperature_impact
            (AdvancedOutbreakPrediction.environmental_factors r)),
       AdvancedOutbreakPrediction.temperature
         (AdvancedOutbreakPrediction.feature_importance
            (AdvancedOutbreakPrediction.real_ai_analysis r)),
       AdvancedOutbreakPrediction.humidity_impact
         (AdvancedOutbreakPrediction.environmental_factors r))
  | inl _ => (""%string, false, 0%float, 0%float)
  end = ("success"%string, true, 0.75%float, 0.8%float).
Proof. reflexivity. Qed.

(* ===================================================================== *)
(** ** Further properties *)
(* ===================================================================== *)

Lemma prefix_split p t : String.prefix p t = true -> exists r, t = p +:+ r.
Proof.
  revert t. induction p as [| c p IH]; intros t H; [now exists t |].
  destruct t as [| c' t]; [discriminate |].
  cbn in H. destruct (ascii_dec c c') as [<- |]; [| discriminate].
  destruct (IH t H) as [r ->]. now exists r.
Qed.

Lemma prefix_append p r : String.prefix p (p +:+ r) = true.
Proof.
  induction p as [| c p IH]; [now destruct r |].
  change (String.prefix (String c p) (String c (p +:+ r)) = true).
  cbn [String.prefix]. destruct (ascii_dec c c); [exact IH | congruence].
Qed.

Lemma append_assoc a b c : (a +:+ b) +:+ c = a +:+ (b +:+ c).
Proof.
  induction a as [| x a IH]; [reflexivity |].
  change (String x ((a +:+ b) +:+ c) = String x (a +:+ (b +:+ c))).
  now rewrite IH.
Qed.

(** A string includes what stands in its middle. *)
Lemma includes_middle a b c : includes (a +:+ (b +:+ c)) b = true.
Proof.
  induction a as [| x a IH].
  - change (includes (b +:+ c) b = true).
    destruct (b +:+ c) eqn:E; cbn [includes]; rewrite <- E, prefix_append; reflexivity.
  - change (includes (String x (a +:+ (b +:+ c))) b = true).
    cbn [includes]. rewrite IH. apply orb_true_r.
Qed.

(** A string that includes [a ++ b] includes [b]. *)
Lemma includes_tail t a b : includes t (a +:+ b) = true -> includes t b = true.
Proof.
  induction t as [| x t IH]; cbn [includes].
  - rewrite orb_false_r. intros [r E]%prefix_split.
    destruct a; [| discriminate]. destruct b; [reflexivity | discriminate].
  - intros [Hp | Ht]%orb_true_iff.
    + apply prefix_split in Hp as [r E].
      rewrite append_assoc in E.
      change (includes (String x t) b = true). rewrite E. apply includes_middle.
    + rewrite (IH Ht). apply orb_true_r.
Qed.

(** X2.  No category that contains ["not_breeding"], in any case of the
    letters, reaches the branch written for it: all of them map to
    Hotspot. *)
Theorem not_breeding_is_shadowed backendCategory :
  includes (toLowerCase backendCategory) "not_breeding" = true ->
  mapBackendCategoryToFrontend backendCategory = Hotspot.
Proof.
  intros H. unfold mapBackendCategoryToFrontend.
  rewrite (includes_tail _ "not_" "breeding" H). reflexivity.
Qed.

(** X2 for ["NOT_BREEDING_SITE"]. *)
Lemma not_breeding_is_shadowed_example :
  includes (toLowerCase "NOT_BREEDING_SITE") "not_breeding" = true
  /\ mapBackendCategoryToFrontend "NOT_BREEDING_SITE" = Hotspot.
Proof.
  split; [reflexivity |].
  apply (not_breeding_is_shadowed "NOT_BREEDING_SITE"). reflexivity.
Defined.

(** X7.  A call that finds no fresh entry and whose fetch fails (the call
    rejects, or the status is not OK) returns [null] and leaves the cache
    as it was: nothing is stored for the location. *)
Theorem failed_fetch_is_not_cached location env w :
  stale (weatherstack_key location) env w = true ->
  match backend env (log w) (weatherstack_request location) with
  | inr response => ok response
  | inl _ => false
  end = false ->
  exists w1,
    getWeatherStackData location env w = (inr JNull, w1)
    /\ cache w1 = cache w
    /\ log w1 = log w ++ [weatherstack_request location].
Proof.
  intros Hs Hb. unfold stale in Hs.
  unfold getWeatherStackData, cached, bind, get_cache, Date_now, try_catch, fetch.
  destruct (cache w !! weatherstack_key location) as [e |] eqn:He.
  - apply negb_true_iff in Hs. rewrite Hs. cbn [cache log ticks ret].
    destruct (backend env (log w) (weatherstack_request location)) as [t | response].
    + eexists. split; [reflexivity | split; reflexivity].
    + rewrite Hb. eexists. split; [reflexivity | split; reflexivity].
  - cbn [cache log ticks ret].
    destruct (backend env (log w) (weatherstack_request location)) as [t | response].
    + eexists. split; [reflexivity | split; reflexivity].
    + rewrite Hb. eexists. split; [reflexivity | split; reflexivity].
Qed.

(** X7 with the backend down. *)
Lemma failed_fetch_example :
  (stale (weatherstack_key "Shah Alam") Host.offline Host.start = true
   /\ match backend Host.offline (log Host.start) (weatherstack_request "Shah Alam") with
      | inr response => ok response
      | inl _ => false
      end = false)
  /\ exists w1,
       getWeatherStackData "Shah Alam" Host.offline Host.start = (inr JNull, w1)
       /\ cache w1 = cache Host.start
       /\ log w1 = log Host.start ++ [weatherstack_request "Shah Alam"].
Proof.
  split; [split; reflexivity |].
  apply (failed_fetch_is_not_cached "Shah Alam" Host.offline Host.start); reflexivity.
Defined.

(** X8.  An entry that is ten minutes old or older does not answer the
    call: the request is sent again, and a successful answer replaces the
    entry. *)
Theorem expired_entry_is_refetched location env w e response d :
  cache w !! weatherstack_key location = Some e ->
  cacheTimeout <= clock env (ticks w) - CacheEntry.timestamp e ->
  backend env (log w) (weatherstack_request location) = inr response ->
  ok response = true ->
  resp_json response = inr d ->
  exists w1,
    getWeatherStackData location env w = (inr d, w1)
    /\ log w1 = log w ++ [weatherstack_request location]
    /\ cache w1 !! weatherstack_key location
       = Some {| CacheEntry.data := d;
                 CacheEntry.timestamp := clock env (S (ticks w)) |}.
Proof.
  intros He Ht Hb Hok Hj.
  unfold getWeatherStackData, cached, bind, get_cache, Date_now, try_catch,
    fetch, response_json, lift, set_cache.
  rewrite He.
  destruct (Z.ltb_spec (clock env (ticks w) - CacheEntry.timestamp e) cacheTimeout);
    [lia |].
  cbn [cache log ticks ret]. rewrite Hb, Hok, Hj. cbn [negb].
  eexists. split; [reflexivity |].
  cbn [cache log]. split; [reflexivity | apply lookup_insert_eq].
Qed.

(** X8 with an entry stored ten minutes earlier. *)
Lemma expired_entry_example :
  (cache expired_world !! weatherstack_key "Shah Alam"
   = Some {| CacheEntry.data := JNull; CacheEntry.timestamp := 1735689000000 |}
   /\ cacheTimeout <= 1735689600000 - 1735689000000)
  /\ exists w1,
       getWeatherStackData "Shah Alam"
         (Host.answering (Host.json_response 200 "OK" example_weather) 1000)
         expired_world
       = (inr example_weather, w1)
       /\ log w1 = [weatherstack_request "Shah Alam"].
Proof.
  split; [split; [reflexivity | unfold cacheTimeout; lia] |].
  destruct (expired_entry_is_refetched "Shah Alam"
              (Host.answering (Host.json_response 200 "OK" example_weather) 1000)
              expired_world
              {| CacheEntry.data := JNull; CacheEntry.timestamp := 1735689000000 |}
              (Host.json_response 200 "OK" example_weather) example_weather
              ltac:(reflexivity) ltac:(vm_compute; discriminate)
              eq_refl eq_refl eq_refl)
    as (w1 & Hrun & Hlog & _).
  exists w1. split; assumption.
Defined.

(** X6.  The simulation has eight outcomes, one for each combination of
    the three tests; the level is never ["Low"], and the cases of the two
    combinations with an average just below 0.7 are 104, not 105. *)
Theorem simulation_table `{rt : Runtime} data env w :
  exists r,
    getSimulatedPrediction data env w = (inr r, tick w)
    /\ (AdvancedOutbreakPrediction.risk_level (AdvancedOutbreakPrediction.prediction r),
        AdvancedOutbreakPrediction.predicted_cases (AdvancedOutbreakPrediction.prediction r))
       = match opt_gt (OutbreakPredictionRequest.temperature data) 28,
               opt_gt (OutbreakPredictionRequest.humidity data) 70,
               opt_gt (OutbreakPredictionRequest.rainfall data) 5 with
         | true, true, true => (JStr "Critical", JNum 120)
         | true, true, false => (JStr "High", JNum 105)
         | true, false, true => (JStr "High", JNum 104)
         | false, true, true => (JStr "High", JNum 104)
         | true, false, false => (JStr "Medium", JNum 90)
         | false, true, false => (JStr "Medium", JNum 90)
         | false, false, true => (JStr "Medium", JNum 90)
         | false, false, false => (JStr "Medium", JNum 75)
         end.
Proof.
  eexists. split; [reflexivity |].
  cbn [AdvancedOutbreakPrediction.risk_level AdvancedOutbreakPrediction.predicted_cases
       AdvancedOutbreakPrediction.prediction].
  destruct (opt_gt (OutbreakPredictionRequest.temperature data) 28),
    (opt_gt (OutbreakPredictionRequest.humidity data) 70),
    (opt_gt (OutbreakPredictionRequest.rainfall data) 5);
    vm_compute; reflexivity.
Qed.

(* ===================================================================== *)
(** ** The order of binary64 numbers *)
(* ===================================================================== *)

(** The comparisons of the scorer are those of IEEE 754; their order laws
    are read off the specification of the comparison. *)

Ltac order_cases :=
  repeat match goal with
  | |- context [Z.compare ?a ?b] => destruct (Z.compare_spec a b)
  | H : context [Z.compare ?a ?b] |- _ => destruct (Z.compare_spec a b)
  | |- context [PosDef.Pos.compare_cont Eq ?a ?b] =>
      change (PosDef.Pos.compare_cont Eq a b) with (Pos.compare a b);
      destruct (Pos.compare_spec a b)
  | H : context [PosDef.Pos.compare_cont Eq ?a ?b] |- _ =>
      change (PosDef.Pos.compare_cont Eq a b) with (Pos.compare a b) in H;
      destruct (Pos.compare_spec a b)
  end.

Lemma SFcompare_trans x y z c1 c2 :
  SFcompare x y = Some c1 -> SFcompare y z = Some c2 ->
  c1 <> Gt -> c2 <> Gt ->
  SFcompare x z = Some (match c1, c2 with Eq, Eq => Eq | _, _ => Lt end).
Proof.
  destruct x as [sx | sx | | sx mx ex], y as [sy | sy | | sy my ey],
    z as [sz | sz | | sz mz ez]; cbn [SFcompare]; try discriminate;
  try destruct sx; try destruct sy; try destruct sz;
  intros H1 H2; injection H1 as <-; injection H2 as <-;
  try congruence; try reflexivity;
  order_cases; intros; cbn [CompOpp] in *; try congruence; try reflexivity; try lia.
Qed.

Lemma SFcompare_opp x y c :
  SFcompare x y = Some c -> SFcompare y x = Some (CompOpp c).
Proof.
  destruct x as [sx | sx | | sx mx ex], y as [sy | sy | | sy my ey];
    cbn [SFcompare]; try discriminate;
  try destruct sx; try destruct sy;
  intros H1; injection H1 as <-; try reflexivity;
  order_cases; cbn; try reflexivity; try lia.
Qed.

Lemma SFcompare_refl x y c : SFcompare x y = Some c -> SFcompare y y = Some Eq.
Proof.
  destruct x as [sx | sx | | sx mx ex], y as [sy | sy | | sy my ey];
    cbn [SFcompare]; try discriminate; intros _;
  try destruct sy; try reflexivity;
  rewrite Z.compare_refl;
  change (PosDef.Pos.compare_cont Eq my my) with (Pos.compare my my);
  now rewrite Pos.compare_refl.
Qed.

Lemma SFcompare_total x y :
  SFcompare x x = Some Eq -> SFcompare y y = Some Eq ->
  exists c, SFcompare x y = Some c.
Proof. destruct x, y; cbn [SFcompare]; try discriminate; eauto. Qed.

Section FloatOrder.
#[local] Open Scope float_scope.

Lemma leb_compare x y :
  (x <=? y) = true <->
  exists c, SFcompare (Prim2SF x) (Prim2SF y) = Some c /\ c <> Gt.
Proof.
  rewrite FloatAxioms.leb_spec. unfold SFleb.
  destruct (SFcompare (Prim2SF x) (Prim2SF y)) as [[ | | ] |]; split;
    try discriminate; try (intros _; eexists; split; [reflexivity | discriminate]);
    intros (c & [= <-] & H); congruence.
Qed.

Lemma ltb_compare x y :
  (x <? y) = true <-> SFcompare (Prim2SF x) (Prim2SF y) = Some Lt.
Proof.
  rewrite FloatAxioms.ltb_spec. unfold SFltb.
  destruct (SFcompare (Prim2SF x) (Prim2SF y)) as [[ | | ] |]; split;
    congruence.
Qed.

Lemma leb_trans x y z : (x <=? y) = true -> (y <=? z) = true -> (x <=? z) = true.
Proof.
  rewrite !leb_compare. intros (c1 & H1 & N1) (c2 & H2 & N2).
  eexists. split; [exact (SFcompare_trans _ _ _ _ _ H1 H2 N1 N2) |].
  destruct c1, c2; congruence.
Qed.

Lemma ltb_leb_trans x y z : (x <? y) = true -> (y <=? z) = true -> (x <? z) = true.
Proof.
  rewrite !ltb_compare, leb_compare. intros H1 (c2 & H2 & N2).
  rewrite (SFcompare_trans _ _ _ _ _ H1 H2 ltac:(discriminate) N2). reflexivity.
Qed.

Lemma leb_ltb_trans x y z : (x <=? y) = true -> (y <? z) = true -> (x <? z) = true.
Proof.
  rewrite !ltb_compare, leb_compare. intros (c1 & H1 & N1) H2.
  rewrite (SFcompare_trans _ _ _ _ _ H1 H2 N1 ltac:(discriminate)).
  now destruct c1.
Qed.

Lemma ltb_leb x y : (x <? y) = true -> (x <=? y) = true.
Proof.
  rewrite ltb_compare, leb_compare. intros H. eexists. split; [exact H | discriminate].
Qed.

(** [x <= y] excludes [y < x]. *)
Lemma leb_not_ltb x y : (x <=? y) = true -> (y <? x) = false.
Proof.
  rewrite leb_compare. intros (c & H & N).
  apply not_true_is_false. rewrite ltb_compare, (SFcompare_opp _ _ _ H).
  destruct c; cbn; congruence.
Qed.

(** Two numbers that are not [NaN] are comparable. *)
Lemma not_leb_ltb x y a b :
  (a <=? x) = true -> (y <=? b) = true -> (x <=? y) = false -> (y <? x) = true.
Proof.
  rewrite !leb_compare. intros (c1 & H1 & _) (c2 & H2 & _) H.
  apply SFcompare_refl in H1. apply SFcompare_opp, SFcompare_refl in H2.
  destruct (SFcompare_total _ _ H1 H2) as [c Hc].
  rewrite ltb_compare, (SFcompare_opp _ _ _ Hc).
  destruct c; try reflexivity; exfalso; apply not_true_iff_false in H; apply H;
    apply leb_compare; eexists; (split; [exact Hc | discriminate]).
Qed.

End FloatOrder.

(* ===================================================================== *)
(** ** The scorer: bounds and necessary conditions *)
(* ===================================================================== *)

Section ScorerBounds.
Context `{rt : Runtime}.
#[local] Open Scope float_scope.

(** The temperature rule contributes 0 to 3 points, and none below 25. *)
Lemma temperature_rule_points temp :
  (0 <= points_of (temperature_rule temp) <= 3)%Z
  /\ ((0 < points_of (temperature_rule temp))%Z -> (25 <=? temp) = true).
Proof.
  unfold temperature_rule.
  destruct (25 <=? temp) eqn:E1; cbn [andb].
  - destruct (temp <=? 30); [cbn; split; [lia | reflexivity] |].
    destruct ((30 <? temp) && (temp <=? 35)); [cbn; split; [lia | reflexivity] |].
    destruct (35 <? temp); cbn; split; try lia; reflexivity.
  - destruct (30 <? temp) eqn:E2; cbn [andb].
    + apply (leb_ltb_trans 25 30 temp eq_refl) in E2. apply ltb_leb in E2. congruence.
    + destruct (35 <? temp) eqn:E3; [| cbn; split; lia].
      apply (leb_ltb_trans 25 35 temp eq_refl) in E3. apply ltb_leb in E3. congruence.
Qed.

(** The humidity rule contributes -1 to 3 points, and none above zero
    below 60. *)
Lemma humidity_rule_points humidity :
  (-1 <= points_of (humidity_rule humidity) <= 3)%Z
  /\ ((0 < points_of (humidity_rule humidity))%Z -> (60 <=? humidity) = true).
Proof.
  unfold humidity_rule.
  destruct (70 <=? humidity) eqn:E1.
  - cbn. split; [lia | intros _]. exact (leb_trans 60 70 humidity eq_refl E1).
  - destruct (60 <=? humidity); [cbn; split; [lia | reflexivity] |].
    destruct (humidity <? 50); cbn; split; lia.
Qed.

(** The rainfall rule contributes 0 to 3 points, and none up to 50. *)
Lemma rainfall_rule_points rainfall :
  (0 <= points_of (rainfall_rule rainfall) <= 3)%Z
  /\ ((0 < points_of (rainfall_rule rainfall))%Z -> (50 <? rainfall) = true).
Proof.
  unfold rainfall_rule.
  destruct (100 <? rainfall) eqn:E1.
  - cbn. split; [lia | intros _]. exact (leb_ltb_trans 50 100 rainfall eq_refl E1).
  - destruct (50 <? rainfall); cbn; split; try lia; reflexivity.
Qed.

Lemma reason_of_length r : (length (reason_of r) <= 1)%nat.
Proof. destruct r as [[? ?] |]; cbn; lia. Qed.

Lemma level_reason_length l : (length (level_reason l) <= 1)%nat.
Proof. destruct l; cbn; lia. Qed.

(** X9.  For every input, also [NaN] and the infinities, the summed score
    lies between -1 and 9, and at most four reasons are returned: one per
    rule and the one of the level. *)
Theorem score_is_bounded temp humidity rainfall :
  (-1 <= riskScore (assessDengueRisk_rules temp humidity rainfall) <= 9)%Z
  /\ (length (reasoning (assessDengueRisk temp humidity rainfall)) <= 4)%nat.
Proof.
  split.
  - rewrite assessDengueRisk_rules_split. cbn [riskScore].
    pose proof (temperature_rule_points temp) as [? _].
    pose proof (humidity_rule_points humidity) as [? _].
    pose proof (rainfall_rule_points rainfall) as [? _]. lia.
  - rewrite assessDengueRisk_reasoning, assessDengueRisk_rules_split. cbn [reasons].
    rewrite !length_app.
    pose proof (reason_of_length (temperature_rule temp)).
    pose proof (reason_of_length (humidity_rule humidity)).
    pose proof (reason_of_length (rainfall_rule rainfall)).
    pose proof (level_reason_length (risk (assessDengueRisk temp humidity rainfall))).
    lia.
Qed.

(** X10.  The level Critical needs all three rules: it is returned only
    for a temperature of at least 25, a humidity of at least 60 and a
    rainfall above 50. *)
Theorem critical_needs_all_three temp humidity rainfall :
  risk (assessDengueRisk temp humidity rainfall) = Critical ->
  (25 <=? temp) = true /\ (60 <=? humidity) = true /\ (50 <? rainfall) = true.
Proof.
  rewrite assessDengueRisk_level, assessDengueRisk_rules_split. cbn [riskScore].
  pose proof (temperature_rule_points temp) as [Bt Ht].
  pose proof (humidity_rule_points humidity) as [Bh Hh].
  pose proof (rainfall_rule_points rainfall) as [Br Hr].
  unfold level_of.
  destruct (Z.leb_spec 7 (points_of (temperature_rule temp)
                          + points_of (humidity_rule humidity)
                          + points_of (rainfall_rule rainfall))) as [H7 | H7].
  - intros _. split; [apply Ht | split; [apply Hh | apply Hr]]; lia.
  - destruct (5 <=? _)%Z; [discriminate |]. destruct (3 <=? _)%Z; discriminate.
Qed.

(** Readings in the ranges that [getFallbackWeatherData] documents
    (28-34 degrees, 65-85 %, at most 20 mm) score 4, 5 or 6. *)
Lemma typical_readings_score temperature humidity rainfall :
  (28 <=? temperature) = true -> (temperature <=? 34) = true ->
  (65 <=? humidity) = true -> (humidity <=? 85) = true ->
  (rainfall <=? 20) = true ->
  (4 <= riskScore (assessDengueRisk_rules temperature humidity rainfall) <= 6)%Z.
Proof.
  intros T1 T2 H1 H2 R.
  rewrite assessDengueRisk_rules_split. cbn [riskScore].
  assert (Pt : (2 <= points_of (temperature_rule temperature) <= 3)%Z).
  { unfold temperature_rule.
    rewrite (leb_trans 25 28 temperature eq_refl T1). cbn [andb].
    destruct (temperature <=? 30) eqn:E; [cbn; lia |].
    rewrite (not_leb_ltb temperature 30 28 30 T1 eq_refl E).
    rewrite (leb_trans temperature 34 35 T2 eq_refl). cbn. lia. }
  assert (Ph : (2 <= points_of (humidity_rule humidity) <= 3)%Z).
  { unfold humidity_rule.
    destruct (70 <=? humidity); [cbn; lia |].
    rewrite (leb_trans 60 65 humidity eq_refl H1). cbn. lia. }
  assert (Pr : points_of (rainfall_rule rainfall) = 0%Z).
  { unfold rainfall_rule.
    rewrite (leb_not_ltb rainfall 100 (leb_trans rainfall 20 100 R eq_refl)).
    rewrite (leb_not_ltb rainfall 50 (leb_trans rainfall 20 50 R eq_refl)).
    reflexivity. }
  lia.
Qed.

End ScorerBounds.

(** X10 at 28 degrees, 80 % humidity and 120 mm of rain. *)
Lemma critical_needs_all_three_example :
  risk (assessDengueRisk (rt := Host.v8) 28 80 120) = Critical
  /\ (25 <=? 28)%float = true /\ (60 <=? 80)%float = true /\ (50 <? 120)%float = true.
Proof.
  split; [reflexivity |].
  apply (critical_needs_all_three (rt := Host.v8) 28 80 120). reflexivity.
Defined.

(* ===================================================================== *)
(** ** Computations that send nothing *)
(* ===================================================================== *)

Section QuietFacts.
Context {A B : Type}.

Lemma quiet_ret (a : A) : quiet (ret a).
Proof. now intros env w. Qed.

Lemma quiet_throw (e : Thrown) : quiet (throw (A := A) e).
Proof. now intros env w. Qed.

Lemma quiet_lift (r : Thrown + A) : quiet (lift r).
Proof. now intros env w. Qed.

Lemma quiet_bind (m : M A) (k : A -> M B) :
  quiet m -> (forall a, quiet (k a)) -> quiet (bind m k).
Proof.
  intros Hm Hk env w. unfold bind.
  destruct (Hm env w) as [Hl Hc].
  destruct (m env w) as [[e | a] w1]; cbn [snd] in *; [now split |].
  destruct (Hk a env w1) as [Hl' Hc']. split; congruence.
Qed.

Lemma quiet_try_catch (m : M A) h :
  quiet m -> (forall e, quiet (h e)) -> quiet (try_catch m h).
Proof.
  intros Hm Hh env w. unfold try_catch.
  destruct (Hm env w) as [Hl Hc].
  destruct (m env w) as [[e | a] w1]; cbn [snd] in *; [| now split].
  destruct (Hh e env w1) as [Hl' Hc']. split; congruence.
Qed.

Lemma quiet_if (c : bool) (m1 m2 : M A) :
  quiet m1 -> quiet m2 -> quiet (if c then m1 else m2).
Proof. now destruct c. Qed.

(** A handler that sends nothing leaves the requests and the cache as the
    body of the [try] left them. *)
Lemma quiet_handler (m : M A) h env w :
  (forall e, quiet (h e)) ->
  log (snd (try_catch m h env w)) = log (snd (m env w))
  /\ cache (snd (try_catch m h env w)) = cache (snd (m env w)).
Proof.
  intros Hh. unfold try_catch.
  destruct (m env w) as [[e | a] w1]; cbn [snd]; [apply Hh | now split].
Qed.

End QuietFacts.

Lemma quiet_Date_now : quiet Date_now.
Proof. now intros env w. Qed.

Lemma quiet_or_else (ma mb : M JsVal) : quiet ma -> quiet mb -> quiet (ma ||| mb).
Proof.
  intros Ha Hb. unfold or_else. apply quiet_bind; [exact Ha |].
  intros a. apply quiet_if; [apply quiet_ret | exact Hb].
Qed.

(** Proves that a computation built from pure steps and readings of the
    clock sends nothing. *)
Ltac quietly :=
  repeat first
    [ apply quiet_ret
    | apply quiet_throw
    | apply quiet_lift
    | apply quiet_Date_now
    | apply quiet_or_else
    | apply quiet_if
    | apply quiet_try_catch; [| intros ?]
    | apply quiet_bind; [| intros ?]
    | progress cbv zeta ].

Section QuietOperations.
Context `{rt : Runtime} `{lc : Locale}.

Lemma getSimulatedPrediction_quiet data : quiet (getSimulatedPrediction data).
Proof. unfold getSimulatedPrediction. quietly. Qed.

Lemma normalized_prediction_quiet result : quiet (normalized_prediction result).
Proof. unfold normalized_prediction. quietly. Qed.

Lemma normalized_report_quiet result : quiet (normalized_report result).
Proof. unfold normalized_report. quietly. Qed.

Lemma report_failure_quiet response : quiet (report_failure response).
Proof. unfold report_failure, response_json. quietly. Qed.

Lemma getFallbackWeatherData_quiet random : quiet (getFallbackWeatherData random).
Proof. unfold getFallbackWeatherData. quietly. Qed.

Lemma calculateBreedingRisk_any_quiet temperature humidity rainfall :
  quiet (calculateBreedingRisk_any temperature humidity rainfall).
Proof. unfold calculateBreedingRisk_any, assessDengueRisk_any. quietly. Qed.

Lemma weatherstack_reading_quiet d : quiet (weatherstack_reading d).
Proof.
  unfold weatherstack_reading.
  repeat first [ apply calculateBreedingRisk_any_quiet | progress quietly ].
Qed.

Lemma forecast_reading_quiet d : quiet (forecast_reading d).
Proof.
  unfold forecast_reading.
  repeat first [ apply calculateBreedingRisk_any_quiet | progress quietly ].
Qed.

End QuietOperations.

(* ===================================================================== *)
(** ** The weather gateway: both caches *)
(* ===================================================================== *)

Section GatewayFacts.

(** The attempt to fetch: the handler turns every failure into [null]. *)
Lemma refetched_run key req label env w :
  try_catch
    (response <- fetch req ;;
     if negb (ok response) then
       throw (ErrorObj (label +:+ pretty (resp_status response)))
     else
       d <- response_json response ;;
       now <- Date_now ;;
       set_cache key {| CacheEntry.data := d; CacheEntry.timestamp := now |} ;;
       ret d)
    (fun _ => ret JNull) env w
  = (inr (fst (refetched key req env w)), snd (refetched key req env w)).
Proof.
  unfold refetched, answer, try_catch, bind, fetch, response_json, lift, Date_now,
    set_cache.
  destruct (backend env (log w) req) as [e | response]; [reflexivity |].
  destruct (ok response); cbn [negb]; [| reflexivity].
  destruct (resp_json response); reflexivity.
Qed.

(** [getWeatherStackData] never throws, and does what [served] says. *)
Lemma getWeatherStackData_served location env w :
  getWeatherStackData location env w
  = (inr (fst (served (weatherstack_key location) (weatherstack_request location) env w)),
     snd (served (weatherstack_key location) (weatherstack_request location) env w)).
Proof.
  unfold getWeatherStackData, served, cached.
  unfold bind at 1. unfold bind at 1. unfold get_cache at 1.
  destruct (cache w !! weatherstack_key location) as [e |]; cbn [ret].
  - unfold bind at 1, Date_now at 1.
    destruct (clock env (ticks w) - CacheEntry.timestamp e <? cacheTimeout);
      [reflexivity |].
    apply refetched_run.
  - apply refetched_run.
Qed.

(** So does [getMalaysiaWeatherForecast], under its one key. *)
Lemma getMalaysiaWeatherForecast_served env w :
  getMalaysiaWeatherForecast env w
  = (inr (fst (served malaysia_key malaysia_request env w)),
     snd (served malaysia_key malaysia_request env w)).
Proof.
  unfold getMalaysiaWeatherForecast, served, cached.
  unfold bind at 1. unfold bind at 1. unfold get_cache at 1.
  destruct (cache w !! malaysia_key) as [e |]; cbn [ret].
  - unfold bind at 1, Date_now at 1.
    destruct (clock env (ticks w) - CacheEntry.timestamp e <? cacheTimeout);
      [reflexivity |].
    apply refetched_run.
  - apply refetched_run.
Qed.

(** A call changes no entry but the one of its key. *)
Lemma served_frame key req env w k :
  k <> key -> cache (snd (served key req env w)) !! k = cache w !! k.
Proof.
  intros Hk. unfold served, refetched.
  destruct (cache w !! key) as [e |].
  - destruct (_ <? cacheTimeout); [reflexivity |].
    destruct (answer env (tick w) req); cbn [snd cache tick sent];
      [now apply lookup_insert_ne | reflexivity].
  - destruct (answer env w req); cbn [snd cache sent];
      [now apply lookup_insert_ne | reflexivity].
Qed.

(** A call sends its request at most once, and nothing else. *)
Lemma served_log key req env w :
  log (snd (served key req env w)) = log w
  \/ log (snd (served key req env w)) = log w ++ [req].
Proof.
  unfold served, refetched.
  destruct (cache w !! key) as [e |].
  - destruct (_ <? cacheTimeout); [now left |].
    destruct (answer env (tick w) req); now right.
  - destruct (answer env w req); now right.
Qed.

Lemma weatherstack_key_inj a b : weatherstack_key a = weatherstack_key b -> a = b.
Proof. unfold weatherstack_key. cbn. intros [= H]. exact H. Qed.

(** X3.  [getWeatherStackData] never rejects: for every location, backend
    and state it resolves.  An entry younger than ten minutes answers with
    its data.  Otherwise the request is sent, and a rejected fetch, a
    status that is not OK and a body that is not JSON all yield [null];
    only the decoded body of an OK response is returned as it is. *)
Theorem getWeatherStackData_resolves location env w :
  exists v w',
    getWeatherStackData location env w = (inr v, w')
    /\ (forall e,
          cache w !! weatherstack_key location = Some e ->
          clock env (ticks w) - CacheEntry.timestamp e < cacheTimeout ->
          v = CacheEntry.data e)
    /\ (stale (weatherstack_key location) env w = true ->
        (forall e,
           backend env (log w) (weatherstack_request location) = inl e -> v = JNull)
        /\ (forall response,
              backend env (log w) (weatherstack_request location) = inr response ->
              (ok response = false -> v = JNull)
              /\ (forall e, resp_json response = inl e -> v = JNull)
              /\ (forall d, ok response = true -> resp_json response = inr d -> v = d))).
Proof.
  do 2 eexists. split; [apply getWeatherStackData_served |].
  unfold served, stale, refetched, answer. split.
  - intros e -> Ht.
    destruct (Z.ltb_spec (clock env (ticks w) - CacheEntry.timestamp e) cacheTimeout);
      [reflexivity | lia].
  - intros Hs.
    assert (E : fst (match cache w !! weatherstack_key location with
                     | Some e =>
                         if clock env (ticks w) - CacheEntry.timestamp e <? cacheTimeout
                         then (CacheEntry.data e, tick w)
                         else refetched (weatherstack_key location)
                                (weatherstack_request location) env (tick w)
                     | None => refetched (weatherstack_key location)
                                 (weatherstack_request location) env w
                     end)
                = default JNull (answer env w (weatherstack_request location))).
    { destruct (cache w !! weatherstack_key location) as [e |].
      - apply negb_true_iff in Hs. rewrite Hs. unfold refetched, answer. cbn [tick log].
        destruct (backend env (log w) _) as [t | response]; [reflexivity |].
        destruct (ok response); [| reflexivity].
        destruct (resp_json response); reflexivity.
      - unfold refetched, answer.
        destruct (backend env (log w) _) as [t | response]; [reflexivity |].
        destruct (ok response); [| reflexivity].
        destruct (resp_json response); reflexivity. }
    unfold refetched, answer in E |- *. rewrite E. clear E. split.
    + intros e ->. reflexivity.
    + intros response ->. split; [intros ->; reflexivity |]. split.
      * intros e ->. now destruct (ok response).
      * intros d -> ->. reflexivity.
Qed.

(** X13.  The entries of the cache are separate: a call for one location
    changes neither the entry of another location nor the entry of the
    forecast, and fetching the forecast changes no entry of a location. *)
Theorem cache_entries_are_separate a b env w :
  a <> b ->
  cache (snd (getWeatherStackData a env w)) !! weatherstack_key b
  = cache w !! weatherstack_key b
  /\ cache (snd (getWeatherStackData a env w)) !! malaysia_key
     = cache w !! malaysia_key
  /\ cache (snd (getMalaysiaWeatherForecast env w)) !! weatherstack_key b
     = cache w !! weatherstack_key b.
Proof.
  intros Hab.
  rewrite getWeatherStackData_served, getMalaysiaWeatherForecast_served. cbn [snd].
  split; [| split]; apply served_frame.
  - intros H. apply Hab. symmetry. now apply weatherstack_key_inj.
  - discriminate.
  - discriminate.
Qed.

(** A successful fetch of the forecast leaves it stored with the time
    read right after the response. *)
Lemma getMalaysiaWeatherForecast_store env w response d :
  stale malaysia_key env w = true ->
  backend env (log w) malaysia_request = inr response ->
  ok response = true ->
  resp_json response = inr d ->
  getMalaysiaWeatherForecast env w =
  (inr d,
   {| cache := <[malaysia_key :=
                   {| CacheEntry.data := d;
                      CacheEntry.timestamp := clock env (stamp_index malaysia_key w) |}]>
                 (cache w);
      log := log w ++ [malaysia_request];
      ticks := S (stamp_index malaysia_key w) |}).
Proof.
  intros Hs Hb Hok Hj.
  rewrite getMalaysiaWeatherForecast_served. unfold served, stale, stamp_index in *.
  destruct (cache w !! malaysia_key) as [e |] eqn:He.
  - apply negb_true_iff in Hs. rewrite Hs.
    unfold refetched, answer. cbn [tick log] in *. rewrite Hb, Hok, Hj. reflexivity.
  - unfold refetched, answer. rewrite Hb, Hok, Hj. reflexivity.
Qed.

(** X14.  The forecast is cached like the readings of a location: when a
    call finds no fresh entry and its fetch succeeds, the decoded body is
    returned and stored with the time [t1] that the call reads from the
    clock right after the response (the reading number [stamp_index]).  A
    second call made in the state that the first one left, whose reading
    of the clock (the next one) is less than ten minutes after [t1],
    returns the same body and sends nothing, whatever the backend would
    answer; and so does any later call that still finds this entry and
    reads a time less than ten minutes after [t1]. *)
Theorem forecast_second_call_is_cached env w response d :
  stale malaysia_key env w = true ->
  backend env (log w) malaysia_request = inr response ->
  ok response = true ->
  resp_json response = inr d ->
  exists w1 t1,
    getMalaysiaWeatherForecast env w = (inr d, w1)
    /\ log w1 = log w ++ [malaysia_request]
    /\ cache w1 !! malaysia_key
       = Some {| CacheEntry.data := d; CacheEntry.timestamp := t1 |}
    /\ t1 = clock env (stamp_index malaysia_key w)
    /\ ticks w1 = S (stamp_index malaysia_key w)
    /\ (forall env',
          clock env' (ticks w1) - t1 < cacheTimeout ->
          getMalaysiaWeatherForecast env' w1 = (inr d, tick w1))
    /\ forall env' w',
         cache w' !! malaysia_key
         = Some {| CacheEntry.data := d; CacheEntry.timestamp := t1 |} ->
         clock env' (ticks w') - t1 < cacheTimeout ->
         getMalaysiaWeatherForecast env' w' = (inr d, tick w').
Proof.
  intros Hs Hb Hok Hj.
  assert (Hnext : forall t1 env' w',
            cache w' !! malaysia_key
            = Some {| CacheEntry.data := d; CacheEntry.timestamp := t1 |} ->
            clock env' (ticks w') - t1 < cacheTimeout ->
            getMalaysiaWeatherForecast env' w' = (inr d, tick w')).
  { intros t1 env' w' Hc Ht. rewrite getMalaysiaWeatherForecast_served.
    unfold served. rewrite Hc. cbn [CacheEntry.timestamp CacheEntry.data].
    destruct (Z.ltb_spec (clock env' (ticks w') - t1) cacheTimeout); [reflexivity | lia]. }
  pose proof (getMalaysiaWeatherForecast_store env w response d Hs Hb Hok Hj) as H1.
  match type of H1 with _ = (_, ?x) => set (w1 := x) in * end.
  assert (Hc : cache w1 !! malaysia_key
               = Some {| CacheEntry.data := d;
                         CacheEntry.timestamp := clock env (stamp_index malaysia_key w) |})
    by apply lookup_insert_eq.
  exists w1, (clock env (stamp_index malaysia_key w)).
  split; [exact H1 |].
  split; [reflexivity |].
  split; [exact Hc |].
  split; [reflexivity |].
  split; [reflexivity |].
  split; [| apply Hnext].
  intros env' Ht. exact (Hnext _ env' w1 Hc Ht).
Qed.

End GatewayFacts.

(* ===================================================================== *)
(** ** The weather service: the chain of providers *)
(* ===================================================================== *)

Section ProviderFacts.
Context `{rt : Runtime} `{lc : Locale}.

Lemma evaluates_ToString v :
  plain v = true -> evaluates (lift (ToString v)) (text_of v).
Proof.
  intros Hp env w. unfold lift, text_of.
  destruct (ToString_plain v Hp) as [s ->]. reflexivity.
Qed.

(** On values without a property named [toString], the scorer does not
    throw, and the level is the one of the numbers the values convert
    to. *)
Lemma calculateBreedingRisk_any_run temperature humidity rainfall :
  plain temperature = true -> plain humidity = true -> plain rainfall = true ->
  evaluates (calculateBreedingRisk_any temperature humidity rainfall)
    (calculateBreedingRisk (number_of temperature) (number_of humidity)
       (number_of rainfall)).
Proof.
  intros Pt Ph Pr env w.
  unfold calculateBreedingRisk_any, assessDengueRisk_any.
  unfold bind at 1. unfold bind at 1. unfold lift at 1.
  rewrite (ToNumber_plain _ Pt).
  unfold bind at 1. unfold lift at 1. rewrite (ToNumber_plain _ Ph).
  unfold bind at 1.
  unfold calculateBreedingRisk, assessDengueRisk, assessDengueRisk_rules.
  destruct (ToString_plain _ Ph) as [s Hs].
  destruct (70 <=? number_of humidity)%float;
    [ unfold bind at 1; unfold lift at 1; rewrite Hs
    | destruct (60 <=? number_of humidity)%float;
      [| destruct (number_of humidity <? 50)%float ] ];
  cbn [ret bind lift]; unfold bind, lift; rewrite (ToNumber_plain _ Pr); cbn [ret];
  (destruct ((25 <=? number_of temperature)%float && (number_of temperature <=? 30)%float);
   [| destruct ((30 <? number_of temperature)%float && (number_of temperature <=? 35)%float);
      [| destruct (35 <? number_of temperature)%float ] ]);
  (destruct (100 <? number_of rainfall)%float;
   [| destruct (50 <? number_of rainfall)%float ]);
  reflexivity.
Qed.

(** The estimate reads the clock once and never throws. *)
Lemma getFallbackWeatherData_run random env w :
  exists r,
    getFallbackWeatherData random env w = (inr r, tick w)
    /\ WeatherData.location r = JStr "Malaysia"
    /\ WeatherData.lastUpdated r
       = Date_toLocaleTimeString (clock env (ticks w)) +:+ " (Estimated)"
    /\ WeatherData.riskFactor r
       = calculateBreedingRisk (28 + random 0%nat * 6)%float
           (65 + random 1%nat * 20)%float (random 2%nat * 20)%float.
Proof. eexists. split; [reflexivity |]. repeat split. Qed.

Lemma getFallbackWeatherData_resolves random : resolves (getFallbackWeatherData random).
Proof.
  intros env w. destruct (getFallbackWeatherData_run random env w) as (r & H & _).
  eauto.
Qed.

End ProviderFacts.

(** Runs the steps of a reading that return without throwing. *)
Ltac evaluate_reading :=
  repeat first
    [ apply evaluates_ret
    | apply evaluates_or_else
    | apply evaluates_getProp; solve [auto with js]
    | apply evaluates_ToNumber; solve [auto 6 with js]
    | apply evaluates_ToString; solve [auto 6 with js]
    | apply calculateBreedingRisk_any_run; solve [auto 6 with js]
    | eapply evaluates_bind ].

Ltac run_reading := erewrite bind_evaluates by evaluate_reading; cbv beta.

Section ReadingFacts.
Context `{rt : Runtime} `{lc : Locale}.

(** A WeatherStack payload with the members [current] and [location] is
    reported as it is: nothing is sent, and the clock is read once. *)
Lemma weatherstack_reading_run d env w :
  plain d = true ->
  nullish (field d "current") = false ->
  nullish (field d "location") = false ->
  weatherstack_reading d env w =
  (inr {| WeatherData.temperature :=
            text_of (field (field d "current") "temperature") +:+ "°C";
          WeatherData.humidity :=
            text_of (field (field d "current") "humidity") +:+ "%";
          WeatherData.rainfall :=
            text_of (js_or (field (field d "current") "precip") (JNum 0)) +:+ "mm";
          WeatherData.riskFactor :=
            calculateBreedingRisk
              (number_of (field (field d "current") "temperature"))
              (number_of (field (field d "current") "humidity"))
              (number_of (js_or (field (field d "current") "precip") (JNum 0)));
          WeatherData.location :=
            JStr (text_of (field (field d "location") "name") +:+ ", "
                  +:+ text_of (field (field d "location") "region"));
          WeatherData.lastUpdated := Date_toLocaleTimeString (clock env (ticks w)) |},
   tick w).
Proof.
  intros Hp Hc Hl.
  assert (Hd : nullish d = false) by (destruct d; try reflexivity; discriminate).
  unfold weatherstack_reading.
  do 15 run_reading.
  reflexivity.
Qed.

(** The first entry of the forecast is reported with the mean of its two
    temperatures. *)
Lemma forecast_reading_run item mx mn env w :
  plain item = true ->
  field item "temperature_max" = JNum mx ->
  field item "temperature_min" = JNum mn ->
  forecast_reading item env w =
  (inr {| WeatherData.temperature :=
            Number_toString (Math_round ((mx + mn) / 2)%float) +:+ "°C";
          WeatherData.humidity := text_of (field item "humidity") +:+ "%";
          WeatherData.rainfall := text_of (field item "rainfall") +:+ "mm";
          WeatherData.riskFactor :=
            calculateBreedingRisk ((mx + mn) / 2)%float
              (number_of (field item "humidity"))
              (number_of (field item "rainfall"));
          WeatherData.location := field item "location";
          WeatherData.lastUpdated := Date_toLocaleTimeString (clock env (ticks w)) |},
   tick w).
Proof.
  intros Hp Hmx Hmn.
  assert (Hi : nullish item = false)
    by (destruct item; try reflexivity; discriminate).
  unfold forecast_reading.
  do 2 run_reading. rewrite Hmx, Hmn.
  unfold bind at 1. cbn [js_add ToPrimitive ToNumber ToString lift].
  unfold bind at 1. cbn [ToNumber lift].
  do 6 run_reading.
  reflexivity.
Qed.

End ReadingFacts.

Section ChainFacts.
Context `{rt : Runtime} `{lc : Locale}.

(** What follows the forecast in [getWeatherWithRisk] sends nothing. *)
Lemma after_forecast_quiet random malaysiaData :
  quiet (usable <-
           (if truthy malaysiaData then
              data <- lift (getProp malaysiaData "data") ;;
              lift (has_items data)
            else ret false) ;;
         if usable then
           data <- lift (getProp malaysiaData "data") ;;
           forecast_reading (first_item data)
         else getFallbackWeatherData random).
Proof.
  repeat first [ apply forecast_reading_quiet
               | apply getFallbackWeatherData_quiet
               | progress quietly ].
Qed.

(** X15.  [getWeatherWithRisk] never rejects: for every location, backend,
    state and sequence of random draws it resolves with a reading.  It
    sends at most two requests: the one to WeatherStack, and after it the
    one for the forecast. *)
Theorem getWeatherWithRisk_resolves random location env w :
  exists r w',
    getWeatherWithRisk random location env w = (inr r, w')
    /\ (log w' = log w
        \/ log w' = log w ++ [weatherstack_request location]
        \/ log w' = log w ++ [malaysia_request]
        \/ log w' = log w ++ [weatherstack_request location; malaysia_request]).
Proof.
  assert (Hr : resolves (getWeatherWithRisk random location)).
  { apply try_catch_resolves. intros _. apply getFallbackWeatherData_resolves. }
  destruct (Hr env w) as (r & w' & Hrun).
  exists r, w'. split; [exact Hrun |].
  unfold getWeatherWithRisk in Hrun.
  match type of Hrun with
  | try_catch ?m ?h env w = _ =>
      pose proof (quiet_handler m h env w
                    (fun _ => getFallbackWeatherData_quiet random)) as [Hl _]
  end.
  rewrite Hrun in Hl. cbn [snd] in Hl. rewrite Hl. clear Hl Hrun.
  rewrite (bind_inr _ _ _ _ _ _ (getWeatherStackData_served location env w)).
  pose proof (served_log (weatherstack_key location) (weatherstack_request location)
                env w) as H1.
  set (s1 := served (weatherstack_key location) (weatherstack_request location) env w)
    in *.
  destruct (truthy (fst s1)).
  - rewrite (proj1 (weatherstack_reading_quiet _ env (snd s1))).
    destruct H1 as [-> | ->]; auto.
  - rewrite (bind_inr _ _ _ _ _ _ (getMalaysiaWeatherForecast_served env (snd s1))).
    pose proof (served_log malaysia_key malaysia_request env (snd s1)) as H2.
    set (s2 := served malaysia_key malaysia_request env (snd s1)) in *.
    rewrite (proj1 (after_forecast_quiet random (fst s2) env (snd s2))).
    destruct H2 as [-> | ->], H1 as [-> | ->]; auto.
    rewrite <- app_assoc. auto.
Qed.

(** X16.  When WeatherStack answers, from the cache or from the network,
    with a payload that has the members [current] and [location] (and no
    property named [toString]), the reading resolved with is the one of the
    payload: the texts of its temperature, humidity and precipitation (0
    for a missing or zero one), the level that the scorer gives their
    numbers, and the name and region of the place.  The clock is read once
    more and nothing else is sent: the forecast is not fetched. *)
Theorem primary_reading_is_reported random location env w d w1 :
  getWeatherStackData location env w = (inr d, w1) ->
  plain d = true ->
  nullish (field d "current") = false ->
  nullish (field d "location") = false ->
  getWeatherWithRisk random location env w =
  (inr {| WeatherData.temperature :=
            text_of (field (field d "current") "temperature") +:+ "°C";
          WeatherData.humidity :=
            text_of (field (field d "current") "humidity") +:+ "%";
          WeatherData.rainfall :=
            text_of (js_or (field (field d "current") "precip") (JNum 0)) +:+ "mm";
          WeatherData.riskFactor :=
            calculateBreedingRisk
              (number_of (field (field d "current") "temperature"))
              (number_of (field (field d "current") "humidity"))
              (number_of (js_or (field (field d "current") "precip") (JNum 0)));
          WeatherData.location :=
            JStr (text_of (field (field d "location") "name") +:+ ", "
                  +:+ text_of (field (field d "location") "region"));
          WeatherData.lastUpdated := Date_toLocaleTimeString (clock env (ticks w1)) |},
   tick w1).
Proof.
  intros H1 Hp Hc Hl.
  assert (Ht : truthy d = true) by (destruct d; try reflexivity; discriminate).
  unfold getWeatherWithRisk.
  apply try_catch_inr. rewrite (bind_inr _ _ _ _ _ _ H1), Ht.
  now apply weatherstack_reading_run.
Qed.

(** A truthy payload without the member [current] makes the reading throw
    before the clock is read, and the handler returns the estimate. *)
Lemma malformed_reading_falls_back random location env w d w1 :
  getWeatherStackData location env w = (inr d, w1) ->
  truthy d = true ->
  nullish (field d "current") = true ->
  getWeatherWithRisk random location env w = getFallbackWeatherData random env w1.
Proof.
  intros H1 Ht Hc.
  assert (Hthrow : exists e, weatherstack_reading d env w1 = (inl e, w1)).
  { unfold weatherstack_reading.
    rewrite (bind_evaluates _ _ (field d "current"))
      by (apply evaluates_getProp; auto with js).
    unfold bind at 1, lift at 1.
    destruct (field d "current"); try discriminate; eexists; reflexivity. }
  destruct Hthrow as [e He].
  unfold getWeatherWithRisk.
  erewrite try_catch_inl; [reflexivity |].
  rewrite (bind_inr _ _ _ _ _ _ H1), Ht. exact He.
Qed.

(** X17.  A truthy WeatherStack payload without the member [current] makes
    the reading throw inside the [try]; the handler returns the estimate at
    once, so that the forecast of the second provider is not fetched. *)
Theorem malformed_primary_skips_forecast random location env w d w1 :
  getWeatherStackData location env w = (inr d, w1) ->
  truthy d = true ->
  nullish (field d "current") = true ->
  getWeatherWithRisk random location env w = getFallbackWeatherData random env w1
  /\ log (snd (getWeatherWithRisk random location env w)) = log w1.
Proof.
  intros H1 Ht Hc.
  pose proof (malformed_reading_falls_back random location env w d w1 H1 Ht Hc) as E.
  split; [exact E |].
  rewrite E. apply getFallbackWeatherData_quiet.
Qed.

(** X30.  A payload without the member [current] that WeatherStack sends
    with an OK status is stored like any other, with the time [t1] that
    the storing call reads from the clock right after the response (the
    reading number [stamp_index]).  A call of [getWeatherWithRisk] for the
    location made in the state that the storing call left, whose reading
    of the clock (the next one) is less than ten minutes after [t1],
    returns an estimate and sends nothing; and so does every call that
    still finds this entry and reads a time less than ten minutes after
    [t1]: neither provider is asked again for ten minutes. *)
Theorem malformed_payload_is_cached location env w response d :
  stale (weatherstack_key location) env w = true ->
  backend env (log w) (weatherstack_request location) = inr response ->
  ok response = true ->
  resp_json response = inr d ->
  truthy d = true ->
  nullish (field d "current") = true ->
  exists w1 t1,
    getWeatherStackData location env w = (inr d, w1)
    /\ cache w1 !! weatherstack_key location
       = Some {| CacheEntry.data := d; CacheEntry.timestamp := t1 |}
    /\ t1 = clock env (stamp_index (weatherstack_key location) w)
    /\ ticks w1 = S (stamp_index (weatherstack_key location) w)
    /\ (forall random env',
          clock env' (ticks w1) - t1 < cacheTimeout ->
          getWeatherWithRisk random location env' w1
          = getFallbackWeatherData random env' (tick w1)
          /\ log (snd (getWeatherWithRisk random location env' w1)) = log w1)
    /\ forall random env' w',
         cache w' !! weatherstack_key location
         = Some {| CacheEntry.data := d; CacheEntry.timestamp := t1 |} ->
         clock env' (ticks w') - t1 < cacheTimeout ->
         getWeatherWithRisk random location env' w'
         = getFallbackWeatherData random env' (tick w')
         /\ log (snd (getWeatherWithRisk random location env' w')) = log w'.
Proof.
  intros Hs Hb Hok Hj Ht Hc.
  assert (Hnext : forall t1 random env' w',
            cache w' !! weatherstack_key location
            = Some {| CacheEntry.data := d; CacheEntry.timestamp := t1 |} ->
            clock env' (ticks w') - t1 < cacheTimeout ->
            getWeatherWithRisk random location env' w'
            = getFallbackWeatherData random env' (tick w')
            /\ log (snd (getWeatherWithRisk random location env' w')) = log w').
  { intros t1 random env' w' Hc' Hfresh.
    pose proof (getWeatherStackData_hit location env' w' _ Hc' Hfresh) as Hhit.
    cbn [CacheEntry.data] in Hhit.
    pose proof (malformed_reading_falls_back random location env' w' d (tick w')
                  Hhit Ht Hc) as E.
    split; [exact E |].
    rewrite E. exact (proj1 (getFallbackWeatherData_quiet random env' (tick w'))). }
  pose proof (getWeatherStackData_store location env w response d Hs Hb Hok Hj) as H1.
  match type of H1 with _ = (_, ?x) => set (w1 := x) in * end.
  assert (Hentry : cache w1 !! weatherstack_key location
                   = Some {| CacheEntry.data := d;
                             CacheEntry.timestamp :=
                               clock env (stamp_index (weatherstack_key location) w) |})
    by apply lookup_insert_eq.
  exists w1, (clock env (stamp_index (weatherstack_key location) w)).
  split; [exact H1 |].
  split; [exact Hentry |].
  split; [reflexivity |].
  split; [reflexivity |].
  split; [| apply Hnext].
  intros random env' Hfresh. exact (Hnext _ random env' w1 Hentry Hfresh).
Qed.

(** X18.  When WeatherStack yields nothing (a falsy value) and the
    forecast has a first entry with two numeric temperatures, the reading
    is the one of that entry: the level is scored on the mean of the two
    temperatures, the temperature shown is the mean rounded, and the
    location is the one of the entry, whatever location was asked for. *)
Theorem forecast_reading_is_averaged random location env w d w1 md w2 item rest mx mn :
  getWeatherStackData location env w = (inr d, w1) ->
  truthy d = false ->
  getMalaysiaWeatherForecast env w1 = (inr md, w2) ->
  field md "data" = JArr (item :: rest) ->
  plain item = true ->
  field item "temperature_max" = JNum mx ->
  field item "temperature_min" = JNum mn ->
  getWeatherWithRisk random location env w =
  (inr {| WeatherData.temperature :=
            Number_toString (Math_round ((mx + mn) / 2)%float) +:+ "°C";
          WeatherData.humidity := text_of (field item "humidity") +:+ "%";
          WeatherData.rainfall := text_of (field item "rainfall") +:+ "mm";
          WeatherData.riskFactor :=
            calculateBreedingRisk ((mx + mn) / 2)%float
              (number_of (field item "humidity"))
              (number_of (field item "rainfall"));
          WeatherData.location := field item "location";
          WeatherData.lastUpdated := Date_toLocaleTimeString (clock env (ticks w2)) |},
   tick w2).
Proof.
  intros H1 Ht H2 Hdata Hp Hmx Hmn.
  assert (Hm : truthy md = true)
    by (destruct md; try reflexivity; discriminate).
  unfold getWeatherWithRisk.
  apply try_catch_inr. rewrite (bind_inr _ _ _ _ _ _ H1), Ht.
  rewrite (bind_inr _ _ _ _ _ _ H2), Hm.
  rewrite (bind_evaluates _ _ true).
  2:{ eapply evaluates_bind; [apply evaluates_getProp; auto with js |].
      rewrite Hdata. apply evaluates_ret. }
  rewrite (bind_evaluates _ _ (field md "data"))
    by (apply evaluates_getProp; auto with js).
  rewrite Hdata. cbn [first_item].
  now apply forecast_reading_run.
Qed.

(** X19.  When WeatherStack yields nothing and the forecast cannot be used
    (it is falsy, or its [data] is missing, empty or not a list), the
    reading is the estimate, marked as such, for the place ["Malaysia"]. *)
Theorem estimate_when_providers_fail random location env w d w1 md w2 :
  getWeatherStackData location env w = (inr d, w1) ->
  truthy d = false ->
  getMalaysiaWeatherForecast env w1 = (inr md, w2) ->
  usable_forecast md = false ->
  getWeatherWithRisk random location env w = getFallbackWeatherData random env w2
  /\ exists r,
       getWeatherWithRisk random location env w = (inr r, tick w2)
       /\ WeatherData.location r = JStr "Malaysia"
       /\ WeatherData.lastUpdated r
          = Date_toLocaleTimeString (clock env (ticks w2)) +:+ " (Estimated)".
Proof.
  intros H1 Ht H2 Hu.
  assert (E : getWeatherWithRisk random location env w
              = getFallbackWeatherData random env w2).
  { destruct (getFallbackWeatherData_run random env w2) as (r & Hr & _).
    unfold getWeatherWithRisk, try_catch.
    rewrite (bind_inr _ _ _ _ _ _ H1), Ht.
    rewrite (bind_inr _ _ _ _ _ _ H2).
    unfold usable_forecast in Hu.
    destruct (truthy md) eqn:Hm; cbn [andb] in Hu.
    - unfold bind at 1. unfold bind at 1. unfold lift at 1.
      rewrite (getProp_field _ _ (truthy_not_nullish _ Hm)).
      unfold lift at 1.
      destruct (has_items (field md "data")) as [e | b]; [now rewrite Hr |].
      subst b. now rewrite Hr.
    - unfold bind at 1. cbn [ret]. now rewrite Hr. }
  split; [exact E |].
  destruct (getFallbackWeatherData_run random env w2) as (r & Hr & Hl & Hu' & _).
  exists r. rewrite E. repeat split; assumption.
Qed.

End ChainFacts.

(** X20.  [getWeatherWarnings] never rejects: it sends its one request,
    returns the decoded body of an OK response and [null] after every
    failure (a rejected fetch, a status that is not OK, a body that is not
    JSON), and leaves the cache alone. *)
Theorem getWeatherWarnings_resolves env w :
  getWeatherWarnings env w
  = (inr (default JNull (answer env w warning_request)), sent warning_request w).
Proof.
  unfold getWeatherWarnings, answer, try_catch, bind, fetch, response_json, lift.
  destruct (backend env (log w) warning_request) as [e | response]; [reflexivity |].
  destruct (ok response); [| reflexivity].
  destruct (resp_json response); reflexivity.
Qed.

Section DetailedFacts.
Context `{rt : Runtime}.

(** X12.  The detailed analysis agrees with [calculateBreedingRisk] and
    with the reasons of the scorer, and its historical context starts with
    the same sentence and tells the level: two analyses have the same
    context exactly when they have the same level. *)
Theorem historical_context_tells_the_level t h r t' h' r' :
  DetailedRiskAnalysis.risk (getDetailedRiskAnalysis t h r) = calculateBreedingRisk t h r
  /\ DetailedRiskAnalysis.reasoning (getDetailedRiskAnalysis t h r)
     = reasoning (assessDengueRisk t h r)
  /\ String.prefix "Based on Selangor weather patterns (June-September 2025): "
       (DetailedRiskAnalysis.historicalContext (getDetailedRiskAnalysis t h r)) = true
  /\ (DetailedRiskAnalysis.historicalContext (getDetailedRiskAnalysis t h r)
      = DetailedRiskAnalysis.historicalContext (getDetailedRiskAnalysis t' h' r')
      <-> calculateBreedingRisk t h r = calculateBreedingRisk t' h' r').
Proof.
  unfold getDetailedRiskAnalysis, calculateBreedingRisk.
  cbn [DetailedRiskAnalysis.risk DetailedRiskAnalysis.reasoning
       DetailedRiskAnalysis.historicalContext].
  split; [reflexivity |]. split; [reflexivity |].
  destruct (risk (assessDengueRisk t h r)), (risk (assessDengueRisk t' h' r'));
    (split; [reflexivity |]); split; intros H;
    try reflexivity; try discriminate H;
    apply String.eqb_eq in H; vm_compute in H; discriminate H.
Qed.

End DetailedFacts.

(* ===================================================================== *)
(** ** The live-weather client: the other calls *)
(* ===================================================================== *)

Lemma toLowerCase_idempotent s : toLowerCase (toLowerCase s) = toLowerCase s.
Proof.
  induction s as [| c s IH]; [reflexivity |].
  cbn [toLowerCase]. rewrite IH. f_equal.
  destruct c as [[] [] [] [] [] [] [] []]; reflexivity.
Qed.

(** X28.  [mapCategoryToRiskLevel] returns Low exactly for the strings
    that read ["not_hotspot"] in lower case and never returns Medium.  The
    categories of the interface are not among them: ["Not Hotspot"], with
    its blank, falls to the default and maps to High. *)
Theorem not_hotspot_label_maps_to_high :
  (forall category,
     mapCategoryToRiskLevel category = Low <-> toLowerCase category = "not_hotspot"%string)
  /\ (forall category, mapCategoryToRiskLevel category <> Medium)
  /\ (forall c, mapCategoryToRiskLevel (Category_toString c) <> Low)
  /\ mapCategoryToRiskLevel (Category_toString NotHotspot) = High.
Proof.
  split; [| split; [| split]].
  - intros category. unfold mapCategoryToRiskLevel.
    destruct (String.eqb_spec (toLowerCase category) "hotspot") as [E | _];
      [rewrite E; split; discriminate |].
    destruct (String.eqb_spec (toLowerCase category) "potential") as [E | _];
      [rewrite E; split; discriminate |].
    destruct (String.eqb_spec (toLowerCase category) "not_hotspot") as [E | N];
      [now split | split; [discriminate | contradiction]].
  - intros category. unfold mapCategoryToRiskLevel.
    destruct (String.eqb _ "hotspot"); [discriminate |].
    destruct (String.eqb _ "potential"); [discriminate |].
    destruct (String.eqb _ "not_hotspot"); discriminate.
  - intros []; discriminate.
  - reflexivity.
Qed.

(** Running a [fetch]: the request is logged, and a rejection ends the
    computation. *)
Lemma bind_fetch {A} req (k : Response -> M A) env w :
  bind (fetch req) k env w =
  match backend env (log w) req with
  | inl e => (inl e, sent req w)
  | inr response => k response env (sent req w)
  end.
Proof. reflexivity. Qed.

Section ClientFacts.
Context `{rt : Runtime}.
Variable baseUrl : string.

(** X21.  [healthCheck] of the live-weather client never rejects: it sends
    its one request and returns the decoded body of an OK response; every
    failure yields the fallback status. *)
Theorem healthCheck_resolves env w :
  healthCheck baseUrl env w
  = (inr (default fallback_status (answer env w (get_request (baseUrl +:+ "/health")))),
     sent (get_request (baseUrl +:+ "/health")) w).
Proof.
  unfold healthCheck, answer, try_catch, bind, fetch, response_json, lift.
  destruct (backend env (log w) _) as [e | response]; [reflexivity |].
  destruct (ok response); cbn [negb]; [| reflexivity].
  destruct (resp_json response); reflexivity.
Qed.

(** The calls that fetch a document or throw all have the same shape. *)
Lemma endpoint_holds req outer inner :
  endpoint_contract
    (try_catch
       (response <- fetch req ;;
        if negb (ok response) then
          throw (ErrorObj (inner +:+ resp_statusText response))
        else response_json response)
       (fun error =>
          throw (ErrorObj (outer +:+ message_or error "Unknown error"))))
    req outer inner.
Proof.
  intros env w.
  unfold answer, try_catch, bind, fetch, response_json, lift, throw.
  destruct (backend env (log w) req) as [e | response]; cbn [fst snd].
  - split; [reflexivity |]. split; [intros v; split; discriminate |].
    split; [intros ? [= <-]; eauto | discriminate].
  - destruct (ok response) eqn:Hok; cbn [negb fst snd].
    + destruct (resp_json response) as [e | v]; cbn [fst snd].
      * split; [reflexivity |]. split; [intros v; split; discriminate |].
        split; [intros ? [= <-]; eauto | intros ? [= <-]; congruence].
      * split; [reflexivity |].
        split; [intros v'; split; intros [= <-]; reflexivity |].
        split; [discriminate | intros ? [= <-]; congruence].
    + split; [reflexivity |]. split; [intros v; split; discriminate |].
      split; [intros ? [= <-]; eauto | intros ? [= <-]; reflexivity].
Qed.

(** X22.  [getDashboardData], [getHeatmapData], [getQuantumOptimization],
    [trainModel] and [getGamificationStats] each send one request; they
    resolve exactly with the decoded body of an OK response, and reject
    otherwise with an [Error] whose message starts with the text of the
    call, followed after a status that is not OK by the text of the
    request and the status text. *)
Theorem endpoints_reject_with_their_prefix problemType :
  endpoint_contract (getDashboardData baseUrl) (dashboard_request baseUrl)
    "Failed to get dashboard data: " "Dashboard request failed: "
  /\ endpoint_contract (getHeatmapData baseUrl) (heatmap_request baseUrl)
       "Failed to get heatmap data: " "Heatmap request failed: "
  /\ endpoint_contract (getQuantumOptimization baseUrl problemType)
       (quantum_request baseUrl problemType)
       "Quantum optimization failed: " "Quantum optimization failed: "
  /\ endpoint_contract (trainModel baseUrl) (training_request baseUrl)
       "Model training failed: " "Model training failed: "
  /\ endpoint_contract (getGamificationStats baseUrl) (gamification_request baseUrl)
       "Failed to get gamification stats: " "Gamification request failed: ".
Proof. repeat split; apply endpoint_holds. Qed.

(** Whatever [submitReport] throws is an [Error] of its own. *)
Lemma submitReport_rejection location description imageFile latitude longitude
    reporterContact env w e :
  fst (submitReport baseUrl location description imageFile latitude longitude
         reporterContact env w) = inl e ->
  exists m, e = ErrorObj ("Report submission failed: " +:+ m).
Proof.
  unfold submitReport, try_catch.
  destruct (bind _ _ env w) as [[e' | r] w1]; cbn [fst throw]; [| discriminate].
  intros [= <-]. eauto.
Qed.

(** [submitReport] sends its one request, whatever the answer. *)
Lemma submitReport_log location description imageFile latitude longitude
    reporterContact env w :
  log (snd (submitReport baseUrl location description imageFile latitude longitude
              reporterContact env w))
  = log w ++ [report_request baseUrl
                (report_form location description imageFile latitude longitude
                   reporterContact)]
  /\ cache (snd (submitReport baseUrl location description imageFile latitude
                   longitude reporterContact env w)) = cache w.
Proof.
  unfold submitReport. cbv zeta.
  match goal with
  | |- context [try_catch ?m ?h env w] =>
      destruct (quiet_handler m h env w (fun e => quiet_throw _)) as [-> ->]
  end.
  rewrite !bind_fetch.
  destruct (backend env (log w) _) as [e | response]; [now split |].
  destruct (ok response); cbn [negb].
  - assert (Hq : quiet (result <- response_json response ;; normalized_report result))
      by (apply quiet_bind; [apply quiet_lift | intros ?; apply normalized_report_quiet]).
    exact (Hq env _).
  - exact (report_failure_quiet response env _).
Qed.

(** X25.  For every report, backend and state, [submitReport] sends
    exactly one request, the POST of the form, whether it resolves or
    rejects; it never retries and never touches the cache. *)
Theorem submitReport_sends_one_request location description imageFile latitude
    longitude reporterContact env w :
  log (snd (submitReport baseUrl location description imageFile latitude longitude
              reporterContact env w))
  = log w ++ [report_request baseUrl
                (report_form location description imageFile latitude longitude
                   reporterContact)]
  /\ cache (snd (submitReport baseUrl location description imageFile latitude
                   longitude reporterContact env w)) = cache w.
Proof. apply submitReport_log. Qed.

(** X23.  [analyzeImage] submits a report with the description
    ["Image analysis request"], the image, and the location given, or
    ["Unknown Location"] when none or an empty one is given.  Whatever it
    throws is an [Error] whose message starts with both prefixes,
    ["Image analysis failed: Report submission failed: "]. *)
Theorem analyzeImage_failures_are_prefixed imageFile location env w :
  (forall e,
     fst (analyzeImage baseUrl imageFile location env w) = inl e ->
     exists m,
       e = ErrorObj ("Image analysis failed: Report submission failed: " +:+ m))
  /\ log (snd (analyzeImage baseUrl imageFile location env w))
     = log w ++ [report_request baseUrl
                   [ ("location",
                      FormText (match location with
                                | Some l => if String.eqb l "" then "Unknown Location" else l
                                | None => "Unknown Location"
                                end));
                     ("description", FormText "Image analysis request");
                     ("image", FormFile imageFile) ]%string].
Proof.
  split.
  - intros e. unfold analyzeImage, try_catch.
    match goal with
    | |- context [submitReport ?b ?l ?d ?i ?la ?lo ?c env w] =>
        pose proof (submitReport_rejection l d i la lo c env w) as Hs;
        destruct (submitReport b l d i la lo c env w) as [[e' | r] w1]
    end; cbn [fst throw] in *; [| discriminate].
    destruct (Hs e' eq_refl) as [m ->]. intros [= <-].
    exists m. reflexivity.
  - unfold analyzeImage.
    match goal with
    | |- context [try_catch ?m ?h env w] =>
        destruct (quiet_handler m h env w (fun e => quiet_throw _)) as [-> _]
    end.
    apply submitReport_log.
Qed.

(** X26.  For every request, backend and state, [predictOutbreak] of the
    live-weather client sends the probe first, then the prediction call
    exactly when the probe was answered with an OK status, and nothing
    else; it never touches the cache. *)
Theorem predictOutbreak_sends_probe_first data env w :
  log (snd (predictOutbreak baseUrl data env w))
  = log w ++ health_request baseUrl
             :: (if probe_ok baseUrl env w then [predict_request baseUrl data] else [])
  /\ cache (snd (predictOutbreak baseUrl data env w)) = cache w.
Proof.
  unfold predictOutbreak.
  match goal with
  | |- context [try_catch ?m ?h env w] =>
      destruct (quiet_handler m h env w (fun e => getSimulatedPrediction_quiet data))
        as [-> ->]
  end.
  unfold probe_ok.
  rewrite !bind_fetch.
  destruct (backend env (log w) (health_request baseUrl)) as [e | health];
    [now split |].
  destruct (ok health); cbn [negb].
  - rewrite !bind_fetch. cbn [sent log cache ticks].
    destruct (backend env _ (predict_request baseUrl data)) as [e | response];
      cbn [snd log cache]; [unfold sent; cbn [log cache]; rewrite <- app_assoc; now split |].
    match goal with
    | |- context [(if ?c then ?m1 else ?m2) env ?w0] =>
        assert (Hq : quiet (if c then m1 else m2))
    end.
    { apply quiet_if.
      - apply quiet_bind; [| intros ?; apply getSimulatedPrediction_quiet].
        apply quiet_try_catch; [apply quiet_lift | intros ?; apply quiet_ret].
      - apply quiet_bind; [apply quiet_lift | intros result].
        apply quiet_bind; [apply quiet_lift | intros error].
        apply quiet_if;
          [apply getSimulatedPrediction_quiet | apply normalized_prediction_quiet]. }
    destruct (Hq env (sent (predict_request baseUrl data)
                        (sent (health_request baseUrl) w))) as [-> ->].
    unfold sent. cbn [log cache]. rewrite <- app_assoc. now split.
  - exact (getSimulatedPrediction_quiet data env _).
Qed.

End ClientFacts.

(* ===================================================================== *)
(** ** The second client: when it resolves and what it throws *)
(* ===================================================================== *)

Section LegacyOutcomes.
Context `{rt : Runtime}.
Variable baseUrl : string.

(** The probe never throws: it tells whether the answer was OK. *)
Lemma legacy_healthCheck_run env w :
  Legacy.healthCheck baseUrl env w
  = (inr match backend env (log w) (get_request (baseUrl +:+ "/health")) with
         | inr health => ok health
         | inl _ => false
         end,
     sent (get_request (baseUrl +:+ "/health")) w).
Proof.
  unfold Legacy.healthCheck, try_catch. rewrite bind_fetch.
  destruct (backend env (log w) _); reflexivity.
Qed.

(** With a healthy probe and a prediction response that is not OK, the
    call rejects with the message of [legacy_thrown]. *)
Lemma legacy_not_ok data env w health response :
  backend env (log w) (get_request (baseUrl +:+ "/health")) = inr health ->
  ok health = true ->
  backend env (log w ++ [get_request (baseUrl +:+ "/health")])
    (Legacy.predict_request baseUrl data) = inr response ->
  ok response = false ->
  Legacy.predictOutbreak baseUrl data env w
  = (inl (ErrorObj (message_or (legacy_thrown response)
                      "An unexpected error occurred while making the prediction")),
     sent (Legacy.predict_request baseUrl data)
       (sent (get_request (baseUrl +:+ "/health")) w)).
Proof.
  intros Hh Hhok Hr Hrok.
  unfold Legacy.predictOutbreak, try_catch.
  rewrite (bind_inr _ _ _ _ _ _ (legacy_healthCheck_run env w)), Hh, Hhok.
  cbn [negb]. rewrite bind_fetch. cbn [sent log]. rewrite Hr, Hrok. cbn [negb].
  unfold legacy_thrown, or_else, bind, try_catch, response_json, lift, js_or, throw.
  destruct (resp_json response) as [e | body]; cbn [ret].
  - cbn [getProp own default]. cbn [String.eqb Ascii.eqb Bool.eqb].
    destruct (truthy _); cbn [ret]; destruct (new_Error _); reflexivity.
  - destruct (getProp body "detail") as [e | detail]; [reflexivity |].
    destruct (truthy detail); cbn [ret]; destruct (new_Error _); reflexivity.
Qed.

(** X24.  The second [predictOutbreak] resolves exactly when the probe and
    the prediction call are both answered with an OK status and the body
    of the latter is JSON; it then returns that body as it is, after these
    two requests.  It never makes up a result. *)
Theorem legacy_resolves_with_body data env w v w' :
  Legacy.predictOutbreak baseUrl data env w = (inr v, w') <->
  exists health response,
    backend env (log w) (get_request (baseUrl +:+ "/health")) = inr health
    /\ ok health = true
    /\ backend env (log w ++ [get_request (baseUrl +:+ "/health")])
         (Legacy.predict_request baseUrl data) = inr response
    /\ ok response = true
    /\ resp_json response = inr v
    /\ w' = sent (Legacy.predict_request baseUrl data)
              (sent (get_request (baseUrl +:+ "/health")) w).
Proof.
  split.
  - destruct (backend env (log w) (get_request (baseUrl +:+ "/health")))
      as [e | health] eqn:Hh.
    { unfold Legacy.predictOutbreak, try_catch.
      rewrite (bind_inr _ _ _ _ _ _ (legacy_healthCheck_run env w)), Hh.
      discriminate. }
    destruct (ok health) eqn:Hhok.
    2:{ unfold Legacy.predictOutbreak, try_catch.
        rewrite (bind_inr _ _ _ _ _ _ (legacy_healthCheck_run env w)), Hh, Hhok.
        discriminate. }
    destruct (backend env (log w ++ [get_request (baseUrl +:+ "/health")])
                (Legacy.predict_request baseUrl data)) as [e | response] eqn:Hr.
    { unfold Legacy.predictOutbreak, try_catch.
      rewrite (bind_inr _ _ _ _ _ _ (legacy_healthCheck_run env w)), Hh, Hhok.
      cbn [negb]. rewrite bind_fetch. cbn [sent log]. rewrite Hr. discriminate. }
    destruct (ok response) eqn:Hrok.
    2:{ rewrite (legacy_not_ok data env w health response Hh Hhok Hr Hrok).
        discriminate. }
    unfold Legacy.predictOutbreak, try_catch.
    rewrite (bind_inr _ _ _ _ _ _ (legacy_healthCheck_run env w)), Hh, Hhok.
    cbn [negb]. rewrite bind_fetch. cbn [sent log]. rewrite Hr, Hrok. cbn [negb].
    unfold bind, response_json, lift.
    destruct (resp_json response) as [e | body] eqn:Hj; [discriminate |].
    cbn [ret]. intros [= <- <-]. exists health, response.
    repeat split; assumption.
  - intros (health & response & Hh & Hhok & Hr & Hrok & Hj & ->).
    unfold Legacy.predictOutbreak, try_catch.
    rewrite (bind_inr _ _ _ _ _ _ (legacy_healthCheck_run env w)), Hh, Hhok.
    cbn [negb]. rewrite bind_fetch. cbn [sent log]. rewrite Hr, Hrok. cbn [negb].
    unfold bind, response_json, lift. rewrite Hj. reflexivity.
Qed.

(** X29.  After a healthy probe, a prediction response that is not OK
    makes the second [predictOutbreak] reject with an [Error] whose message
    is the [detail] of the body when that is a string that is not empty
    (without any prefix); the fixed text ["Failed to get prediction from AI
    model"] when the body is a JSON value other than [null] whose [detail]
    is absent or falsy; and, when the body is not JSON, the status text, or
    ["Unknown error occurred"] for an empty status text. *)
Theorem legacy_rejects_with_detail data env w health response :
  backend env (log w) (get_request (baseUrl +:+ "/health")) = inr health ->
  ok health = true ->
  backend env (log w ++ [get_request (baseUrl +:+ "/health")])
    (Legacy.predict_request baseUrl data) = inr response ->
  ok response = false ->
  exists message,
    fst (Legacy.predictOutbreak baseUrl data env w) = inl (ErrorObj message)
    /\ (forall e, resp_json response = inl e ->
          message = if String.eqb (resp_statusText response) ""
                    then "Unknown error occurred"%string
                    else resp_statusText response)
    /\ (forall body, resp_json response = inr body -> nullish body = false ->
          (truthy (field body "detail") = false ->
             message = "Failed to get prediction from AI model"%string)
          /\ (forall detail, field body "detail" = JStr detail ->
                detail <> ""%string -> message = detail)).
Proof.
  intros Hh Hhok Hr Hrok.
  eexists. rewrite (legacy_not_ok data env w health response Hh Hhok Hr Hrok).
  split; [reflexivity |].
  unfold legacy_thrown. split.
  - intros e ->. cbn. unfold js_or. cbn.
    destruct (String.eqb (resp_statusText response) "") eqn:E; cbn;
      [reflexivity |]. rewrite E. reflexivity.
  - intros body -> Hn. rewrite (getProp_field _ _ Hn). unfold js_or. split.
    + intros ->. reflexivity.
    + intros detail -> Hd. cbn.
      destruct (String.eqb_spec detail ""); [contradiction | reflexivity].
Qed.

End LegacyOutcomes.

(* ===================================================================== *)
(** ** The report client: an accepted response that cannot be read *)
(* ===================================================================== *)

Section ReportEdgeFacts.
Context `{rt : Runtime}.
Variable baseUrl : string.

(** X27.  An OK status does not make [submitReport] resolve: when the body
    gives a classification that is truthy but not a string, the call
    [toLowerCase] on it throws, and the report is rejected with that
    message after the prefix. *)
Theorem accepted_report_may_reject location description imageFile latitude longitude
    reporterContact env w response result :
  backend env (log w)
    (report_request baseUrl
       (report_form location description imageFile latitude longitude reporterContact))
  = inr response ->
  ok response = true ->
  resp_json response = inr result ->
  truthy (field result "ai_classification") = true ->
  (forall s, field result "ai_classification" <> JStr s) ->
  submitReport baseUrl location description imageFile latitude longitude
    reporterContact env w
  = (inl (ErrorObj ("Report submission failed: " +:+ notAFunctionMessage "toLowerCase")),
     sent (report_request baseUrl
             (report_form location description imageFile latitude longitude
                reporterContact)) w).
Proof.
  intros Hb Hok Hj Ht Hs.
  assert (Hn : nullish result = false)
    by (destruct result; try reflexivity; discriminate).
  unfold submitReport, try_catch. cbv zeta.
  rewrite bind_fetch, Hb, Hok. cbn [negb].
  unfold bind at 1, response_json at 1, lift at 1. rewrite Hj.
  unfold normalized_report.
  do 2 run_step.
  unfold bind at 1, lift at 1. unfold js_or. rewrite Ht.
  destruct (field result "ai_classification") eqn:E; try reflexivity.
  exfalso. eapply Hs. reflexivity.
Qed.

End ReportEdgeFacts.

(* ===================================================================== *)
(** ** The estimate *)
(* ===================================================================== *)

Section EstimateFacts.
Context `{rt : Runtime} `{lc : Locale}.
#[local] Open Scope float_scope.

(** X11.  Whenever the three draws give readings in the ranges that the
    source documents (28-34 degrees, 65-85 %, at most 20 mm), the level of
    the estimate is Medium or High: an estimate is never Low and never
    Critical. *)
Theorem estimate_is_medium_or_high random env w :
  (28 <=? 28 + random 0%nat * 6) = true ->
  (28 + random 0%nat * 6 <=? 34) = true ->
  (65 <=? 65 + random 1%nat * 20) = true ->
  (65 + random 1%nat * 20 <=? 85) = true ->
  (random 2%nat * 20 <=? 20) = true ->
  exists r,
    getFallbackWeatherData random env w = (inr r, tick w)
    /\ (WeatherData.riskFactor r = Medium \/ WeatherData.riskFactor r = High).
Proof.
  intros T1 T2 H1 H2 R.
  destruct (getFallbackWeatherData_run random env w) as (r & Hrun & _ & _ & Hrisk).
  exists r. split; [exact Hrun |].
  rewrite Hrisk. unfold calculateBreedingRisk. rewrite assessDengueRisk_level.
  pose proof (typical_readings_score _ _ _ T1 T2 H1 H2 R) as Hs.
  unfold level_of.
  destruct (Z.leb_spec 7 (riskScore (assessDengueRisk_rules
              (28 + random 0%nat * 6) (65 + random 1%nat * 20) (random 2%nat * 20))));
    [lia |].
  destruct (Z.leb_spec 5 (riskScore (assessDengueRisk_rules
              (28 + random 0%nat * 6) (65 + random 1%nat * 20) (random 2%nat * 20))));
    [now right |].
  destruct (Z.leb_spec 3 (riskScore (assessDengueRisk_rules
              (28 + random 0%nat * 6) (65 + random 1%nat * 20) (random 2%nat * 20))));
    [now left | lia].
Qed.

End EstimateFacts.

(* ===================================================================== *)
(** ** Examples of the further properties *)
(* ===================================================================== *)

(** X11 with every draw at one half: 31 degrees, 75 % and 10 mm. *)
Lemma estimate_example :
  ((28 <=? 28 + even_draws 0%nat * 6)%float = true
   /\ (28 + even_draws 0%nat * 6 <=? 34)%float = true
   /\ (65 <=? 65 + even_draws 1%nat * 20)%float = true
   /\ (65 + even_draws 1%nat * 20 <=? 85)%float = true
   /\ (even_draws 2%nat * 20 <=? 20)%float = true)
  /\ exists r,
       getFallbackWeatherData (rt := Host.v8) (lc := Clockface.utc) even_draws
         Host.offline Host.start = (inr r, tick Host.start)
       /\ (WeatherData.riskFactor r = Medium \/ WeatherData.riskFactor r = High).
Proof.
  split; [repeat split; reflexivity |].
  apply (estimate_is_medium_or_high (rt := Host.v8) (lc := Clockface.utc) even_draws
           Host.offline Host.start); reflexivity.
Defined.

(** X13 for Shah Alam and Klang. *)
Lemma cache_entries_example :
  "Shah Alam"%string <> "Klang"%string
  /\ cache (snd (getWeatherStackData "Shah Alam"
                   (Host.answering (Host.json_response 200 "OK" example_weather) 1000)
                   Host.start)) !! weatherstack_key "Klang"
     = cache Host.start !! weatherstack_key "Klang"
  /\ cache (snd (getWeatherStackData "Shah Alam"
                   (Host.answering (Host.json_response 200 "OK" example_weather) 1000)
                   Host.start)) !! malaysia_key
     = cache Host.start !! malaysia_key
  /\ cache (snd (getMalaysiaWeatherForecast
                   (Host.answering (Host.json_response 200 "OK" example_weather) 1000)
                   Host.start)) !! weatherstack_key "Klang"
     = cache Host.start !! weatherstack_key "Klang".
Proof.
  split; [discriminate |].
  apply (cache_entries_are_separate "Shah Alam" "Klang"
           (Host.answering (Host.json_response 200 "OK" example_weather) 1000)
           Host.start).
  discriminate.
Defined.

(** X14 with the forecast served: the entry is stamped with the time of
    the call's one reading of the clock, and a second call a second later
    is answered from the cache although the backend is then down. *)
Lemma forecast_second_call_example :
  (stale malaysia_key forecast_only Host.start = true
   /\ backend forecast_only (log Host.start) malaysia_request
      = inr (Host.json_response 200 "OK" example_forecast)
   /\ ok (Host.json_response 200 "OK" example_forecast) = true)
  /\ exists w1,
       getMalaysiaWeatherForecast forecast_only Host.start = (inr example_forecast, w1)
       /\ log w1 = log Host.start ++ [malaysia_request]
       /\ cache w1 !! malaysia_key
          = Some {| CacheEntry.data := example_forecast;
                    CacheEntry.timestamp := 1735689600000 |}
       /\ clock Host.offline (ticks w1) = 1735689601000
       /\ getMalaysiaWeatherForecast Host.offline w1 = (inr example_forecast, tick w1).
Proof.
  split; [repeat split; reflexivity |].
  destruct (forecast_second_call_is_cached forecast_only Host.start
              (Host.json_response 200 "OK" example_forecast) example_forecast
              eq_refl eq_refl eq_refl eq_refl)
    as (w1 & t1 & H1 & Hl & Hc & Ht1 & Hticks & Hsecond & _).
  assert (Et : t1 = 1735689600000) by (rewrite Ht1; reflexivity).
  assert (Ec : clock Host.offline (ticks w1) = 1735689601000)
    by (rewrite Hticks; reflexivity).
  exists w1.
  split; [exact H1 |]. split; [exact Hl |].
  split; [rewrite <- Et; exact Hc |].
  split; [exact Ec |].
  apply Hsecond. rewrite Ec, Et. reflexivity.
Defined.

(** X16 for Shah Alam: 31 degrees and 78 % give the level High. *)
Lemma primary_reading_example :
  exists w1,
    (getWeatherStackData "Shah Alam"
       (Host.answering (Host.json_response 200 "OK" example_weather) 1000) Host.start
     = (inr example_weather, w1)
     /\ plain example_weather = true
     /\ nullish (field example_weather "current") = false
     /\ nullish (field example_weather "location") = false)
    /\ getWeatherWithRisk (rt := Host.v8) (lc := Clockface.utc) even_draws "Shah Alam"
         (Host.answering (Host.json_response 200 "OK" example_weather) 1000) Host.start
       = (inr {| WeatherData.temperature := "31°C";
                 WeatherData.humidity := "78%";
                 WeatherData.rainfall := "2mm";
                 WeatherData.riskFactor := High;
                 WeatherData.location := JStr "Shah Alam, Selangor";
                 WeatherData.lastUpdated := "00:00:01" |},
          tick w1).
Proof.
  eexists. split; [repeat split; reflexivity |].
  rewrite (primary_reading_is_reported (rt := Host.v8) (lc := Clockface.utc)
             even_draws "Shah Alam"
             (Host.answering (Host.json_response 200 "OK" example_weather) 1000)
             Host.start example_weather _ eq_refl eq_refl eq_refl eq_refl).
  reflexivity.
Defined.

(** X17 for a payload that reports an error with the status 200. *)
Lemma malformed_primary_example :
  exists w1,
    (getWeatherStackData "Shah Alam"
       (Host.answering (Host.json_response 200 "OK" error_payload) 1000) Host.start
     = (inr error_payload, w1)
     /\ truthy error_payload = true
     /\ nullish (field error_payload "current") = true)
    /\ getWeatherWithRisk (rt := Host.v8) (lc := Clockface.utc) even_draws "Shah Alam"
         (Host.answering (Host.json_response 200 "OK" error_payload) 1000) Host.start
       = getFallbackWeatherData (rt := Host.v8) (lc := Clockface.utc) even_draws
           (Host.answering (Host.json_response 200 "OK" error_payload) 1000) w1
    /\ log (snd (getWeatherWithRisk (rt := Host.v8) (lc := Clockface.utc) even_draws
                   "Shah Alam"
                   (Host.answering (Host.json_response 200 "OK" error_payload) 1000)
                   Host.start))
       = [weatherstack_request "Shah Alam"].
Proof.
  eexists. split; [repeat split; reflexivity |].
  destruct (malformed_primary_skips_forecast (rt := Host.v8) (lc := Clockface.utc)
              even_draws "Shah Alam"
              (Host.answering (Host.json_response 200 "OK" error_payload) 1000)
              Host.start error_payload _ eq_refl eq_refl eq_refl) as [E L].
  split; [exact E | exact L].
Defined.

(** X18 with WeatherStack unreachable: the entry for Petaling Jaya is
    reported although Shah Alam was asked for; the mean 29.5 scores as an
    optimal temperature and is shown as 30. *)
Lemma forecast_reading_example :
  exists w1 w2,
    (getWeatherStackData "Shah Alam" forecast_only Host.start = (inr JNull, w1)
     /\ truthy JNull = false
     /\ getMalaysiaWeatherForecast forecast_only w1 = (inr example_forecast, w2)
     /\ field example_forecast "data" = JArr [example_entry]
     /\ plain example_entry = true
     /\ field example_entry "temperature_max" = JNum 34
     /\ field example_entry "temperature_min" = JNum 25)
    /\ getWeatherWithRisk (rt := Host.v8) (lc := Clockface.utc) even_draws "Shah Alam"
         forecast_only Host.start
       = (inr {| WeatherData.temperature := "30°C";
                 WeatherData.humidity := "82%";
                 WeatherData.rainfall := "60mm";
                 WeatherData.riskFactor := Critical;
                 WeatherData.location := JStr "Petaling Jaya";
                 WeatherData.lastUpdated := "00:00:01" |},
          tick w2).
Proof.
  do 2 eexists. split; [repeat split; reflexivity |].
  rewrite (forecast_reading_is_averaged (rt := Host.v8) (lc := Clockface.utc)
             even_draws "Shah Alam" forecast_only Host.start JNull _ example_forecast _
             example_entry [] 34 25
             eq_refl eq_refl eq_refl eq_refl eq_refl eq_refl eq_refl).
  reflexivity.
Defined.

(** X19 with both providers unreachable. *)
Lemma estimate_when_offline :
  exists w1 w2,
    (getWeatherStackData "Shah Alam" Host.offline Host.start = (inr JNull, w1)
     /\ truthy JNull = false
     /\ getMalaysiaWeatherForecast Host.offline w1 = (inr JNull, w2)
     /\ usable_forecast (rt := Host.v8) JNull = false)
    /\ getWeatherWithRisk (rt := Host.v8) (lc := Clockface.utc) even_draws "Shah Alam"
         Host.offline Host.start
       = (inr {| WeatherData.temperature := "31°C";
                 WeatherData.humidity := "75%";
                 WeatherData.rainfall := "10mm";
                 WeatherData.riskFactor := High;
                 WeatherData.location := JStr "Malaysia";
                 WeatherData.lastUpdated := "00:00:00 (Estimated)" |},
          tick w2)
    /\ log w2 = [weatherstack_request "Shah Alam"; malaysia_request].
Proof.
  do 2 eexists. split; [repeat split; reflexivity |].
  destruct (estimate_when_providers_fail (rt := Host.v8) (lc := Clockface.utc)
              even_draws "Shah Alam" Host.offline Host.start JNull _ JNull _
              eq_refl eq_refl eq_refl eq_refl) as [E _].
  split; [rewrite E; reflexivity | reflexivity].
Defined.

(** X27 for a classification that is the number 1. *)
Lemma accepted_report_example :
  (ok (Host.json_response 200 "OK" numeric_classification_body) = true
   /\ truthy (field numeric_classification_body "ai_classification") = true
   /\ forall s, field numeric_classification_body "ai_classification" <> JStr s)
  /\ fst (submitReport (rt := Host.v8) API_BASE_URL "Shah Alam" "Stagnant water"
            None None None None
            (Host.answering (Host.json_response 200 "OK" numeric_classification_body) 1000)
            Host.start)
     = inl (ErrorObj
              "Report submission failed: backendCategory.toLowerCase is not a function").
Proof.
  split; [repeat split; try reflexivity; discriminate |].
  rewrite (accepted_report_may_reject (rt := Host.v8) API_BASE_URL
             "Shah Alam" "Stagnant water" None None None None
             (Host.answering (Host.json_response 200 "OK" numeric_classification_body) 1000)
             Host.start
             (Host.json_response 200 "OK" numeric_classification_body)
             numeric_classification_body
             eq_refl eq_refl eq_refl eq_refl ltac:(discriminate)).
  reflexivity.
Defined.

(** X29 for a validation error with a [detail]: the message is the detail
    alone. *)
Lemma legacy_rejects_example :
  (ok (Host.json_response 200 "OK" (JObj [("status", JStr "healthy")]%string)) = true
   /\ ok (Host.json_response 422 "Unprocessable Entity"
            (JObj [("detail", JStr "Invalid temperature")]%string)) = false)
  /\ fst (Legacy.predictOutbreak (rt := Host.v8) API_BASE_URL
            (example_request "Kuala Lumpur" "Selangor") refusing_predictions Host.start)
     = inl (ErrorObj "Invalid temperature").
Proof.
  split; [split; reflexivity |].
  destruct (legacy_rejects_with_detail (rt := Host.v8) API_BASE_URL
              (example_request "Kuala Lumpur" "Selangor") refusing_predictions Host.start
              (Host.json_response 200 "OK" (JObj [("status", JStr "healthy")]%string))
              (Host.json_response 422 "Unprocessable Entity"
                 (JObj [("detail", JStr "Invalid temperature")]%string))
              eq_refl eq_refl eq_refl eq_refl)
    as (message & Hrun & _ & Hbody).
  destruct (Hbody _ eq_refl eq_refl) as (_ & Hdetail).
  rewrite Hrun, (Hdetail "Invalid temperature"%string eq_refl); [reflexivity | discriminate].
Defined.

(** X30 for the error report: the entry is stamped with the time of the
    storing call's one reading of the clock; the call a second later sends
    nothing although the backend would now answer with a reading. *)
Lemma malformed_payload_example :
  (stale (weatherstack_key "Shah Alam")
     (Host.answering (Host.json_response 200 "OK" error_payload) 1000) Host.start = true
   /\ ok (Host.json_response 200 "OK" error_payload) = true
   /\ truthy error_payload = true
   /\ nullish (field error_payload "current") = true)
  /\ exists w1,
       getWeatherStackData "Shah Alam"
         (Host.answering (Host.json_response 200 "OK" error_payload) 1000) Host.start
       = (inr error_payload, w1)
       /\ cache w1 !! weatherstack_key "Shah Alam"
          = Some {| CacheEntry.data := error_payload;
                    CacheEntry.timestamp := 1735689600000 |}
       /\ clock (Host.answering (Host.json_response 200 "OK" example_weather) 1000)
            (ticks w1) = 1735689601000
       /\ getWeatherWithRisk (rt := Host.v8) (lc := Clockface.utc) even_draws "Shah Alam"
            (Host.answering (Host.json_response 200 "OK" example_weather) 1000) w1
          = getFallbackWeatherData (rt := Host.v8) (lc := Clockface.utc) even_draws
              (Host.answering (Host.json_response 200 "OK" example_weather) 1000)
              (tick w1)
       /\ log (snd (getWeatherWithRisk (rt := Host.v8) (lc := Clockface.utc) even_draws
                      "Shah Alam"
                      (Host.answering (Host.json_response 200 "OK" example_weather) 1000)
                      w1))
          = log w1.
Proof.
  split; [repeat split; reflexivity |].
  destruct (malformed_payload_is_cached (rt := Host.v8) (lc := Clockface.utc) "Shah Alam"
              (Host.answering (Host.json_response 200 "OK" error_payload) 1000)
              Host.start (Host.json_response 200 "OK" error_payload) error_payload
              eq_refl eq_refl eq_refl eq_refl eq_refl eq_refl)
    as (w1 & t1 & H1 & Hentry & Ht1 & Hticks & Hsecond & _).
  assert (Et : t1 = 1735689600000) by (rewrite Ht1; reflexivity).
  assert (Ec : clock (Host.answering (Host.json_response 200 "OK" example_weather) 1000)
                 (ticks w1) = 1735689601000)
    by (rewrite Hticks; reflexivity).
  destruct (Hsecond even_draws
              (Host.answering (Host.json_response 200 "OK" example_weather) 1000)
              ltac:(rewrite Ec, Et; reflexivity)) as [E L].
  exists w1.
  split; [exact H1 |]. split; [rewrite <- Et; exact Hentry |].
  split; [exact Ec |]. split; [exact E | exact L].
Defined.
